(** * HostelComplaintX: complaint store, identity store and access policy

    A shallow embedding of the server side of the hostel complaint tracker:
    the table schema and zod schemas ([shared/schema]), the storage class
    [DatabaseStorage], the authentication routes of [setupAuth] and the
    routes of [registerRoutes].

    The relational store, the clocks, the UUID generator, the key derivation
    function and the e-mail regular expression are not code of the
    repository.  The store is modelled by two lists of rows with the
    constraints the schema declares (primary keys, the unique login name,
    the owner reference); what a request reads from its surroundings (a
    fresh UUID, the two clock readings, a random salt) is passed in as an
    [Env]; the key derivation function and the e-mail check are section
    variables. *)

From Stdlib Require Import String Ascii List ZArith Bool Lia Permutation Sorted.
Import ListNotations.

Local Open Scope string_scope.
Local Open Scope Z_scope.

(* ------------------------------------------------------------------ *)
(** ** Strings                                                          *)
(* ------------------------------------------------------------------ *)

Module Str.

Definition chars (s : string) : list ascii := list_ascii_of_string s.

(** [String.prototype.endsWith]. *)
Definition endsWith (s suffix : string) : bool :=
  let n := String.length s in
  let k := String.length suffix in
  (k <=? n)%nat && String.eqb (substring (n - k) k s) suffix.

(** [String.prototype.split] for a one-character separator. *)
Fixpoint splitOn (sep : ascii) (s : string) : list string :=
  match s with
  | EmptyString => [EmptyString]
  | String c rest =>
      if Ascii.eqb c sep then EmptyString :: splitOn sep rest
      else match splitOn sep rest with
           | [] => [String c EmptyString]
           | w :: ws => String c w :: ws
           end
  end.

(** Case folding of the ASCII letters.  ILIKE folds both operands under the
    locale of the store; on texts of ASCII characters that is this folding,
    and the statements about searches below are about such texts. *)
Definition lowerChar (c : ascii) : ascii :=
  let n := nat_of_ascii c in
  if ((65 <=? n) && (n <=? 90))%nat then ascii_of_nat (n + 32) else c.

Definition lower (l : list ascii) : list ascii := map lowerChar l.

(** JavaScript truthiness of a string. *)
Definition truthy (s : string) : bool := negb (String.eqb s EmptyString).

End Str.

(* ------------------------------------------------------------------ *)
(** ** shared/schema: enumerations and tables                           *)
(* ------------------------------------------------------------------ *)

(** [userRoleEnum] *)
Inductive Role := student | admin.

(** [complaintStatusEnum] *)
Inductive Status := pending | inprogress | resolved.

(** [complaintCategoryEnum] *)
Inductive Category := maintenance | food | cleanliness | security | wifi | other.

Definition roleToken (r : Role) : string :=
  match r with student => "student" | admin => "admin" end.

Definition statusToken (s : Status) : string :=
  match s with
  | pending => "pending" | inprogress => "inprogress" | resolved => "resolved"
  end.

Definition categoryToken (c : Category) : string :=
  match c with
  | maintenance => "maintenance" | food => "food" | cleanliness => "cleanliness"
  | security => "security" | wifi => "wifi" | other => "other"
  end.

Definition allRoles : list Role := [student; admin].
Definition allStatuses : list Status := [pending; inprogress; resolved].
Definition allCategories : list Category :=
  [maintenance; food; cleanliness; security; wifi; other].

(** Reading an enumeration label: the label's value, or nothing when the
    text is not a label of the enumeration. *)
Definition parseToken {A} (token : A -> string) (all : list A) (s : string) : option A :=
  find (fun a => String.eqb (token a) s) all.

Definition parseRole := parseToken roleToken allRoles.
Definition parseStatus := parseToken statusToken allStatuses.
Definition parseCategory := parseToken categoryToken allCategories.

Definition Role_eqb (a b : Role) : bool :=
  match a, b with student, student | admin, admin => true | _, _ => false end.

Definition Status_eqb (a b : Status) : bool :=
  match a, b with
  | pending, pending | inprogress, inprogress | resolved, resolved => true
  | _, _ => false
  end.

Definition Category_eqb (a b : Category) : bool :=
  String.eqb (categoryToken a) (categoryToken b).

(** The [users] table. *)
Module User.
Record t := mk
  { id : string;
    username : string;
    password : string;
    name : string;
    role : Role;
    roomNumber : option string;
    collegeEmail : option string;
    createdAt : Z }.
End User.

(** The [complaints] table. *)
Module Complaint.
Record t := mk
  { id : string;
    studentId : string;
    subject : string;
    description : string;
    category : Category;
    roomNumber : string;
    status : Status;
    adminResponse : option string;
    createdAt : Z;
    updatedAt : Z }.
End Complaint.

(** [InsertUser]: what [insertUserSchema] lets through.  [role] is optional
    (the column has a default); [roomNumber] is optional and nullable, and
    both an absent and a null value store NULL. *)
Record InsertUser := mkInsertUser
  { iu_username : string;
    iu_password : string;
    iu_name : string;
    iu_role : option Role;
    iu_roomNumber : option string;
    iu_collegeEmail : string }.

(** [InsertComplaint] *)
Record InsertComplaint := mkInsertComplaint
  { ic_subject : string;
    ic_description : string;
    ic_category : Category;
    ic_roomNumber : string }.

(** [UpdateComplaint]: both keys are optional; the outer [None] is an absent
    key, [Some None] an explicit null. *)
Record UpdateComplaint := mkUpdateComplaint
  { up_status : option Status;
    up_adminResponse : option (option string) }.

(** The owner projection of [ComplaintWithStudent]. *)
Record StudentInfo := mkStudentInfo
  { si_id : string;
    si_name : string;
    si_username : string;
    si_roomNumber : option string }.

Record ComplaintWithStudent := mkCWS
  { cws_complaint : Complaint.t;
    cws_student : option StudentInfo }.

(* ------------------------------------------------------------------ *)
(** ** The store                                                        *)
(* ------------------------------------------------------------------ *)

Record Db := mkDb
  { users : list User.t;
    complaints : list Complaint.t }.

Inductive DbError :=
| UniqueViolation          (* primary key or unique(username) *)
| ForeignKeyViolation      (* complaints.student_id references users.id *)
| InvalidEnumLabel.        (* a text that is no label of the column's enum *)

(** What one request reads from outside the program. *)
Record Env := mkEnv
  { genId : string;        (* gen_random_uuid() *)
    dbNow : Z;             (* now() evaluated by the store: defaultNow() *)
    appNow : Z;            (* new Date() evaluated by the server *)
    salt : string }.       (* randomBytes(16).toString("hex") *)

(** ILIKE, on texts of ASCII characters (see [Str.lowerChar]).  [%] matches
    any run of characters, [_] any one character, and a backslash makes the
    next pattern character literal.  The store raises on
    a pattern that ends in a lone backslash; no pattern built below does
    (each ends in [%]), and [like] answers [false] there. *)
Fixpoint like (p s : list ascii) {struct p} : bool :=
  match p with
  | [] => match s with [] => true | _ => false end
  | "%"%char :: p' =>
      (fix any (s : list ascii) : bool :=
         like p' s || match s with [] => false | _ :: s' => any s' end) s
  | "_"%char :: p' =>
      match s with [] => false | _ :: s' => like p' s' end
  | "\"%char :: [] => false
  | "\"%char :: c :: p' =>
      match s with [] => false | x :: s' => Ascii.eqb c x && like p' s' end
  | c :: p' =>
      match s with [] => false | x :: s' => Ascii.eqb c x && like p' s' end
  end.

Definition ilike (column : string) (pattern : string) : bool :=
  like (Str.lower (Str.chars pattern)) (Str.lower (Str.chars column)).

(** [`%${search}%`] *)
Definition wrapPattern (search : string) : string := "%" ++ search ++ "%".

(** [orderBy(desc(key))]: insertion into a list kept in descending order. *)
Section OrderBy.
Context {A : Type} (key : A -> Z).

Fixpoint insertDesc (x : A) (l : list A) : list A :=
  match l with
  | [] => [x]
  | y :: l' => if key y <? key x then x :: l else y :: insertDesc x l'
  end.

Definition orderByDesc (l : list A) : list A := fold_right insertDesc [] l.
End OrderBy.

(* ------------------------------------------------------------------ *)
(** ** server/storage: [DatabaseStorage]                                *)
(* ------------------------------------------------------------------ *)

Module DatabaseStorage.

Definition Query (A : Type) : Type := Db -> DbError + (A * Db).

Definition hasUserId (i : string) (d : Db) : bool :=
  existsb (fun u => String.eqb (User.id u) i) (users d).

Definition hasUsername (n : string) (d : Db) : bool :=
  existsb (fun u => String.eqb (User.username u) n) (users d).

Definition hasComplaintId (i : string) (d : Db) : bool :=
  existsb (fun c => String.eqb (Complaint.id c) i) (complaints d).

Definition ownsComplaint (i : string) (d : Db) : bool :=
  existsb (fun c => String.eqb (Complaint.studentId c) i) (complaints d).

(** [select().from(users).where(eq(users.id, id))], first row. *)
Definition getUser (i : string) (d : Db) : option User.t :=
  find (fun u => String.eqb (User.id u) i) (users d).

Definition getUserByUsername (n : string) (d : Db) : option User.t :=
  find (fun u => String.eqb (User.username u) n) (users d).

(** [insert(users).values(insertUser).returning()]: [id] and [createdAt]
    take their column defaults, [role] defaults to ["student"]. *)
Definition createUser (env : Env) (iu : InsertUser) : Query User.t := fun d =>
  let user :=
    User.mk (genId env) (iu_username iu) (iu_password iu) (iu_name iu)
            (match iu_role iu with Some r => r | None => student end)
            (iu_roomNumber iu) (Some (iu_collegeEmail iu)) (dbNow env) in
  if hasUserId (User.id user) d || hasUsername (User.username user) d
  then inl UniqueViolation
  else inr (user, mkDb (users d ++ [user]) (complaints d)).

(** A text compared with an enum column must be one of its labels. *)
Definition enumLiteral {A} (parse : string -> option A) (s : string) : DbError + A :=
  match parse s with Some a => inr a | None => inl InvalidEnumLabel end.

(** An optional filter whose value is used only when it is truthy. *)
Definition given (o : option string) : option string :=
  match o with
  | Some s => if Str.truthy s then Some s else None
  | None => None
  end.

Definition getAllUsers (role search : option string) : Query (list User.t) := fun d =>
  let byRole : DbError + (User.t -> bool) :=
    match given role with
    | Some r =>
        match enumLiteral parseRole r with
        | inl e => inl e
        | inr r' => inr (fun u => Role_eqb (User.role u) r')
        end
    | None => inr (fun _ => true)
    end in
  let bySearch : User.t -> bool :=
    match given search with
    | Some s => fun u => ilike (User.name u) (wrapPattern s)
                         || ilike (User.username u) (wrapPattern s)
    | None => fun _ => true
    end in
  match byRole with
  | inl e => inl e
  | inr roleOk =>
      inr (orderByDesc User.createdAt
             (filter (fun u => roleOk u && bySearch u) (users d)), d)
  end.

(** [delete(users).where(eq(users.id, id))]; [rowCount > 0].  A row that a
    complaint still references cannot be deleted. *)
Definition deleteUser (i : string) : Query bool := fun d =>
  let doomed := filter (fun u => String.eqb (User.id u) i) (users d) in
  match doomed with
  | [] => inr (false, d)
  | _ :: _ =>
      if ownsComplaint i d then inl ForeignKeyViolation
      else inr (true,
                mkDb (filter (fun u => negb (String.eqb (User.id u) i)) (users d))
                     (complaints d))
  end.

(** [insert(complaints).values({...complaint, updatedAt: new Date()})]:
    [id], [status] and [createdAt] take their column defaults,
    [adminResponse] has none and stays NULL. *)
Definition createComplaint (env : Env) (ic : InsertComplaint) (studentId : string)
  : Query Complaint.t := fun d =>
  let c :=
    Complaint.mk (genId env) studentId (ic_subject ic) (ic_description ic)
                 (ic_category ic) (ic_roomNumber ic) pending None
                 (dbNow env) (appNow env) in
  if hasComplaintId (Complaint.id c) d then inl UniqueViolation
  else if negb (hasUserId studentId d) then inl ForeignKeyViolation
  else inr (c, mkDb (users d) (complaints d ++ [c])).

Definition getComplaintsByStudent (studentId : string) : Query (list Complaint.t) :=
  fun d =>
    inr (orderByDesc Complaint.createdAt
           (filter (fun c => String.eqb (Complaint.studentId c) studentId)
                   (complaints d)), d).

(** [from(complaints).leftJoin(users, eq(complaints.studentId, users.id))] *)
Definition leftJoin (d : Db) : list (Complaint.t * option User.t) :=
  flat_map
    (fun c =>
       match filter (fun u => String.eqb (Complaint.studentId c) (User.id u)) (users d) with
       | [] => [(c, None)]
       | us => map (fun u => (c, Some u)) us
       end)
    (complaints d).

Definition project (row : Complaint.t * option User.t) : ComplaintWithStudent :=
  mkCWS (fst row)
        (match snd row with
         | Some u => Some (mkStudentInfo (User.id u) (User.name u)
                                         (User.username u) (User.roomNumber u))
         | None => None
         end).

(** A comparison with a NULL column is not true. *)
Definition ilikeNullable (column : option string) (pattern : string) : bool :=
  match column with Some v => ilike v pattern | None => false end.

Definition getAllComplaints (status category search : option string)
  : Query (list ComplaintWithStudent) := fun d =>
  let byStatus : DbError + (Complaint.t -> bool) :=
    match given status with
    | Some s =>
        match enumLiteral parseStatus s with
        | inl e => inl e
        | inr s' => inr (fun c => Status_eqb (Complaint.status c) s')
        end
    | None => inr (fun _ => true)
    end in
  let byCategory : DbError + (Complaint.t -> bool) :=
    match given category with
    | Some s =>
        match enumLiteral parseCategory s with
        | inl e => inl e
        | inr k => inr (fun c => Category_eqb (Complaint.category c) k)
        end
    | None => inr (fun _ => true)
    end in
  let bySearch : Complaint.t * option User.t -> bool :=
    match given search with
    | Some s => fun row =>
        ilike (Complaint.subject (fst row)) (wrapPattern s)
        || ilike (Complaint.description (fst row)) (wrapPattern s)
        || ilikeNullable (option_map User.name (snd row)) (wrapPattern s)
    | None => fun _ => true
    end in
  match byStatus, byCategory with
  | inl e, _ => inl e
  | _, inl e => inl e
  | inr statusOk, inr categoryOk =>
      let results :=
        orderByDesc (fun row => Complaint.createdAt (fst row))
          (filter (fun row => statusOk (fst row) && categoryOk (fst row) && bySearch row)
                  (leftJoin d)) in
      inr (map project results, d)
  end.

Definition getComplaintById (i : string) : Query (option ComplaintWithStudent) :=
  fun d =>
    inr (option_map project
           (hd_error (filter (fun row => String.eqb (Complaint.id (fst row)) i)
                             (leftJoin d))), d).

(** [update(complaints).set({...update, updatedAt: new Date()})]: a key
    that is absent from [update] leaves its column as it is. *)
Definition applyUpdate (env : Env) (up : UpdateComplaint) (c : Complaint.t) : Complaint.t :=
  Complaint.mk (Complaint.id c) (Complaint.studentId c) (Complaint.subject c)
               (Complaint.description c) (Complaint.category c) (Complaint.roomNumber c)
               (match up_status up with Some s => s | None => Complaint.status c end)
               (match up_adminResponse up with
                | Some r => r
                | None => Complaint.adminResponse c
                end)
               (Complaint.createdAt c) (appNow env).

Definition updateComplaintStatus (env : Env) (i : string) (up : UpdateComplaint)
  : Query (option Complaint.t) := fun d =>
  let hit := fun c => String.eqb (Complaint.id c) i in
  let updated := map (applyUpdate env up) (filter hit (complaints d)) in
  inr (hd_error updated,
       mkDb (users d)
            (map (fun c => if hit c then applyUpdate env up c else c) (complaints d))).

Record Stats := mkStats
  { total : nat; st_pending : nat; st_inprogress : nat; st_resolved : nat }.

Record StudentStats := mkStudentStats
  { ss_total : nat; ss_pending : nat; ss_resolved : nat }.

Definition countStatus (s : Status) (l : list Complaint.t) : nat :=
  length (filter (fun c => Status_eqb (Complaint.status c) s) l).

Definition getComplaintStats : Query Stats := fun d =>
  let allComplaints := complaints d in
  inr (mkStats (length allComplaints)
               (countStatus pending allComplaints)
               (countStatus inprogress allComplaints)
               (countStatus resolved allComplaints), d).

Definition getStudentComplaintStats (studentId : string) : Query StudentStats :=
  fun d =>
    let studentComplaints :=
      filter (fun c => String.eqb (Complaint.studentId c) studentId) (complaints d) in
    inr (mkStudentStats (length studentComplaints)
                        (countStatus pending studentComplaints)
                        (countStatus resolved studentComplaints), d).

End DatabaseStorage.

(* ------------------------------------------------------------------ *)
(** ** Request and response bodies                                      *)
(* ------------------------------------------------------------------ *)

#[warnings="-register-all"]
Inductive json :=
| JNull
| JBool (b : bool)
| JNum (n : Z)
| JStr (s : string)
| JArr (items : list json)
| JObj (fields : list (string * json)).

(** [obj[key]]; [None] is [undefined].  The fields of a parsed object have
    distinct keys. *)
Definition prop (key : string) (j : json) : option json :=
  match j with
  | JObj fields =>
      option_map snd (find (fun kv => String.eqb (fst kv) key) fields)
  | _ => None
  end.

Definition jsonOpt (o : option string) : json :=
  match o with Some s => JStr s | None => JNull end.

Definition userJson (u : User.t) : json :=
  JObj [ ("id", JStr (User.id u));
         ("username", JStr (User.username u));
         ("password", JStr (User.password u));
         ("name", JStr (User.name u));
         ("role", JStr (roleToken (User.role u)));
         ("roomNumber", jsonOpt (User.roomNumber u));
         ("collegeEmail", jsonOpt (User.collegeEmail u));
         ("createdAt", JNum (User.createdAt u)) ].

Definition complaintFields (c : Complaint.t) : list (string * json) :=
  [ ("id", JStr (Complaint.id c));
    ("studentId", JStr (Complaint.studentId c));
    ("subject", JStr (Complaint.subject c));
    ("description", JStr (Complaint.description c));
    ("category", JStr (categoryToken (Complaint.category c)));
    ("roomNumber", JStr (Complaint.roomNumber c));
    ("status", JStr (statusToken (Complaint.status c)));
    ("adminResponse", jsonOpt (Complaint.adminResponse c));
    ("createdAt", JNum (Complaint.createdAt c));
    ("updatedAt", JNum (Complaint.updatedAt c)) ].

Definition complaintJson (c : Complaint.t) : json := JObj (complaintFields c).

Definition studentInfoJson (s : option StudentInfo) : json :=
  match s with
  | Some s => JObj [ ("id", JStr (si_id s)); ("name", JStr (si_name s));
                     ("username", JStr (si_username s));
                     ("roomNumber", jsonOpt (si_roomNumber s)) ]
  | None => JNull
  end.

Definition complaintWithStudentJson (r : ComplaintWithStudent) : json :=
  JObj (complaintFields (cws_complaint r)
        ++ [("student", studentInfoJson (cws_student r))]).

Definition statsJson (s : DatabaseStorage.Stats) : json :=
  JObj [ ("total", JNum (Z.of_nat (DatabaseStorage.total s)));
         ("pending", JNum (Z.of_nat (DatabaseStorage.st_pending s)));
         ("inprogress", JNum (Z.of_nat (DatabaseStorage.st_inprogress s)));
         ("resolved", JNum (Z.of_nat (DatabaseStorage.st_resolved s))) ].

Definition studentStatsJson (s : DatabaseStorage.StudentStats) : json :=
  JObj [ ("total", JNum (Z.of_nat (DatabaseStorage.ss_total s)));
         ("pending", JNum (Z.of_nat (DatabaseStorage.ss_pending s)));
         ("resolved", JNum (Z.of_nat (DatabaseStorage.ss_resolved s))) ].

Definition messageJson (m : string) : json := JObj [("message", JStr m)].

Record Response := mkResponse
  { code : Z;
    payload : option json }.

(** The status categories of the error taxonomy. *)
Definition Created : Z := 201.
Definition NoContent : Z := 204.
Definition ValidationError : Z := 400.
Definition Unauthenticated : Z := 401.
Definition Forbidden : Z := 403.
Definition NotFound : Z := 404.
Definition Internal : Z := 500.

(* ------------------------------------------------------------------ *)
(** ** zod schemas                                                      *)
(* ------------------------------------------------------------------ *)

Module Zod.

(** A schema reads a possibly absent value; [None] is a [ZodError]. *)
Definition Schema (A : Type) : Type := option json -> option A.

Definition string_ : Schema string := fun v =>
  match v with Some (JStr s) => Some s | _ => None end.

Definition enum_ {A} (parse : string -> option A) : Schema A := fun v =>
  match v with Some (JStr s) => parse s | _ => None end.

Definition optional {A} (inner : Schema A) : Schema (option A) := fun v =>
  match v with None => Some None | Some _ => option_map Some (inner v) end.

Definition nullable {A} (inner : Schema A) : Schema (option A) := fun v =>
  match v with Some JNull => Some None | _ => option_map Some (inner v) end.

Definition refine {A} (check : A -> bool) (inner : Schema A) : Schema A := fun v =>
  match inner v with
  | Some a => if check a then Some a else None
  | None => None
  end.

Definition isObject (j : json) : bool :=
  match j with JObj _ => true | _ => false end.

End Zod.

Notation "'let?' x ':=' e 'in' k" :=
  (match e with Some x => k | None => None end)
  (at level 10, x name, e at level 100, k at level 200, only parsing).

(** [insertComplaintSchema]: the four columns left after [omit]; unknown
    keys of the body are dropped. *)
Definition insertComplaintSchema (body : json) : option InsertComplaint :=
  if Zod.isObject body then
    let? subject := Zod.string_ (prop "subject" body) in
    let? description := Zod.string_ (prop "description" body) in
    let? category := Zod.enum_ parseCategory (prop "category" body) in
    let? roomNumber := Zod.string_ (prop "roomNumber" body) in
    Some (mkInsertComplaint subject description category roomNumber)
  else None.

(** [updateComplaintSchema]: [status] (optional, the column has a default)
    and [adminResponse] (optional and nullable). *)
Definition updateComplaintSchema (body : json) : option UpdateComplaint :=
  if Zod.isObject body then
    let? status := Zod.optional (Zod.enum_ parseStatus) (prop "status" body) in
    let? adminResponse :=
      Zod.optional (Zod.nullable Zod.string_) (prop "adminResponse" body) in
    Some (mkUpdateComplaint status adminResponse)
  else None.

Section Server.

(** [scrypt(password, salt, 64)], as the hex text of its 64 bytes. *)
Variable scryptHex : string -> string -> string.

(** zod's [.email()] check. *)
Variable isEmail : string -> bool.

Definition collegeDomain (email : string) : bool :=
  Str.endsWith email "@college.edu"
  || Str.endsWith email "@university.edu"
  || Str.endsWith email "@edu".

(** [insertUserSchema]: the table's columns without [id] and [createdAt],
    with [collegeEmail] replaced by a required, checked string. *)
Definition insertUserSchema (body : json) : option InsertUser :=
  if Zod.isObject body then
    let? username := Zod.string_ (prop "username" body) in
    let? password := Zod.string_ (prop "password" body) in
    let? name := Zod.string_ (prop "name" body) in
    let? role := Zod.optional (Zod.enum_ parseRole) (prop "role" body) in
    let? roomNumber :=
      Zod.optional (Zod.nullable Zod.string_) (prop "roomNumber" body) in
    let? collegeEmail :=
      Zod.refine collegeDomain (Zod.refine isEmail Zod.string_)
                 (prop "collegeEmail" body) in
    Some (mkInsertUser username password name role
            (match roomNumber with Some r => r | None => None end)
            collegeEmail)
  else None.

(* ---------------------------------------------------------------- *)
(** *** Request handlers as state-and-exception computations         *)
(* ---------------------------------------------------------------- *)

Inductive StoreCall :=
| CallGetUser (id : string)
| CallGetUserByUsername (username : string)
| CallCreateUser
| CallGetAllUsers
| CallDeleteUser (id : string)
| CallCreateComplaint
| CallGetComplaintsByStudent (studentId : string)
| CallGetAllComplaints
| CallGetComplaintById (id : string)
| CallUpdateComplaintStatus (id : string)
| CallGetComplaintStats
| CallGetStudentComplaintStats (studentId : string).

(** What a request runs against: the store, the caller's session (the id
    that [serializeUser] put there, if any) and the storage calls made so
    far. *)
Record Ctx := mkCtx
  { db : Db;
    session : option string;
    calls : list StoreCall }.

Inductive Exn :=
| ZodError
| StoreError (e : DbError)
| RuntimeError.

Definition M (A : Type) : Type := Ctx -> (Exn + A) * Ctx.

Definition ret {A} (a : A) : M A := fun c => (inr a, c).

Definition bind {A B} (m : M A) (k : A -> M B) : M B := fun c =>
  match m c with
  | (inr a, c') => k a c'
  | (inl e, c') => (inl e, c')
  end.

Definition throw {A} (e : Exn) : M A := fun c => (inl e, c).

Definition tryCatch {A} (body : M A) (handler : Exn -> M A) : M A := fun c =>
  match body c with
  | (inl e, c') => handler e c'
  | r => r
  end.

Definition setSession (s : option string) : M unit := fun c =>
  (inr tt, mkCtx (db c) s (calls c)).

Definition getSession : M (option string) := fun c => (inr (session c), c).

(** A call into [storage]: it is recorded, then runs; a failing statement
    leaves the store as it was. *)
Definition storage {A} (call : StoreCall) (q : DatabaseStorage.Query A) : M A :=
  fun c =>
    let log := (calls c ++ [call])%list in
    match q (db c) with
    | inl e => (inl (StoreError e), mkCtx (db c) (session c) log)
    | inr (a, d') => (inr a, mkCtx d' (session c) log)
    end.

(** A storage method that only reads. *)
Definition reading {A} (f : Db -> A) : DatabaseStorage.Query A :=
  fun d => inr (f d, d).

Notation "x <- m ;; k" := (bind m (fun x => k))
  (at level 61, m at next level, right associativity, only parsing).
Notation "m ;;; k" := (bind m (fun _ => k))
  (at level 61, right associativity, only parsing).

Definition getUser (i : string) : M (option User.t) :=
  storage (CallGetUser i) (reading (DatabaseStorage.getUser i)).

Definition getUserByUsername (n : string) : M (option User.t) :=
  storage (CallGetUserByUsername n) (reading (DatabaseStorage.getUserByUsername n)).

Definition status (n : Z) (body : json) : M Response :=
  ret (mkResponse n (Some body)).

Definition sendStatus (n : Z) : M Response := ret (mkResponse n None).

(** [next(error)]: the request ends as an opaque server failure. *)
Definition next (e : Exn) : M Response := sendStatus 500.

(** The [catch] clause of the routes that parse a body. *)
Definition zodOrNext (e : Exn) : M Response :=
  match e with
  | ZodError => status 400 (messageJson "Invalid input data")
  | _ => next e
  end.

Definition parse {A} (schema : json -> option A) (body : json) : M A :=
  match schema body with Some a => ret a | None => throw ZodError end.

(* ---------------------------------------------------------------- *)
(** *** server/auth                                                  *)
(* ---------------------------------------------------------------- *)

Definition hashPassword (env : Env) (password : string) : string :=
  scryptHex password (salt env) ++ "." ++ salt env.

(** [timingSafeEqual] throws on buffers of different lengths, and [scrypt]
    on a missing salt; the digests are compared in their hex form. *)
Definition comparePasswords (supplied stored : string) : M bool :=
  match Str.splitOn "."%char stored with
  | hashed :: salt :: _ =>
      let suppliedHex := scryptHex supplied salt in
      if (String.length hashed =? String.length suppliedHex)%nat
      then ret (String.eqb hashed suppliedHex)
      else throw RuntimeError
  | _ => throw RuntimeError
  end.

(** [passport.session()] with [deserializeUser]: the session's id is
    looked up; an id without an account leaves the request anonymous and
    is dropped from the session. *)
Definition deserializeUser : M (option User.t) :=
  s <- getSession ;;
  match s with
  | None => ret None
  | Some i =>
      u <- getUser i ;;
      match u with
      | Some u => ret (Some u)
      | None => setSession None ;;; ret None
      end
  end.

(** [req.login(user, ...)] with [serializeUser]. *)
Definition login (u : User.t) : M unit := setSession (Some (User.id u)).

(** [req.logout] and [req.session.destroy]. *)
Definition logout : M unit := setSession None.

(** The verify callback of the [LocalStrategy]; [None] is [done(null, false)]. *)
Definition verify (username password : string) : M (option User.t) :=
  user <- getUserByUsername username ;;
  match user with
  | None => ret None
  | Some u =>
      ok <- comparePasswords password (User.password u) ;;
      if ok then ret (Some u) else ret None
  end.

(** POST /api/register *)
Definition register (env : Env) (body : json) : M Response :=
  tryCatch
    (validatedData <- parse insertUserSchema body ;;
     existingUser <- getUserByUsername (iu_username validatedData) ;;
     match existingUser with
     | Some _ => status 400 (messageJson "Username already exists")
     | None =>
         user <- storage CallCreateUser
                   (DatabaseStorage.createUser env
                      (mkInsertUser (iu_username validatedData)
                         (hashPassword env (iu_password validatedData))
                         (iu_name validatedData) (iu_role validatedData)
                         (iu_roomNumber validatedData)
                         (iu_collegeEmail validatedData))) ;;
         login user ;;;
         status 201 (userJson user)
     end)
    zodOrNext.

(** POST /api/login; the strategy rejects empty credentials itself. *)
Definition loginRoute (username password : string) : M Response :=
  if negb (Str.truthy username) || negb (Str.truthy password)
  then status 401 (messageJson "Missing credentials")
  else
    tryCatch
      (user <- verify username password ;;
       match user with
       | None => status 401 (messageJson "Invalid username or password")
       | Some u => login u ;;; status 200 (userJson u)
       end)
      next.

(** POST /api/logout *)
Definition logoutRoute : M Response := logout ;;; sendStatus 200.

(** GET /api/user *)
Definition whoami (user : option User.t) : M Response :=
  match user with
  | None => sendStatus 401
  | Some u => status 200 (userJson u)
  end.

(* ---------------------------------------------------------------- *)
(** *** server/routes                                                *)
(* ---------------------------------------------------------------- *)

Definition requireAuth (user : option User.t) (route : User.t -> M Response)
  : M Response :=
  match user with
  | None => status 401 (messageJson "Not authenticated")
  | Some u => route u
  end.

Definition requireAdmin (user : option User.t) (route : User.t -> M Response)
  : M Response :=
  match user with
  | None => status 403 (messageJson "Admin access required")
  | Some u =>
      match User.role u with
      | admin => route u
      | student => status 403 (messageJson "Admin access required")
      end
  end.

Definition studentOnly (u : User.t) (message : string) (route : M Response)
  : M Response :=
  match User.role u with
  | student => route
  | admin => status 403 (messageJson message)
  end.

(** POST /api/complaints *)
Definition postComplaint (env : Env) (body : json) (u : User.t) : M Response :=
  tryCatch
    (studentOnly u "Only students can submit complaints"
       (validatedData <- parse insertComplaintSchema body ;;
        complaint <- storage CallCreateComplaint
                       (DatabaseStorage.createComplaint env validatedData (User.id u)) ;;
        status 201 (complaintJson complaint)))
    zodOrNext.

(** GET /api/complaints/my *)
Definition getMyComplaints (u : User.t) : M Response :=
  tryCatch
    (studentOnly u "Only students can view their complaints"
       (complaints <- storage (CallGetComplaintsByStudent (User.id u))
                        (DatabaseStorage.getComplaintsByStudent (User.id u)) ;;
        status 200 (JArr (map complaintJson complaints))))
    next.

(** GET /api/complaints/stats/my *)
Definition getMyStats (u : User.t) : M Response :=
  tryCatch
    (studentOnly u "Only students can view their stats"
       (stats <- storage (CallGetStudentComplaintStats (User.id u))
                   (DatabaseStorage.getStudentComplaintStats (User.id u)) ;;
        status 200 (studentStatsJson stats)))
    next.

(** GET /api/complaints *)
Definition getComplaints (status_ category search : option string) : M Response :=
  tryCatch
    (complaints <- storage CallGetAllComplaints
                     (DatabaseStorage.getAllComplaints status_ category search) ;;
     status 200 (JArr (map complaintWithStudentJson complaints)))
    next.

(** GET /api/complaints/stats *)
Definition getStats : M Response :=
  tryCatch
    (stats <- storage CallGetComplaintStats DatabaseStorage.getComplaintStats ;;
     status 200 (statsJson stats))
    next.

(** GET /api/complaints/:id *)
Definition getComplaint (i : string) : M Response :=
  tryCatch
    (complaint <- storage (CallGetComplaintById i)
                    (DatabaseStorage.getComplaintById i) ;;
     match complaint with
     | None => status 404 (messageJson "Complaint not found")
     | Some c => status 200 (complaintWithStudentJson c)
     end)
    next.

(** PATCH /api/complaints/:id *)
Definition patchComplaint (env : Env) (i : string) (body : json) : M Response :=
  tryCatch
    (validatedData <- parse updateComplaintSchema body ;;
     complaint <- storage (CallUpdateComplaintStatus i)
                    (DatabaseStorage.updateComplaintStatus env i validatedData) ;;
     match complaint with
     | None => status 404 (messageJson "Complaint not found")
     | Some c => status 200 (complaintJson c)
     end)
    zodOrNext.

(** GET /api/users *)
Definition getUsers (role search : option string) : M Response :=
  tryCatch
    (users <- storage CallGetAllUsers (DatabaseStorage.getAllUsers role search) ;;
     status 200 (JArr (map userJson users)))
    next.

(** POST /api/users *)
Definition postUser (env : Env) (body : json) : M Response :=
  tryCatch
    (validatedData <- parse insertUserSchema body ;;
     existingUser <- getUserByUsername (iu_username validatedData) ;;
     match existingUser with
     | Some _ => status 400 (messageJson "Username already exists")
     | None =>
         user <- storage CallCreateUser
                   (DatabaseStorage.createUser env
                      (mkInsertUser (iu_username validatedData)
                         (hashPassword env (iu_password validatedData))
                         (iu_name validatedData) (iu_role validatedData)
                         (iu_roomNumber validatedData)
                         (iu_collegeEmail validatedData))) ;;
         status 201 (userJson user)
     end)
    zodOrNext.

(** DELETE /api/users/:id *)
Definition deleteUserRoute (i : string) : M Response :=
  tryCatch
    (success <- storage (CallDeleteUser i) (DatabaseStorage.deleteUser i) ;;
     if success then sendStatus 204
     else status 404 (messageJson "User not found"))
    next.

(** The operations of the request API. *)
Inductive Op :=
| Register (body : json)
| Login (username password : string)
| Logout
| WhoAmI
| FileComplaint (body : json)
| ListMyComplaints
| MyStats
| ListAllComplaints (status category search : option string)
| GlobalStats
| GetComplaint (id : string)
| UpdateComplaint_ (id : string) (body : json)
| ListAccounts (role search : option string)
| CreateAccount (body : json)
| DeleteAccount (id : string).

(** The routing table: each route behind its guard. *)
Definition route (env : Env) (user : option User.t) (op : Op) : M Response :=
  match op with
  | Register body => register env body
  | Login username password => loginRoute username password
  | Logout => logoutRoute
  | WhoAmI => whoami user
  | FileComplaint body => requireAuth user (postComplaint env body)
  | ListMyComplaints => requireAuth user getMyComplaints
  | MyStats => requireAuth user getMyStats
  | ListAllComplaints s c q => requireAdmin user (fun _ => getComplaints s c q)
  | GlobalStats => requireAdmin user (fun _ => getStats)
  | GetComplaint i => requireAdmin user (fun _ => getComplaint i)
  | UpdateComplaint_ i body => requireAdmin user (fun _ => patchComplaint env i body)
  | ListAccounts r q => requireAdmin user (fun _ => getUsers r q)
  | CreateAccount body => requireAdmin user (fun _ => postUser env body)
  | DeleteAccount i => requireAdmin user (fun _ => deleteUserRoute i)
  end.

(** One request: the session middleware, then the matching route. *)
Definition handle (env : Env) (op : Op) : M Response :=
  user <- deserializeUser ;;
  route env user op.

(** An error no route caught ends the request as a server failure. *)
Definition serve (env : Env) (op : Op) (c : Ctx) : Response * Ctx :=
  match handle env op c with
  | (inr r, c') => (r, c')
  | (inl _, c') => (mkResponse 500 None, c')
  end.

(** A request by the caller whose session is [s], against the store [d]. *)
Definition request (env : Env) (s : option string) (op : Op) (d : Db)
  : Response * Ctx :=
  serve env op (mkCtx d s []).

End Server.

(* ------------------------------------------------------------------ *)
(** ** A small population to run the model on                           *)
(* ------------------------------------------------------------------ *)

Module Scenario.

Definition hexDigit (n : nat) : ascii :=
  nth n (Str.chars "0123456789abcdef") "0"%char.

(** A stand-in for scrypt with a digest of fixed length: the sum of the
    character codes of password and salt, as two hex digits. *)
Definition kdf (password salt : string) : string :=
  let sum := fold_right (fun ch acc => (nat_of_ascii ch + acc)%nat) 0%nat
               (Str.chars (password ++ salt)) in
  String (hexDigit (Nat.modulo (Nat.div sum 16) 16))
    (String (hexDigit (Nat.modulo sum 16)) EmptyString).

(** A stand-in for the e-mail expression: some text, an [@], some text. *)
Definition emailLike (s : string) : bool :=
  match Str.splitOn "@"%char s with
  | [local; domain] => Str.truthy local && Str.truthy domain
  | _ => false
  end.

Definition env : Env := mkEnv "id-0001" 1002 1000 "9f3a".

Definition asha : User.t :=
  User.mk "u-asha" "asha" "7c.11aa" "Asha Rao" student (Some "B-12")
          (Some "asha@college.edu") 10.

Definition warden : User.t :=
  User.mk "u-warden" "warden" "2e.77cd" "Hostel Warden" admin None
          (Some "warden@college.edu") 5.

Definition faucet : Complaint.t :=
  Complaint.mk "c-0000" "u-asha" "Leaky faucet"
               "Bathroom faucet in room B-12 will not stop dripping"
               other "B-12" pending None 50 50.

Definition empty : Db := mkDb [] [].
Definition staffed : Db := mkDb [asha; warden] [].
Definition busy : Db := mkDb [asha; warden] [faucet].

Definition leakyBody : json :=
  JObj [ ("subject", JStr "Leaky faucet");
         ("description", JStr "Bathroom faucet in room B-12 will not stop dripping");
         ("category", JStr "other");
         ("roomNumber", JStr "B-12") ].

Definition blankBody : json :=
  JObj [ ("subject", JStr EmptyString); ("description", JStr EmptyString);
         ("category", JStr "other"); ("roomNumber", JStr EmptyString) ].

Definition adminBody : json :=
  JObj [ ("username", JStr "mallory"); ("password", JStr "hunter2");
         ("name", JStr "Mallory"); ("role", JStr "admin");
         ("collegeEmail", JStr "mallory@college.edu") ].

Definition noSubjectBody : json :=
  JObj [ ("description", JStr "No hot water since Monday");
         ("category", JStr "maintenance");
         ("roomNumber", JStr "B-12") ].

Definition insertMallory : InsertUser :=
  mkInsertUser "mallory" "hunter2" "Mallory" (Some admin) None "mallory@college.edu".

Definition insertLeaky : InsertComplaint :=
  mkInsertComplaint "Leaky faucet"
                    "Bathroom faucet in room B-12 will not stop dripping"
                    other "B-12".

(** The rows the requests below create. *)
Definition mallory : User.t :=
  User.mk "id-0001" "mallory" (hashPassword kdf env "hunter2") "Mallory" admin None
          (Some "mallory@college.edu") 1002.

Definition leaky : Complaint.t :=
  Complaint.mk "id-0001" "u-asha" "Leaky faucet"
               "Bathroom faucet in room B-12 will not stop dripping"
               other "B-12" pending None 1002 1000.

Definition blank : Complaint.t :=
  Complaint.mk "id-0001" "u-asha" EmptyString EmptyString other EmptyString
               pending None 1002 1000.

(** A request served in the millisecond in which [faucet] was last written. *)
Definition sameInstant : Env := mkEnv "id-0002" 51 50 "9f3a".

Definition fixed : Complaint.t :=
  Complaint.mk "c-0000" "u-asha" "Leaky faucet"
               "Bathroom faucet in room B-12 will not stop dripping"
               other "B-12" resolved (Some "Fixed") 50 50.

Definition faucetRow : ComplaintWithStudent :=
  mkCWS faucet (Some (mkStudentInfo "u-asha" "Asha Rao" "asha" (Some "B-12"))).

Definition run := request kdf emailLike.

End Scenario.

(** Further rows and bodies for the statements on registration, login and
    updates. *)
Module Cases.

(** The store after Mallory registered on [Scenario.staffed]. *)
Definition joined : Db :=
  mkDb [Scenario.asha; Scenario.warden; Scenario.mallory] [].

(** An account seeded with a password that was never hashed. *)
Definition seeded : User.t :=
  User.mk "u-seed" "seed" "letmein" "Seeded Admin" admin None None 1.

Definition legacy : Db := mkDb [seeded] [].

Definition noPasswordBody : json :=
  JObj [ ("username", JStr "nopass"); ("password", JStr EmptyString);
         ("name", JStr "No Password");
         ("collegeEmail", JStr "nopass@university.edu") ].

Definition insertNoPassword : InsertUser :=
  mkInsertUser "nopass" EmptyString "No Password" None None "nopass@university.edu".

Definition takenBody : json :=
  JObj [ ("username", JStr "asha"); ("password", JStr "s3cret");
         ("name", JStr "Another Asha");
         ("collegeEmail", JStr "asha2@college.edu") ].

Definition insertTaken : InsertUser :=
  mkInsertUser "asha" "s3cret" "Another Asha" None None "asha2@college.edu".

Definition outsiderBody : json :=
  JObj [ ("username", JStr "eve"); ("password", JStr "s3cret");
         ("name", JStr "Eve"); ("collegeEmail", JStr "eve@gmail.com") ].

Definition resolveBody : json := JObj [ ("status", JStr "resolved") ].

Definition doneBody : json := JObj [ ("status", JStr "done") ].

End Cases.

(* ------------------------------------------------------------------ *)
(** ** Vocabulary of the statements                                  *)
(* ------------------------------------------------------------------ *)

Local Open Scope list_scope.

(** The account behind a session, as [deserializeUser] finds it. *)
Definition caller (d : Db) (s : option string) : option User.t :=
  match s with
  | Some i => DatabaseStorage.getUser i d
  | None => None
  end.

(** The context a route starts in, once the session middleware has run. *)
Definition afterSession (d : Db) (s : option string) (l : list StoreCall) : Ctx :=
  mkCtx d
        (match caller d s with Some _ => s | None => None end)
        (l ++ match s with Some i => [CallGetUser i] | None => [] end).

Definition succeeded (r : Response) : bool :=
  (200 <=? code r) && (code r <? 300).

(** What [register] and [postUser] hand to [createUser]. *)
Definition hashed (scryptHex : string -> string -> string) (env : Env)
  (iu : InsertUser) : InsertUser :=
  mkInsertUser (iu_username iu) (hashPassword scryptHex env (iu_password iu))
               (iu_name iu) (iu_role iu) (iu_roomNumber iu) (iu_collegeEmail iu).

Definition logged (c : Ctx) (l : list StoreCall) : Ctx :=
  mkCtx (db c) (session c) (calls c ++ l).

(** A body has a text under [key]. *)
Definition hasText (key : string) (body : json) : Prop :=
  exists s, prop key body = Some (JStr s).

(** A body names one of the six categories. *)
Definition hasCategory (body : json) : Prop :=
  exists k, prop "category" body = Some (JStr (categoryToken k)).

Definition complaintFieldsPresent (body : json) : Prop :=
  hasText "subject" body /\ hasText "description" body
  /\ hasCategory body /\ hasText "roomNumber" body.

(** Every complaint's owner is an account of the store. *)
Definition ownersExist (d : Db) : Prop :=
  forall c, In c (complaints d) ->
            exists u, In u (users d) /\ User.id u = Complaint.studentId c.

(** No two accounts share an id. *)
Definition idsDistinct (d : Db) : Prop := NoDup (map User.id (users d)).

(** The complaints' ids with their owners, in table order. *)
Definition ownership (d : Db) : list (string * string) :=
  map (fun c => (Complaint.id c, Complaint.studentId c)) (complaints d).

(** One step of the store: the owner reference and the distinctness of the
    account ids survive it, and the ownership recorded so far is only ever
    extended. *)
Definition evolves (d d' : Db) : Prop :=
  (ownersExist d -> ownersExist d')
  /\ (idsDistinct d -> idsDistinct d')
  /\ exists extra, ownership d' = ownership d ++ extra.

(** The stores that requests can produce from the empty store. *)
Inductive reachable (scryptHex : string -> string -> string)
  (isEmail : string -> bool) : Db -> Prop :=
| reachable_empty : reachable scryptHex isEmail (mkDb [] [])
| reachable_step (env : Env) (s : option string) (op : Op) (d : Db) :
    reachable scryptHex isEmail d ->
    reachable scryptHex isEmail (db (snd (request scryptHex isEmail env s op d))).

(** A storage method that, when it succeeds, makes one such step. *)
Definition steady {A} (q : DatabaseStorage.Query A) : Prop :=
  forall d a d', q d = inr (a, d') -> evolves d d'.

(** A computation that moves the store by such steps only. *)
Definition keeps {A} (m : M A) : Prop :=
  forall c, evolves (db c) (db (snd (m c))).

(** The characters ILIKE reads as more than themselves. *)
Definition isMeta (c : ascii) : bool :=
  Ascii.eqb c "%" || Ascii.eqb c "_" || Ascii.eqb c "\".

Definition plainText (s : string) : Prop :=
  forall c, In c (Str.chars s) -> isMeta c = false.

(** A text of ASCII characters only. *)
Definition asciiText (s : string) : bool :=
  forallb (fun c => (nat_of_ascii c <? 128)%nat) (Str.chars s).

(** Every text a search is compared with is ASCII: the subjects and
    descriptions of the complaints, the display names and login names of
    the accounts. *)
Definition asciiTexts (d : Db) : bool :=
  forallb (fun c => asciiText (Complaint.subject c)
                    && asciiText (Complaint.description c)) (complaints d)
  && forallb (fun u => asciiText (User.name u) && asciiText (User.username u))
             (users d).

(** What a filter text asks for: no constraint when it is absent or empty
    ([Some None]), a label of the enum when it is one ([Some (Some a)]),
    and nothing the store can compare when it is any other text ([None]). *)
Definition filterLabel {A} (parse : string -> option A) (raw : option string)
  : option (option A) :=
  match raw with
  | None => Some None
  | Some s => if Str.truthy s then option_map Some (parse s) else Some None
  end.

(** Substring search, written the plain way: [needle] starts [hay], or
    occurs in its tail. *)
Fixpoint startsWith (needle hay : list ascii) : bool :=
  match needle, hay with
  | [], _ => true
  | _ :: _, [] => false
  | a :: needle', b :: hay' => Ascii.eqb a b && startsWith needle' hay'
  end.

Fixpoint occursIn (needle hay : list ascii) : bool :=
  startsWith needle hay
  || match hay with [] => false | _ :: hay' => occursIn needle hay' end.

(** Case-insensitive substring. *)
Definition containsCI (needle hay : string) : bool :=
  occursIn (Str.lower (Str.chars needle)) (Str.lower (Str.chars hay)).

(** Newest first. *)
Definition descBy {A} (key : A -> Z) (a b : A) : Prop := key b <= key a.

(** The account a complaint's owner id points at. *)
Definition ownerOf (d : Db) (c : Complaint.t) : option User.t :=
  DatabaseStorage.getUser (Complaint.studentId c) d.

(** The listing as the specification words it: the complaints that match the
    status exactly, and the category exactly, and whose subject, description
    or owner's display name contains the search text whatever the case; an
    omitted dimension does not constrain.  Each is paired with the owner
    projection. *)
Definition matchesFilter (st : option Status) (cat : option Category)
  (q : option string) (c : Complaint.t) (owner : option User.t) : bool :=
  match st with Some s => Status_eqb (Complaint.status c) s | None => true end
  && match cat with Some k => Category_eqb (Complaint.category c) k | None => true end
  && match q with
     | Some text =>
         containsCI text (Complaint.subject c)
         || containsCI text (Complaint.description c)
         || match owner with
            | Some u => containsCI text (User.name u)
            | None => false
            end
     | None => true
     end.

Definition ownerProjection (u : User.t) : StudentInfo :=
  mkStudentInfo (User.id u) (User.name u) (User.username u) (User.roomNumber u).

Definition listAllSpec (d : Db) (st : option Status) (cat : option Category)
  (q : option string) : list ComplaintWithStudent :=
  map (fun c => mkCWS c (option_map ownerProjection (ownerOf d c)))
      (filter (fun c => matchesFilter st cat q c (ownerOf d c)) (complaints d)).

Definition newestFirst (rows : list ComplaintWithStudent) : Prop :=
  Sorted (descBy (fun r => Complaint.createdAt (cws_complaint r))) rows.

(* ------------------------------------------------------------------ *)
(** ** Vocabulary of the further statements                           *)
(* ------------------------------------------------------------------ *)

(** A storage method that leaves the store as it found it. *)
Definition readsOnly {A} (q : DatabaseStorage.Query A) : Prop :=
  forall d a d', q d = inr (a, d') -> d' = d.

(** A storage method whose successful runs relate the store before and
    after by [R]. *)
Definition respects (R : Db -> Db -> Prop) {A} (q : DatabaseStorage.Query A)
  : Prop :=
  forall d a d', q d = inr (a, d') -> R d d'.

(** A computation whose runs do. *)
Definition moves (R : Db -> Db -> Prop) {A} (m : M A) : Prop :=
  forall c, R (db c) (db (snd (m c))).

(** The operations whose route calls a storage method that writes accounts,
    and those whose route calls one that writes complaints. *)
Definition writesUsers (op : Op) : bool :=
  match op with
  | Register _ | CreateAccount _ | DeleteAccount _ => true
  | _ => false
  end.

Definition writesComplaints (op : Op) : bool :=
  match op with
  | FileComplaint _ | UpdateComplaint_ _ _ => true
  | _ => false
  end.

(** What a student wrote in a complaint, with its id, owner and creation
    time. *)
Definition complaintContent (c : Complaint.t)
  : string * string * string * string * Category * string * Z :=
  (Complaint.id c, Complaint.studentId c, Complaint.subject c,
   Complaint.description c, Complaint.category c, Complaint.roomNumber c,
   Complaint.createdAt c).

(** No two accounts share a login name; no two complaints share an id. *)
Definition loginNamesDistinct (d : Db) : Prop :=
  NoDup (map User.username (users d)).

Definition complaintIdsDistinct (d : Db) : Prop :=
  NoDup (map Complaint.id (complaints d)).

(** The complaints of one student, in table order. *)
Definition ownedBy (sid : string) (d : Db) : list Complaint.t :=
  filter (fun c => String.eqb (Complaint.studentId c) sid) (complaints d).

(** One for true, none for false. *)
Definition one (b : bool) : nat := if b then 1%nat else 0%nat.

(** The account listing as the specification words it: the accounts with
    the given role, whose display name or login name contains the search
    text whatever the case; an omitted dimension does not constrain. *)
Definition matchesAccount (r : option Role) (q : option string) (u : User.t) : bool :=
  match r with Some r' => Role_eqb (User.role u) r' | None => true end
  && match q with
     | Some text => containsCI text (User.name u) || containsCI text (User.username u)
     | None => true
     end.

(** A text without the separator of stored hashes. *)
Definition dotFree (s : string) : Prop := ~ In "."%char (Str.chars s).

(** The reply of a login that is refused. *)
Definition invalidCredentials : Response :=
  mkResponse Unauthenticated (Some (messageJson "Invalid username or password")).

(* ------------------------------------------------------------------ *)
(** ** Global statistics                                                *)
(* ------------------------------------------------------------------ *)

Lemma Status_eqb_eq (a b : Status) : Status_eqb a b = true <-> a = b.
Proof. destruct a, b; simpl; split; congruence. Qed.

Lemma countStatus_partition (l : list Complaint.t) :
  length l = (DatabaseStorage.countStatus pending l
              + DatabaseStorage.countStatus inprogress l
              + DatabaseStorage.countStatus resolved l)%nat.
Proof.
  unfold DatabaseStorage.countStatus.
  induction l as [| c l IH]; simpl; [reflexivity |].
  destruct (Complaint.status c); simpl; lia.
Qed.

(** C9. For every population of complaints, [getComplaintStats] returns
    counts whose total is the sum of the pending, in-progress and resolved
    counts (and it leaves the store as it was). *)
Theorem stats_total_is_sum (d : Db) :
  exists s,
    DatabaseStorage.getComplaintStats d = inr (s, d)
    /\ DatabaseStorage.total s
       = (DatabaseStorage.st_pending s + DatabaseStorage.st_inprogress s
          + DatabaseStorage.st_resolved s)%nat.
Proof.
  eexists; split; [reflexivity |].
  simpl. apply countStatus_partition.
Qed.

(* ------------------------------------------------------------------ *)
(** ** Running a request                                                *)
(* ------------------------------------------------------------------ *)

Section Properties.

Variable scryptHex : string -> string -> string.
Variable isEmail : string -> bool.

Lemma deserializeUser_run (d : Db) (s : option string) (l : list StoreCall) :
  deserializeUser (mkCtx d s l) = (inr (caller d s), afterSession d s l).
Proof.
  unfold deserializeUser, bind, getSession, getUser, storage, reading, afterSession.
  destruct s as [i |]; cbn.
  - destruct (DatabaseStorage.getUser i d); reflexivity.
  - rewrite app_nil_r. reflexivity.
Qed.

Lemma request_run (env : Env) (s : option string) (op : Op) (d : Db) :
  request scryptHex isEmail env s op d
  = match route scryptHex isEmail env (caller d s) op (afterSession d s []) with
    | (inr r, c) => (r, c)
    | (inl _, c) => (mkResponse 500 None, c)
    end.
Proof.
  unfold request, serve, handle, bind. rewrite deserializeUser_run. reflexivity.
Qed.

Lemma register_run (env : Env) (body : json) (c : Ctx) :
  register scryptHex isEmail env body c
  = match insertUserSchema isEmail body with
    | None => (inr (mkResponse 400 (Some (messageJson "Invalid input data"))), c)
    | Some iu =>
        let seen := logged c [CallGetUserByUsername (iu_username iu)] in
        match DatabaseStorage.getUserByUsername (iu_username iu) (db c) with
        | Some _ =>
            (inr (mkResponse 400 (Some (messageJson "Username already exists"))), seen)
        | None =>
            match DatabaseStorage.createUser env (hashed scryptHex env iu) (db c) with
            | inl _ => (inr (mkResponse 500 None), logged seen [CallCreateUser])
            | inr (u, d') =>
                (inr (mkResponse 201 (Some (userJson u))),
                 mkCtx d' (Some (User.id u)) (calls seen ++ [CallCreateUser]))
            end
        end
    end.
Proof.
  unfold register, tryCatch, bind, parse, getUserByUsername, storage, reading,
    login, setSession, status, hashed, logged.
  destruct (insertUserSchema isEmail body) as [iu |]; cbn; [| reflexivity].
  destruct (DatabaseStorage.getUserByUsername (iu_username iu) (db c)); cbn;
    [reflexivity |].
  destruct (DatabaseStorage.createUser env _ (db c)) as [e | [u d']]; cbn;
    reflexivity.
Qed.

Lemma postUser_run (env : Env) (body : json) (c : Ctx) :
  postUser scryptHex isEmail env body c
  = match insertUserSchema isEmail body with
    | None => (inr (mkResponse 400 (Some (messageJson "Invalid input data"))), c)
    | Some iu =>
        let seen := logged c [CallGetUserByUsername (iu_username iu)] in
        match DatabaseStorage.getUserByUsername (iu_username iu) (db c) with
        | Some _ =>
            (inr (mkResponse 400 (Some (messageJson "Username already exists"))), seen)
        | None =>
            match DatabaseStorage.createUser env (hashed scryptHex env iu) (db c) with
            | inl _ => (inr (mkResponse 500 None), logged seen [CallCreateUser])
            | inr (u, d') =>
                (inr (mkResponse 201 (Some (userJson u))),
                 mkCtx d' (session c) (calls seen ++ [CallCreateUser]))
            end
        end
    end.
Proof.
  unfold postUser, tryCatch, bind, parse, getUserByUsername, storage, reading,
    status, hashed, logged.
  destruct (insertUserSchema isEmail body) as [iu |]; cbn; [| reflexivity].
  destruct (DatabaseStorage.getUserByUsername (iu_username iu) (db c)); cbn;
    [reflexivity |].
  destruct (DatabaseStorage.createUser env _ (db c)) as [e | [u d']]; cbn;
    reflexivity.
Qed.

Lemma getUsers_run (role search : option string) (c : Ctx) :
  getUsers role search c
  = match DatabaseStorage.getAllUsers role search (db c) with
    | inl _ => (inr (mkResponse 500 None), logged c [CallGetAllUsers])
    | inr (rows, d') =>
        (inr (mkResponse 200 (Some (JArr (map userJson rows)))),
         mkCtx d' (session c) (calls c ++ [CallGetAllUsers]))
    end.
Proof.
  unfold getUsers, tryCatch, bind, storage, status, logged.
  destruct (DatabaseStorage.getAllUsers role search (db c)) as [e | [rows d']];
    reflexivity.
Qed.

(** A login that is answered with a success status answers with the row
    that [getUserByUsername] found, and leaves the store alone. *)
Lemma loginRoute_success (username password : string) (c : Ctx) r c' :
  loginRoute scryptHex username password c = (inr r, c') ->
  succeeded r = true ->
  exists u,
    DatabaseStorage.getUserByUsername username (db c) = Some u
    /\ r = mkResponse 200 (Some (userJson u))
    /\ db c' = db c /\ session c' = Some (User.id u).
Proof.
  unfold loginRoute.
  destruct (negb (Str.truthy username) || negb (Str.truthy password)).
  { cbn. intros H; inversion H; subst. discriminate. }
  unfold tryCatch, bind, verify, getUserByUsername, storage, reading,
    comparePasswords, login, setSession, status, next, sendStatus, ret, throw.
  cbn.
  destruct (DatabaseStorage.getUserByUsername username (db c)) as [u |]; cbn.
  2: { intros H; inversion H; subst. discriminate. }
  destruct (Str.splitOn "." (User.password u)) as [| h [| sl rest]]; cbn;
    try (intros H; inversion H; subst; discriminate).
  destruct (Nat.eqb _ _); cbn;
    try (intros H; inversion H; subst; discriminate).
  destruct (String.eqb h _); cbn; intros H; inversion H; subst;
    try discriminate.
  intros _. exists u. cbn. auto.
Qed.

(* ------------------------------------------------------------------ *)
(** ** Anonymous callers                                                *)
(* ------------------------------------------------------------------ *)

(** C2 (as the code has it). An anonymous caller gets [Unauthenticated]
    from whoami and from the three student operations, which sit behind
    [requireAuth], and [Forbidden] from the seven admin-only operations,
    which sit behind [requireAdmin]; in both cases no storage call is made
    and the store and the session are as before.  Registration, login and
    logout carry no guard. *)
Theorem anonymous_caller_rejected (env : Env) (op : Op) (d : Db) :
  match op with
  | Register _ | Login _ _ | Logout => True
  | WhoAmI | FileComplaint _ | ListMyComplaints | MyStats =>
      code (fst (request scryptHex isEmail env None op d)) = Unauthenticated
      /\ snd (request scryptHex isEmail env None op d) = mkCtx d None []
  | ListAllComplaints _ _ _ | GlobalStats | GetComplaint _
  | UpdateComplaint_ _ _ | ListAccounts _ _ | CreateAccount _
  | DeleteAccount _ =>
      code (fst (request scryptHex isEmail env None op d)) = Forbidden
      /\ snd (request scryptHex isEmail env None op d) = mkCtx d None []
  end.
Proof. destruct op; cbn; auto. Qed.

(* ------------------------------------------------------------------ *)
(** ** Account payloads                                                 *)
(* ------------------------------------------------------------------ *)

Lemma userJson_password (u : User.t) :
  prop "password" (userJson u) = Some (JStr (User.password u)).
Proof. reflexivity. Qed.

Lemma createUser_stored env iu d u d' :
  DatabaseStorage.createUser env iu d = inr (u, d') ->
  d' = mkDb (users d ++ [u]) (complaints d)
  /\ User.id u = genId env
  /\ User.username u = iu_username iu
  /\ User.password u = iu_password iu
  /\ User.role u = match iu_role iu with Some r => r | None => student end
  /\ DatabaseStorage.hasUserId (genId env) d = false
  /\ DatabaseStorage.hasUsername (iu_username iu) d = false.
Proof.
  unfold DatabaseStorage.createUser; cbn.
  destruct (DatabaseStorage.hasUserId _ d) eqn:Hid;
    destruct (DatabaseStorage.hasUsername _ d) eqn:Hn; cbn; try discriminate.
  intros H; inversion H; subst; clear H. cbn. repeat split; reflexivity.
Qed.

Lemma insertDesc_In {A} (key : A -> Z) (x y : A) (l : list A) :
  In y (insertDesc key x l) <-> y = x \/ In y l.
Proof.
  induction l as [| z l IH]; cbn.
  - intuition congruence.
  - destruct (key z <? key x); cbn; [intuition congruence |].
    rewrite IH. intuition congruence.
Qed.

Lemma orderByDesc_In {A} (key : A -> Z) (y : A) (l : list A) :
  In y (orderByDesc key l) <-> In y l.
Proof.
  induction l as [| x l IH]; cbn; [tauto |].
  rewrite insertDesc_In, IH. intuition congruence.
Qed.

Lemma getAllUsers_rows role search d rows d' :
  DatabaseStorage.getAllUsers role search d = inr (rows, d') ->
  d' = d /\ incl rows (users d).
Proof.
  unfold DatabaseStorage.getAllUsers.
  destruct (DatabaseStorage.given role) as [r |].
  - destruct (DatabaseStorage.enumLiteral parseRole r); [discriminate |].
    intros H; inversion H; subst; split; [reflexivity |].
    intros u Hu. apply orderByDesc_In in Hu. apply filter_In in Hu. tauto.
  - intros H; inversion H; subst; split; [reflexivity |].
    intros u Hu. apply orderByDesc_In in Hu. apply filter_In in Hu. tauto.
Qed.

Lemma find_In {A} (f : A -> bool) (l : list A) (x : A) :
  find f l = Some x -> In x l.
Proof. intros H. apply find_some in H. tauto. Qed.

(** C1 (as the code has it). Every successful reply of registration, account
    creation and login is the JSON rendering of an account row of the store,
    and every successful account listing renders rows of the store; the
    rendering of a row carries its [password] column, the stored credential
    hash, under the key ["password"]. *)
Theorem account_reply_is_stored_row (env : Env) (s : option string) (op : Op) (d : Db) :
  succeeded (fst (request scryptHex isEmail env s op d)) = true ->
  (forall u, prop "password" (userJson u) = Some (JStr (User.password u)))
  /\ match op with
     | Register _ | CreateAccount _ | Login _ _ =>
         exists u,
           In u (users (db (snd (request scryptHex isEmail env s op d))))
           /\ payload (fst (request scryptHex isEmail env s op d)) = Some (userJson u)
     | ListAccounts _ _ =>
         exists rows,
           incl rows (users (db (snd (request scryptHex isEmail env s op d))))
           /\ payload (fst (request scryptHex isEmail env s op d))
              = Some (JArr (map userJson rows))
     | _ => True
     end.
Proof.
  intros Hok. split; [exact userJson_password |].
  rewrite request_run in *.
  destruct op; try exact I; cbn [route] in *.
  - (* register *)
    rewrite register_run in *.
    destruct (insertUserSchema isEmail body) as [iu |]; [| discriminate].
    cbn zeta in *.
    destruct (DatabaseStorage.getUserByUsername _ _); [discriminate |].
    destruct (DatabaseStorage.createUser env _ _) as [e | [u d']] eqn:Hc;
      [discriminate |].
    apply createUser_stored in Hc. destruct Hc as [-> _].
    exists u. cbn. split; [apply in_or_app; right; left; reflexivity | reflexivity].
  - (* login *)
    destruct (loginRoute scryptHex username password _) as [[e | r] c'] eqn:Hl;
      [discriminate |].
    cbn [fst snd] in *.
    destruct (loginRoute_success _ _ _ _ _ Hl Hok) as (u & Hu & -> & Hdb & _).
    exists u. rewrite Hdb. cbn. split; [| reflexivity].
    apply find_In in Hu. exact Hu.
  - (* list accounts *)
    unfold requireAdmin in *.
    destruct (caller d s) as [a |]; [| discriminate].
    destruct (User.role a); [discriminate |].
    rewrite getUsers_run in *.
    destruct (DatabaseStorage.getAllUsers role search _) as [e | [rows d']] eqn:Hq;
      [discriminate |].
    apply getAllUsers_rows in Hq. destruct Hq as [-> Hincl].
    exists rows. cbn. split; [exact Hincl | reflexivity].
  - (* create account *)
    unfold requireAdmin in *.
    destruct (caller d s) as [a |]; [| discriminate].
    destruct (User.role a); [discriminate |].
    rewrite postUser_run in *.
    destruct (insertUserSchema isEmail body) as [iu |]; [| discriminate].
    cbn zeta in *.
    destruct (DatabaseStorage.getUserByUsername _ _); [discriminate |].
    destruct (DatabaseStorage.createUser env _ _) as [e | [u d']] eqn:Hc;
      [discriminate |].
    apply createUser_stored in Hc. destruct Hc as [-> _].
    exists u. cbn. split; [apply in_or_app; right; left; reflexivity | reflexivity].
Qed.

(* ------------------------------------------------------------------ *)
(** ** Self-registration                                                *)
(* ------------------------------------------------------------------ *)

Lemma parseToken_sound {A} (token : A -> string) (all : list A) (s : string) (a : A) :
  parseToken token all s = Some a -> s = token a.
Proof.
  unfold parseToken. intros H. apply find_some in H.
  destruct H as [_ H]. apply String.eqb_eq in H. congruence.
Qed.

Lemma insertUserSchema_role (body : json) (iu : InsertUser) (r : Role) :
  insertUserSchema isEmail body = Some iu ->
  prop "role" body = Some (JStr (roleToken r)) ->
  iu_role iu = Some r.
Proof.
  unfold insertUserSchema. intros H Hrole. rewrite Hrole in H.
  destruct (Zod.isObject body); [| discriminate].
  destruct (Zod.string_ (prop "username" body)); [| discriminate].
  destruct (Zod.string_ (prop "password" body)); [| discriminate].
  destruct (Zod.string_ (prop "name" body)); [| discriminate].
  replace (Zod.optional (Zod.enum_ parseRole) (Some (JStr (roleToken r))))
    with (Some (Some r)) in H by (destruct r; reflexivity).
  destruct (Zod.optional _ (prop "roomNumber" body)); [| discriminate].
  destruct (Zod.refine _ _ _); [| discriminate].
  inversion H; reflexivity.
Qed.

Lemma getUserByUsername_none (n : string) (d : Db) :
  DatabaseStorage.getUserByUsername n d = None ->
  DatabaseStorage.hasUsername n d = false.
Proof.
  unfold DatabaseStorage.getUserByUsername, DatabaseStorage.hasUsername.
  induction (users d) as [| u l IH]; cbn; [reflexivity |].
  destruct (String.eqb (User.username u) n); [discriminate | exact IH].
Qed.

(** C3. A registration request whose payload passes [insertUserSchema] and
    sets ["role"] to ["admin"], for a login name no account has (and with a
    generated id no account has), is answered 201 with the new account: the
    account is stored with role [admin] and the caller's session is logged
    in as it.  No session and no admin privilege is asked of the caller. *)
Theorem register_grants_admin (env : Env) (s : option string) (body : json)
  (iu : InsertUser) (d : Db) :
  insertUserSchema isEmail body = Some iu ->
  prop "role" body = Some (JStr "admin") ->
  DatabaseStorage.getUserByUsername (iu_username iu) d = None ->
  DatabaseStorage.hasUserId (genId env) d = false ->
  exists u,
    fst (request scryptHex isEmail env s (Register body) d)
    = mkResponse Created (Some (userJson u))
    /\ db (snd (request scryptHex isEmail env s (Register body) d))
       = mkDb (users d ++ [u]) (complaints d)
    /\ session (snd (request scryptHex isEmail env s (Register body) d))
       = Some (User.id u)
    /\ User.role u = admin
    /\ User.username u = iu_username iu
    /\ User.password u = hashPassword scryptHex env (iu_password iu).
Proof.
  intros Hparse Hrole Hfresh Hid.
  pose proof (insertUserSchema_role body iu admin Hparse Hrole) as Hadmin.
  rewrite request_run. cbn [route]. rewrite register_run, Hparse.
  cbn zeta. cbn [afterSession db]. rewrite Hfresh.
  destruct (DatabaseStorage.createUser env (hashed scryptHex env iu) d)
    as [e | [u d']] eqn:Hc.
  - exfalso. unfold DatabaseStorage.createUser in Hc. cbn in Hc.
    rewrite Hid, (getUserByUsername_none _ _ Hfresh) in Hc. discriminate.
  - apply createUser_stored in Hc.
    destruct Hc as (-> & _ & Hname & Hpw & Hr & _).
    exists u. cbn in *. rewrite Hadmin in Hr. auto 10.
Qed.

(* ------------------------------------------------------------------ *)
(** ** Filing a complaint                                               *)
(* ------------------------------------------------------------------ *)

Lemma postComplaint_run (env : Env) (body : json) (u : User.t) (c : Ctx) :
  postComplaint env body u c
  = match User.role u with
    | admin =>
        (inr (mkResponse 403 (Some (messageJson "Only students can submit complaints"))), c)
    | student =>
        match insertComplaintSchema body with
        | None => (inr (mkResponse 400 (Some (messageJson "Invalid input data"))), c)
        | Some ic =>
            match DatabaseStorage.createComplaint env ic (User.id u) (db c) with
            | inl _ => (inr (mkResponse 500 None), logged c [CallCreateComplaint])
            | inr (k, d') =>
                (inr (mkResponse 201 (Some (complaintJson k))),
                 mkCtx d' (session c) (calls c ++ [CallCreateComplaint]))
            end
        end
    end.
Proof.
  unfold postComplaint, tryCatch, studentOnly, bind, parse, storage, status, logged.
  destruct (User.role u); [| reflexivity].
  destruct (insertComplaintSchema body) as [ic |]; cbn; [| reflexivity].
  destruct (DatabaseStorage.createComplaint env ic (User.id u) (db c))
    as [e | [k d']]; reflexivity.
Qed.

Lemma string_schema_text (v : option json) (s : string) :
  Zod.string_ v = Some s -> v = Some (JStr s).
Proof. destruct v as [[] |]; cbn; congruence. Qed.

Lemma insertComplaintSchema_present (body : json) (ic : InsertComplaint) :
  insertComplaintSchema body = Some ic -> complaintFieldsPresent body.
Proof.
  unfold insertComplaintSchema, complaintFieldsPresent, hasText, hasCategory.
  destruct (Zod.isObject body); [| discriminate].
  destruct (Zod.string_ (prop "subject" body)) as [s1 |] eqn:H1; [| discriminate].
  destruct (Zod.string_ (prop "description" body)) as [s2 |] eqn:H2; [| discriminate].
  destruct (Zod.enum_ parseCategory (prop "category" body)) as [k |] eqn:H3;
    [| discriminate].
  destruct (Zod.string_ (prop "roomNumber" body)) as [s4 |] eqn:H4; [| discriminate].
  intros _.
  apply string_schema_text in H1, H2, H4.
  repeat split; eauto.
  exists k. unfold Zod.enum_ in H3.
  destruct (prop "category" body) as [[] |]; try discriminate.
  apply parseToken_sound in H3. congruence.
Qed.

Lemma caller_id (d : Db) (sid : string) (u : User.t) :
  caller d (Some sid) = Some u -> User.id u = sid /\ In u (users d).
Proof.
  cbn. unfold DatabaseStorage.getUser. intros H. apply find_some in H.
  destruct H as [Hin H]. apply String.eqb_eq in H. auto.
Qed.

Lemma afterSession_caller (d : Db) (sid : string) (u : User.t) :
  caller d (Some sid) = Some u ->
  afterSession d (Some sid) [] = mkCtx d (Some sid) [CallGetUser sid].
Proof. unfold afterSession. intros ->. reflexivity. Qed.

(** C4 (as the code has it). When a student files a complaint whose body
    lacks a text under ["subject"], ["description"] or ["roomNumber"], or
    whose ["category"] is not one of the six labels, the reply is
    [ValidationError]; the store is as before and the only storage call of
    the request is the session lookup. *)
Theorem malformed_complaint_rejected (env : Env) (sid : string) (u : User.t)
  (body : json) (d : Db) :
  caller d (Some sid) = Some u ->
  User.role u = student ->
  ~ complaintFieldsPresent body ->
  request scryptHex isEmail env (Some sid) (FileComplaint body) d
  = (mkResponse ValidationError (Some (messageJson "Invalid input data")),
     mkCtx d (Some sid) [CallGetUser sid]).
Proof.
  intros Hu Hrole Hbad.
  rewrite request_run, (afterSession_caller _ _ _ Hu), Hu.
  cbn [route requireAuth]. rewrite postComplaint_run, Hrole.
  destruct (insertComplaintSchema body) as [ic |] eqn:Hp; [| reflexivity].
  exfalso. apply Hbad. exact (insertComplaintSchema_present _ _ Hp).
Qed.

(** C5 (as the code has it). When a student files a complaint whose body
    passes [insertComplaintSchema] (and the generated id is not in use), the
    reply is 201 with the new record, which is appended to the store: its
    status is [pending], its admin response is empty, its owner is the
    caller, its created timestamp is the store's clock reading and its
    updated timestamp is the server's clock reading. *)
Theorem filed_complaint_record (env : Env) (sid : string) (u : User.t)
  (body : json) (ic : InsertComplaint) (d : Db) :
  caller d (Some sid) = Some u ->
  User.role u = student ->
  insertComplaintSchema body = Some ic ->
  DatabaseStorage.hasComplaintId (genId env) d = false ->
  exists k,
    request scryptHex isEmail env (Some sid) (FileComplaint body) d
    = (mkResponse Created (Some (complaintJson k)),
       mkCtx (mkDb (users d) (complaints d ++ [k])) (Some sid)
             [CallGetUser sid; CallCreateComplaint])
    /\ Complaint.status k = pending
    /\ Complaint.adminResponse k = None
    /\ Complaint.studentId k = sid
    /\ Complaint.createdAt k = dbNow env
    /\ Complaint.updatedAt k = appNow env
    /\ Complaint.subject k = ic_subject ic
    /\ Complaint.description k = ic_description ic
    /\ Complaint.category k = ic_category ic
    /\ Complaint.roomNumber k = ic_roomNumber ic.
Proof.
  intros Hu Hrole Hp Hid.
  destruct (caller_id _ _ _ Hu) as [Hsid Hin].
  rewrite request_run, (afterSession_caller _ _ _ Hu), Hu.
  cbn [route requireAuth]. rewrite postComplaint_run, Hrole, Hp.
  unfold DatabaseStorage.createComplaint. cbn [Complaint.id db].
  rewrite Hid.
  assert (Hown : DatabaseStorage.hasUserId (User.id u) d = true).
  { unfold DatabaseStorage.hasUserId. apply existsb_exists.
    exists u. split; [exact Hin | apply String.eqb_refl]. }
  rewrite Hown. cbn.
  eexists; split; [reflexivity |]. cbn. auto 12.
Qed.

(* ------------------------------------------------------------------ *)
(** ** Updating a complaint                                             *)
(* ------------------------------------------------------------------ *)

Lemma patchComplaint_run (env : Env) (i : string) (body : json) (c : Ctx) :
  patchComplaint env i body c
  = match updateComplaintSchema body with
    | None => (inr (mkResponse 400 (Some (messageJson "Invalid input data"))), c)
    | Some up =>
        match DatabaseStorage.updateComplaintStatus env i up (db c) with
        | inl _ => (inr (mkResponse 500 None), logged c [CallUpdateComplaintStatus i])
        | inr (None, d') =>
            (inr (mkResponse 404 (Some (messageJson "Complaint not found"))),
             mkCtx d' (session c) (calls c ++ [CallUpdateComplaintStatus i]))
        | inr (Some k, d') =>
            (inr (mkResponse 200 (Some (complaintJson k))),
             mkCtx d' (session c) (calls c ++ [CallUpdateComplaintStatus i]))
        end
    end.
Proof.
  unfold patchComplaint, tryCatch, bind, parse, storage, status, logged.
  destruct (updateComplaintSchema body) as [up |]; [| reflexivity].
  unfold ret.
  destruct (DatabaseStorage.updateComplaintStatus env i up (db c))
    as [e | [[k |] d']]; reflexivity.
Qed.

Lemma map_untouched {A} (hit : A -> bool) (f : A -> A) (l : list A) :
  existsb hit l = false ->
  map (fun x => if hit x then f x else x) l = l /\ filter hit l = [].
Proof.
  induction l as [| x l IH]; cbn; [auto |].
  destruct (hit x); cbn; [discriminate |].
  intros H. destruct (IH H) as [-> ->]. auto.
Qed.

Lemma first_hit {A} (hit : A -> bool) (l : list A) :
  existsb hit l = true ->
  exists x rest, filter hit l = x :: rest /\ In x l /\ hit x = true.
Proof.
  induction l as [| x l IH]; cbn; [discriminate |].
  destruct (hit x) eqn:Hx; cbn.
  - intros _. exists x, (filter hit l). auto.
  - intros H. destruct (IH H) as (y & rest & -> & Hin & Hy). eauto 6.
Qed.

(** C6 (as the code has it). [updateComplaintStatus] with both a status and
    an admin response always returns.  It leaves the accounts and the number
    and order of the complaints alone; every complaint under another id is
    unchanged; a complaint under the given id gets exactly the given status
    and admin response, its updated timestamp becomes the server's clock
    reading (so it grows strictly when that reading is later than the stored
    one), and its id, owner, subject, description, category, room number and
    created timestamp are unchanged.  With no complaint under the id the
    result is undefined and the store is unchanged, and the route answers
    [NotFound]. *)
Theorem updateStatus_effect (env : Env) (i : string) (st : Status)
  (resp : option string) (d : Db) :
  exists r d',
    DatabaseStorage.updateComplaintStatus env i
      (mkUpdateComplaint (Some st) (Some resp)) d = inr (r, d')
    /\ users d' = users d
    /\ length (complaints d') = length (complaints d)
    /\ (forall n c,
          nth_error (complaints d) n = Some c ->
          exists c',
            nth_error (complaints d') n = Some c'
            /\ (Complaint.id c <> i -> c' = c)
            /\ (Complaint.id c = i ->
                Complaint.status c' = st
                /\ Complaint.adminResponse c' = resp
                /\ Complaint.updatedAt c' = appNow env
                /\ (Complaint.updatedAt c < appNow env ->
                    Complaint.updatedAt c < Complaint.updatedAt c')
                /\ Complaint.createdAt c' = Complaint.createdAt c
                /\ Complaint.id c' = Complaint.id c
                /\ Complaint.studentId c' = Complaint.studentId c
                /\ Complaint.subject c' = Complaint.subject c
                /\ Complaint.description c' = Complaint.description c
                /\ Complaint.category c' = Complaint.category c
                /\ Complaint.roomNumber c' = Complaint.roomNumber c))
    /\ (DatabaseStorage.hasComplaintId i d = true ->
        exists c', r = Some c' /\ In c' (complaints d') /\ Complaint.id c' = i)
    /\ (DatabaseStorage.hasComplaintId i d = false ->
        r = None /\ d' = d
        /\ forall sid a body up,
            caller d (Some sid) = Some a ->
            User.role a = admin ->
            updateComplaintSchema body = Some up ->
            request scryptHex isEmail env (Some sid) (UpdateComplaint_ i body) d
            = (mkResponse NotFound (Some (messageJson "Complaint not found")),
               mkCtx d (Some sid) [CallGetUser sid; CallUpdateComplaintStatus i])).
Proof.
  unfold DatabaseStorage.updateComplaintStatus.
  do 2 eexists. split; [reflexivity |].
  cbn [users complaints].
  split; [reflexivity |].
  split; [apply length_map |].
  split.
  { intros n c Hn. rewrite nth_error_map, Hn. cbn.
    eexists; split; [reflexivity |].
    destruct (String.eqb (Complaint.id c) i) eqn:He.
    - apply String.eqb_eq in He. split; [congruence |].
      intros _. cbn. repeat split; auto.
    - apply String.eqb_neq in He. split; [reflexivity | congruence]. }
  split.
  { intros Hhit. unfold DatabaseStorage.hasComplaintId in Hhit.
    destruct (first_hit _ _ Hhit) as (x & rest & Hf & Hin & Hx).
    rewrite Hf. cbn. eexists; split; [reflexivity |]. split.
    - apply in_map_iff. exists x. rewrite Hx. auto.
    - cbn. apply String.eqb_eq. exact Hx. }
  intros Hmiss. unfold DatabaseStorage.hasComplaintId in Hmiss.
  assert (Hkeep : forall up,
             DatabaseStorage.updateComplaintStatus env i up d = inr (None, d)).
  { intros up. unfold DatabaseStorage.updateComplaintStatus.
    destruct (map_untouched _ (DatabaseStorage.applyUpdate env up) _ Hmiss)
      as [-> ->].
    destruct d; reflexivity. }
  destruct (map_untouched _
              (DatabaseStorage.applyUpdate env (mkUpdateComplaint (Some st) (Some resp)))
              _ Hmiss) as [-> ->].
  split; [reflexivity |]. split; [destruct d; reflexivity |].
  intros sid a body up Ha Hrole Hup.
  rewrite request_run, (afterSession_caller _ _ _ Ha), Ha.
  cbn [route requireAdmin]. rewrite Hrole, patchComplaint_run, Hup.
  cbn [db]. rewrite Hkeep. reflexivity.
Qed.

(* ------------------------------------------------------------------ *)
(** ** Deleting an account                                              *)
(* ------------------------------------------------------------------ *)

Lemma deleteUserRoute_run (i : string) (c : Ctx) :
  deleteUserRoute i c
  = match DatabaseStorage.deleteUser i (db c) with
    | inl _ => (inr (mkResponse 500 None), logged c [CallDeleteUser i])
    | inr (true, d') =>
        (inr (mkResponse 204 None),
         mkCtx d' (session c) (calls c ++ [CallDeleteUser i]))
    | inr (false, d') =>
        (inr (mkResponse 404 (Some (messageJson "User not found"))),
         mkCtx d' (session c) (calls c ++ [CallDeleteUser i]))
    end.
Proof.
  unfold deleteUserRoute, tryCatch, bind, storage, status, sendStatus, logged, ret.
  destruct (DatabaseStorage.deleteUser i (db c)) as [e | [[|] d']]; reflexivity.
Qed.

Lemma existsb_filter_out {A} (hit : A -> bool) (l : list A) :
  existsb hit (filter (fun x => negb (hit x)) l) = false.
Proof.
  induction l as [| x l IH]; cbn; [reflexivity |].
  destruct (hit x) eqn:Hx; cbn; [exact IH |]. rewrite Hx. exact IH.
Qed.

Lemma find_filter_other (i j : string) (l : list User.t) :
  i <> j ->
  find (fun u => String.eqb (User.id u) j)
       (filter (fun u => negb (String.eqb (User.id u) i)) l)
  = find (fun u => String.eqb (User.id u) j) l.
Proof.
  intros Hij. induction l as [| u l IH]; cbn; [reflexivity |].
  destruct (String.eqb (User.id u) i) eqn:Hi; cbn.
  - apply String.eqb_eq in Hi.
    destruct (String.eqb (User.id u) j) eqn:Hj; [| exact IH].
    apply String.eqb_eq in Hj. congruence.
  - rewrite IH. reflexivity.
Qed.

Lemma deleteUser_absent (i : string) (d : Db) :
  DatabaseStorage.hasUserId i d = false ->
  DatabaseStorage.deleteUser i d = inr (false, d).
Proof.
  unfold DatabaseStorage.hasUserId, DatabaseStorage.deleteUser. intros H.
  destruct (map_untouched _ (fun u => u) _ H) as [_ ->]. reflexivity.
Qed.

Lemma deleteUser_present (i : string) (d : Db) :
  DatabaseStorage.hasUserId i d = true ->
  DatabaseStorage.deleteUser i d
  = if DatabaseStorage.ownsComplaint i d then inl ForeignKeyViolation
    else inr (true,
              mkDb (filter (fun u => negb (String.eqb (User.id u) i)) (users d))
                   (complaints d)).
Proof.
  unfold DatabaseStorage.hasUserId, DatabaseStorage.deleteUser. intros H.
  destruct (first_hit _ _ H) as (x & rest & -> & _). reflexivity.
Qed.

(** C8 (as the code has it). For an account id that no complaint refers to,
    [deleteUser] reports whether an account was under the id and leaves none
    there, so a second call reports false, and on an absent id it reports
    false and changes nothing; an admin (other than the deleted account)
    calling the route twice is answered 204 or 404 first and 404 second.
    For an account that a complaint refers to, the store refuses the
    deletion, and the route answers with a server failure and leaves the
    store as it was. *)
Theorem deleteAccount_twice (env : Env) (i : string) (d : Db) :
  (DatabaseStorage.ownsComplaint i d = false ->
   exists d',
     DatabaseStorage.deleteUser i d = inr (DatabaseStorage.hasUserId i d, d')
     /\ DatabaseStorage.deleteUser i d' = inr (false, d')
     /\ DatabaseStorage.getUser i d' = None
     /\ (DatabaseStorage.hasUserId i d = false -> d' = d)
     /\ complaints d' = complaints d
     /\ (forall u, In u (users d') <-> In u (users d) /\ User.id u <> i)
     /\ forall sid a,
         caller d (Some sid) = Some a -> User.role a = admin -> sid <> i ->
         request scryptHex isEmail env (Some sid) (DeleteAccount i) d
         = (if DatabaseStorage.hasUserId i d then mkResponse NoContent None
            else mkResponse NotFound (Some (messageJson "User not found")),
            mkCtx d' (Some sid) [CallGetUser sid; CallDeleteUser i])
         /\ request scryptHex isEmail env (Some sid) (DeleteAccount i) d'
            = (mkResponse NotFound (Some (messageJson "User not found")),
               mkCtx d' (Some sid) [CallGetUser sid; CallDeleteUser i]))
  /\ (DatabaseStorage.ownsComplaint i d = true ->
      DatabaseStorage.hasUserId i d = true ->
      DatabaseStorage.deleteUser i d = inl ForeignKeyViolation
      /\ forall sid a,
          caller d (Some sid) = Some a -> User.role a = admin ->
          request scryptHex isEmail env (Some sid) (DeleteAccount i) d
          = (mkResponse Internal None,
             mkCtx d (Some sid) [CallGetUser sid; CallDeleteUser i])).
Proof.
  split.
  - intros Hfree.
    destruct (DatabaseStorage.hasUserId i d) eqn:Hhas.
    + (* an account is under the id *)
      pose proof (deleteUser_present i d Hhas) as Hdel. rewrite Hfree in Hdel.
      set (d' := mkDb (filter (fun u => negb (String.eqb (User.id u) i)) (users d))
                      (complaints d)) in *.
      assert (Hgone : DatabaseStorage.hasUserId i d' = false).
      { unfold DatabaseStorage.hasUserId, d'. cbn [users].
        apply (existsb_filter_out (fun u => String.eqb (User.id u) i)). }
      exists d'. split; [exact Hdel |].
      split; [apply deleteUser_absent; exact Hgone |].
      split.
      { unfold DatabaseStorage.getUser. unfold DatabaseStorage.hasUserId in Hgone.
        destruct (find _ (users d')) as [u |] eqn:Hf; [| reflexivity].
        apply find_some in Hf. destruct Hf as [Hin Hu].
        assert (Hex : existsb (fun u => String.eqb (User.id u) i) (users d') = true)
          by (apply existsb_exists; eauto).
        congruence. }
      split; [discriminate |].
      split; [reflexivity |].
      split.
      { intros u. unfold d'. cbn [users]. rewrite filter_In.
        rewrite negb_true_iff, String.eqb_neq. tauto. }
      intros sid a Ha Hrole Hne. split.
      * rewrite request_run, (afterSession_caller _ _ _ Ha), Ha.
        cbn [route requireAdmin]. rewrite Hrole, deleteUserRoute_run.
        cbn [db]. rewrite Hdel. reflexivity.
      * assert (Ha' : caller d' (Some sid) = Some a).
        { cbn in *. unfold DatabaseStorage.getUser, d' in *. cbn [users].
          rewrite find_filter_other; [exact Ha | congruence]. }
        rewrite request_run, (afterSession_caller _ _ _ Ha'), Ha'.
        cbn [route requireAdmin]. rewrite Hrole, deleteUserRoute_run.
        cbn [db]. rewrite (deleteUser_absent _ _ Hgone). reflexivity.
    + (* no account is under the id *)
      pose proof (deleteUser_absent i d Hhas) as Hdel.
      exists d. split; [exact Hdel |]. split; [exact Hdel |].
      split.
      { unfold DatabaseStorage.getUser. unfold DatabaseStorage.hasUserId in Hhas.
        destruct (find _ (users d)) as [u |] eqn:Hf; [| reflexivity].
        apply find_some in Hf. destruct Hf as [Hin Hu].
        assert (Hex : existsb (fun u => String.eqb (User.id u) i) (users d) = true)
          by (apply existsb_exists; eauto).
        congruence. }
      split; [reflexivity |]. split; [reflexivity |].
      split.
      { intros u. split; [| tauto]. intros Hin. split; [exact Hin |].
        intros Hid. unfold DatabaseStorage.hasUserId in Hhas.
        assert (Hex : existsb (fun u => String.eqb (User.id u) i) (users d) = true).
        { apply existsb_exists. exists u. split; [exact Hin |].
          apply String.eqb_eq. exact Hid. }
        congruence. }
      intros sid a Ha Hrole Hne.
      assert (Hrun :
                request scryptHex isEmail env (Some sid) (DeleteAccount i) d
                = (mkResponse NotFound (Some (messageJson "User not found")),
                   mkCtx d (Some sid) [CallGetUser sid; CallDeleteUser i])).
      { rewrite request_run, (afterSession_caller _ _ _ Ha), Ha.
        cbn [route requireAdmin]. rewrite Hrole, deleteUserRoute_run.
        cbn [db]. rewrite Hdel. reflexivity. }
      split; exact Hrun.
  - intros Howns Hhas.
    pose proof (deleteUser_present i d Hhas) as Hdel. rewrite Howns in Hdel.
    split; [exact Hdel |].
    intros sid a Ha Hrole.
    rewrite request_run, (afterSession_caller _ _ _ Ha), Ha.
    cbn [route requireAdmin]. rewrite Hrole, deleteUserRoute_run.
    cbn [db]. rewrite Hdel. reflexivity.
Qed.

(* ------------------------------------------------------------------ *)
(** ** The owner reference                                              *)
(* ------------------------------------------------------------------ *)

Lemma evolves_refl (d : Db) : evolves d d.
Proof. repeat split; [auto | auto | exists []; symmetry; apply app_nil_r]. Qed.

Lemma evolves_trans (d1 d2 d3 : Db) :
  evolves d1 d2 -> evolves d2 d3 -> evolves d1 d3.
Proof.
  intros (H1 & N1 & e1 & E1) (H2 & N2 & e2 & E2). repeat split; [auto | auto |].
  exists (e1 ++ e2). rewrite E2, E1, app_assoc. reflexivity.
Qed.

Lemma keeps_ret {A} (a : A) : keeps (ret a).
Proof. intros c. apply evolves_refl. Qed.

Lemma keeps_throw {A} (e : Exn) : keeps (throw (A := A) e).
Proof. intros c. apply evolves_refl. Qed.

Lemma keeps_bind {A B} (m : M A) (k : A -> M B) :
  keeps m -> (forall a, keeps (k a)) -> keeps (bind m k).
Proof.
  intros Hm Hk c. unfold bind. specialize (Hm c).
  destruct (m c) as [[e | a] c']; cbn in *; [exact Hm |].
  eapply evolves_trans; [exact Hm | apply Hk].
Qed.

Lemma keeps_tryCatch {A} (m : M A) (h : Exn -> M A) :
  keeps m -> (forall e, keeps (h e)) -> keeps (tryCatch m h).
Proof.
  intros Hm Hh c. unfold tryCatch. specialize (Hm c).
  destruct (m c) as [[e | a] c']; cbn in *; [| exact Hm].
  eapply evolves_trans; [exact Hm | apply Hh].
Qed.

Lemma keeps_setSession (s : option string) : keeps (setSession s).
Proof. intros c. apply evolves_refl. Qed.

Lemma keeps_getSession : keeps getSession.
Proof. intros c. apply evolves_refl. Qed.

Lemma keeps_storage {A} (call : StoreCall) (q : DatabaseStorage.Query A) :
  steady q -> keeps (storage call q).
Proof.
  intros Hq c. unfold storage.
  destruct (q (db c)) as [e | [a d']] eqn:Hrun; cbn; [apply evolves_refl |].
  exact (Hq _ _ _ Hrun).
Qed.

Lemma steady_reading {A} (f : Db -> A) : steady (reading f).
Proof. intros d a d' H. inversion H; subst. apply evolves_refl. Qed.

Lemma hasUserId_false (i : string) (d : Db) :
  DatabaseStorage.hasUserId i d = false -> ~ In i (map User.id (users d)).
Proof.
  unfold DatabaseStorage.hasUserId. intros H Hin. apply in_map_iff in Hin.
  destruct Hin as (u & Hid & Hu).
  assert (Hex : existsb (fun u => String.eqb (User.id u) i) (users d) = true).
  { apply existsb_exists. exists u. split; [exact Hu | apply String.eqb_eq, Hid]. }
  congruence.
Qed.

(** Removing accounts keeps the remaining ids distinct. *)
Lemma ids_distinct_filter (keep : User.t -> bool) (us : list User.t) :
  NoDup (map User.id us) -> NoDup (map User.id (filter keep us)).
Proof.
  intros Hnd. induction us as [| u us IH]; cbn in *; [constructor |].
  apply NoDup_cons_iff in Hnd. destruct Hnd as [Hu Hus].
  destruct (keep u); cbn; [| exact (IH Hus)].
  apply NoDup_cons_iff. split; [| exact (IH Hus)].
  rewrite in_map_iff. intros (v & Hv & Hin).
  apply filter_In in Hin. apply Hu. rewrite <- Hv. apply in_map. tauto.
Qed.

Lemma steady_createUser (env : Env) (iu : InsertUser) :
  steady (DatabaseStorage.createUser env iu).
Proof.
  intros d u d' H. apply createUser_stored in H.
  destruct H as (-> & Hid & _ & _ & _ & Hfresh & _).
  repeat split; [| | exists []; cbn; symmetry; apply app_nil_r].
  - intros Hinv c Hc. cbn in *. destruct (Hinv c Hc) as (o & Ho & Ho').
    exists o. split; [apply in_or_app; auto | exact Ho'].
  - unfold idsDistinct. cbn [users]. intros Hnd. rewrite map_app. cbn [map].
    apply (Permutation_NoDup (Permutation_cons_append _ _)).
    constructor; [| exact Hnd].
    rewrite Hid. apply hasUserId_false. exact Hfresh.
Qed.

Lemma steady_deleteUser (i : string) : steady (DatabaseStorage.deleteUser i).
Proof.
  intros d ok d' H.
  destruct (DatabaseStorage.hasUserId i d) eqn:Hhas.
  - rewrite (deleteUser_present _ _ Hhas) in H.
    destruct (DatabaseStorage.ownsComplaint i d) eqn:Howns; [discriminate |].
    inversion H; subst; clear H.
    repeat split; [| | exists []; cbn; symmetry; apply app_nil_r].
    + intros Hinv c Hc. cbn in *. destruct (Hinv c Hc) as (o & Ho & Hid).
      exists o. split; [| exact Hid].
      apply filter_In. split; [exact Ho |].
      apply negb_true_iff, String.eqb_neq. intros Heq.
      unfold DatabaseStorage.ownsComplaint in Howns.
      assert (Hex : existsb (fun k => String.eqb (Complaint.studentId k) i)
                            (complaints d) = true).
      { apply existsb_exists. exists c. split; [exact Hc |].
        apply String.eqb_eq. congruence. }
      congruence.
    + unfold idsDistinct. cbn [users]. apply ids_distinct_filter.
  - rewrite (deleteUser_absent _ _ Hhas) in H. inversion H; subst.
    apply evolves_refl.
Qed.

Lemma steady_createComplaint (env : Env) (ic : InsertComplaint) (sid : string) :
  steady (DatabaseStorage.createComplaint env ic sid).
Proof.
  intros d k d'. unfold DatabaseStorage.createComplaint. cbn [Complaint.id].
  destruct (DatabaseStorage.hasComplaintId (genId env) d); [discriminate |].
  destruct (DatabaseStorage.hasUserId sid d) eqn:Hown; cbn; [| discriminate].
  intros H; inversion H; subst; clear H. repeat split; [| auto |].
  - intros Hinv c Hc. cbn in *. apply in_app_or in Hc.
    destruct Hc as [Hc | [<- | []]]; [exact (Hinv c Hc) |].
    unfold DatabaseStorage.hasUserId in Hown. apply existsb_exists in Hown.
    destruct Hown as (o & Ho & Hid). apply String.eqb_eq in Hid.
    exists o. cbn. auto.
  - eexists. unfold ownership. cbn. rewrite map_app. reflexivity.
Qed.

Lemma steady_updateComplaintStatus (env : Env) (i : string) (up : UpdateComplaint) :
  steady (DatabaseStorage.updateComplaintStatus env i up).
Proof.
  intros d r d' H. unfold DatabaseStorage.updateComplaintStatus in H.
  inversion H; subst; clear H. repeat split; [| auto |].
  - intros Hinv c Hc. cbn in *. apply in_map_iff in Hc.
    destruct Hc as (c0 & <- & Hc0). destruct (Hinv c0 Hc0) as (o & Ho & Hid).
    exists o. split; [exact Ho |].
    destruct (String.eqb (Complaint.id c0) i); exact Hid.
  - exists []. rewrite app_nil_r. unfold ownership. cbn. rewrite map_map.
    apply map_ext. intros c. destruct (String.eqb (Complaint.id c) i); reflexivity.
Qed.

Lemma steady_getAllUsers (role search : option string) :
  steady (DatabaseStorage.getAllUsers role search).
Proof.
  intros d rows d' H. apply getAllUsers_rows in H. destruct H as [-> _].
  apply evolves_refl.
Qed.

Lemma steady_getAllComplaints (st cat q : option string) :
  steady (DatabaseStorage.getAllComplaints st cat q).
Proof.
  intros d rows d'. unfold DatabaseStorage.getAllComplaints.
  destruct (DatabaseStorage.given st) as [s |];
    [destruct (DatabaseStorage.enumLiteral parseStatus s); [discriminate |] |];
    (destruct (DatabaseStorage.given cat) as [k |];
     [destruct (DatabaseStorage.enumLiteral parseCategory k); [discriminate |] |]);
    intros H; inversion H; subst; apply evolves_refl.
Qed.

Lemma steady_same {A} (q : DatabaseStorage.Query A) :
  (forall d, exists a, q d = inr (a, d)) -> steady q.
Proof.
  intros Hq d a d' H. destruct (Hq d) as [a' Ha]. rewrite Ha in H.
  inversion H; subst. apply evolves_refl.
Qed.

Create HintDb keeps.

#[local] Hint Resolve keeps_ret keeps_throw keeps_setSession keeps_getSession
  keeps_storage steady_reading steady_createUser steady_deleteUser
  steady_createComplaint steady_updateComplaintStatus steady_getAllUsers
  steady_getAllComplaints : keeps.

(** Walks a route: binds and handlers first, then case analysis on whatever
    the route branches on. *)
Ltac keeps_walk :=
  repeat first
    [ apply keeps_bind; [| intros ?]
    | apply keeps_tryCatch; [| intros ?]
    | progress auto with keeps
    | apply keeps_storage, steady_same; intros ?; eexists; reflexivity
    | progress unfold studentOnly
    | match goal with
      | |- keeps (match ?x with _ => _ end) => destruct x
      | |- keeps (if ?x then _ else _) => destruct x
      end ].

Lemma keeps_route (env : Env) (user : option User.t) (op : Op) :
  keeps (route scryptHex isEmail env user op).
Proof.
  destruct op; cbn [route];
    unfold requireAuth, requireAdmin, studentOnly, register, loginRoute,
      logoutRoute, whoami, postComplaint, getMyComplaints, getMyStats,
      getComplaints, getStats, getComplaint, patchComplaint, getUsers,
      postUser, deleteUserRoute, verify, comparePasswords, parse, login,
      logout, getUserByUsername, getUser, status, sendStatus, next, zodOrNext;
    keeps_walk.
Qed.

Lemma keeps_handle (env : Env) (op : Op) : keeps (handle scryptHex isEmail env op).
Proof.
  unfold handle, deserializeUser, getUser. keeps_walk. apply keeps_route.
Qed.

Lemma request_db (env : Env) (s : option string) (op : Op) (d : Db) :
  db (snd (request scryptHex isEmail env s op d))
  = db (snd (handle scryptHex isEmail env op (mkCtx d s []))).
Proof.
  unfold request, serve.
  destruct (handle scryptHex isEmail env op _) as [[e | r] c]; reflexivity.
Qed.

(** C10. If every complaint's owner is an account of the store, the same
    holds after any request; no request changes the owner (or the id) of a
    complaint on record; a request to delete an account that a complaint
    refers to leaves the store as it was; and the store refuses a complaint
    whose owner is no account. *)
Theorem owner_reference_preserved (env : Env) (s : option string) (op : Op) (d : Db) :
  ownersExist d ->
  ownersExist (db (snd (request scryptHex isEmail env s op d)))
  /\ (exists extra,
        ownership (db (snd (request scryptHex isEmail env s op d)))
        = ownership d ++ extra)
  /\ (forall i,
        op = DeleteAccount i -> DatabaseStorage.ownsComplaint i d = true ->
        db (snd (request scryptHex isEmail env s op d)) = d)
  /\ (forall ic sid,
        DatabaseStorage.hasUserId sid d = false ->
        exists e, DatabaseStorage.createComplaint env ic sid d = inl e).
Proof.
  intros Hinv.
  pose proof (keeps_handle env op (mkCtx d s [])) as (Hkeep & _ & Hext).
  rewrite <- request_db in Hkeep, Hext. cbn [db] in Hkeep, Hext.
  split; [exact (Hkeep Hinv) |]. split; [exact Hext |]. split.
  - intros i -> Howns. rewrite request_run. cbn [route].
    unfold requireAdmin, afterSession.
    destruct (caller d s) as [a |]; [| reflexivity].
    destruct (User.role a); [reflexivity |].
    rewrite deleteUserRoute_run. cbn [db].
    destruct (DatabaseStorage.hasUserId i d) eqn:Hhas.
    + rewrite (deleteUser_present _ _ Hhas), Howns. reflexivity.
    + rewrite (deleteUser_absent _ _ Hhas). reflexivity.
  - intros ic sid Hmiss. unfold DatabaseStorage.createComplaint.
    cbn [Complaint.id]. rewrite Hmiss.
    destruct (DatabaseStorage.hasComplaintId (genId env) d); eexists; reflexivity.
Qed.

Lemma reachable_wellFormed (d : Db) :
  reachable scryptHex isEmail d -> ownersExist d /\ idsDistinct d.
Proof.
  induction 1 as [| env s op d _ [Hown Hids]].
  - split; [intros c [] | constructor].
  - pose proof (keeps_handle env op (mkCtx d s [])) as (Hkeep & Hnd & _).
    rewrite <- request_db in Hkeep, Hnd. cbn [db] in Hkeep, Hnd. auto.
Qed.

(* ------------------------------------------------------------------ *)
(** ** Listing all complaints                                           *)
(* ------------------------------------------------------------------ *)

Lemma startsWith_spec (needle hay : list ascii) :
  startsWith needle hay = true <-> exists post, hay = needle ++ post.
Proof.
  revert hay. induction needle as [| a n IH]; intros hay; cbn.
  - split; [intros _; exists hay; reflexivity | reflexivity].
  - destruct hay as [| b h].
    + split; [discriminate | intros [post H]; discriminate].
    + rewrite andb_true_iff, Ascii.eqb_eq, IH. split.
      * intros [-> [post ->]]. exists post. reflexivity.
      * intros [post H]. inversion H; subst. eauto.
Qed.

Lemma occursIn_spec (needle hay : list ascii) :
  occursIn needle hay = true <-> exists pre post, hay = pre ++ needle ++ post.
Proof.
  induction hay as [| b h IH]; cbn [occursIn]; rewrite orb_true_iff, startsWith_spec.
  - split.
    + intros [[post H] | H]; [exists [], post; exact H | discriminate].
    + intros (pre & post & H). left. destruct pre; [eauto | discriminate].
  - rewrite IH. split.
    + intros [[post H] | (pre & post & H)].
      * exists [], post. exact H.
      * exists (b :: pre), post. cbn. congruence.
    + intros (pre & post & H). destruct pre as [| x pre]; cbn in H.
      * left. eauto.
      * right. inversion H; subst. eauto.
Qed.

Lemma like_any_step (p s : list ascii) :
  like ("%"%char :: p) s
  = like p s || match s with [] => false | _ :: s' => like ("%"%char :: p) s' end.
Proof. destruct s; reflexivity. Qed.

Lemma like_plain_step (c : ascii) (p s : list ascii) :
  isMeta c = false ->
  like (c :: p) s
  = match s with [] => false | x :: s' => Ascii.eqb c x && like p s' end.
Proof.
  destruct c as [[] [] [] [] [] [] [] []]; cbn; intros H;
    try discriminate; reflexivity.
Qed.

Lemma like_any_alone (s : list ascii) : like ["%"%char] s = true.
Proof.
  induction s as [| x s IH]; [reflexivity |].
  rewrite like_any_step, IH. apply orb_true_r.
Qed.

Lemma like_plain_prefix (needle s : list ascii) :
  (forall c, In c needle -> isMeta c = false) ->
  like (needle ++ ["%"%char]) s = startsWith needle s.
Proof.
  revert s. induction needle as [| a n IH]; intros s Hplain.
  - cbn [app startsWith]. apply like_any_alone.
  - cbn [app]. rewrite like_plain_step by (apply Hplain; left; reflexivity).
    destruct s as [| x s]; [reflexivity |]. cbn [startsWith].
    rewrite IH by (intros c Hc; apply Hplain; right; exact Hc). reflexivity.
Qed.

Lemma like_infix (needle s : list ascii) :
  (forall c, In c needle -> isMeta c = false) ->
  like ("%"%char :: needle ++ ["%"%char]) s = occursIn needle s.
Proof.
  intros Hplain. induction s as [| x s IH].
  - rewrite like_any_step, like_plain_prefix by exact Hplain.
    cbn. reflexivity.
  - rewrite like_any_step, like_plain_prefix, IH by exact Hplain. reflexivity.
Qed.

Lemma chars_append (a b : string) :
  Str.chars (a ++ b)%string = Str.chars a ++ Str.chars b.
Proof.
  unfold Str.chars. induction a as [| c a IH]; cbn; [reflexivity |].
  rewrite IH. reflexivity.
Qed.

Lemma lowerChar_plain (c : ascii) :
  isMeta c = false -> isMeta (Str.lowerChar c) = false.
Proof.
  destruct c as [[] [] [] [] [] [] [] []]; intros H;
    try discriminate; reflexivity.
Qed.

(** For a search text without [%], [_] and backslash, the pattern
    [%text%] is a case-insensitive substring test. *)
Lemma ilike_wrap (column search : string) :
  plainText search ->
  ilike column (wrapPattern search) = containsCI search column.
Proof.
  intros Hplain. unfold ilike, wrapPattern, containsCI.
  rewrite !chars_append. unfold Str.lower. rewrite !map_app. cbn [Str.chars
    list_ascii_of_string map].
  change (Str.lowerChar "%") with "%"%char.
  apply like_infix. intros c Hc. apply in_map_iff in Hc.
  destruct Hc as (c0 & <- & Hc0). apply lowerChar_plain, Hplain, Hc0.
Qed.

Lemma insertDesc_perm {A} (key : A -> Z) (x : A) (l : list A) :
  Permutation (insertDesc key x l) (x :: l).
Proof.
  induction l as [| y l IH]; cbn; [reflexivity |].
  destruct (key y <? key x); [reflexivity |].
  rewrite IH. apply perm_swap.
Qed.

Lemma orderByDesc_perm {A} (key : A -> Z) (l : list A) :
  Permutation (orderByDesc key l) l.
Proof.
  induction l as [| x l IH]; cbn; [reflexivity |].
  rewrite insertDesc_perm, IH. reflexivity.
Qed.

Lemma insertDesc_HdRel {A} (key : A -> Z) (x y : A) (l : list A) :
  key x <= key y -> HdRel (descBy key) y l -> HdRel (descBy key) y (insertDesc key x l).
Proof.
  intros Hxy Hl. destruct l as [| z l]; cbn.
  - constructor. exact Hxy.
  - destruct (key z <? key x); constructor; [exact Hxy |].
    inversion Hl; assumption.
Qed.

Lemma insertDesc_sorted {A} (key : A -> Z) (x : A) (l : list A) :
  Sorted (descBy key) l -> Sorted (descBy key) (insertDesc key x l).
Proof.
  induction l as [| y l IH]; cbn; intros Hs.
  - constructor; constructor.
  - destruct (key y <? key x) eqn:Hc.
    + constructor; [exact Hs |]. constructor.
      unfold descBy. apply Z.ltb_lt in Hc. lia.
    + inversion Hs; subst. constructor; [apply IH; assumption |].
      apply insertDesc_HdRel; [apply Z.ltb_ge in Hc; exact Hc | assumption].
Qed.

Lemma orderByDesc_sorted {A} (key : A -> Z) (l : list A) :
  Sorted (descBy key) (orderByDesc key l).
Proof.
  induction l as [| x l IH]; cbn; [constructor |].
  apply insertDesc_sorted, IH.
Qed.

Lemma Sorted_map {A B} (f : A -> B) (R : B -> B -> Prop) (l : list A) :
  Sorted (fun a b => R (f a) (f b)) l -> Sorted R (map f l).
Proof.
  induction 1 as [| a l Hs IH Hhd]; cbn; constructor; [exact IH |].
  destruct Hhd; cbn; constructor; assumption.
Qed.

Lemma join_one (k : string) (us : list User.t) :
  NoDup (map User.id us) ->
  filter (fun u => String.eqb k (User.id u)) us
  = match find (fun u => String.eqb (User.id u) k) us with
    | Some u => [u]
    | None => []
    end.
Proof.
  induction us as [| u us IH]; cbn; intros Hnd; [reflexivity |].
  inversion Hnd as [| ? ? Hnotin Hnd']; subst.
  rewrite (String.eqb_sym k (User.id u)).
  destruct (String.eqb (User.id u) k) eqn:Hk.
  - apply String.eqb_eq in Hk. f_equal.
    rewrite (IH Hnd').
    destruct (find _ us) as [v |] eqn:Hf; [| reflexivity].
    exfalso. apply find_some in Hf. destruct Hf as [Hin Hv].
    apply String.eqb_eq in Hv. apply Hnotin. rewrite Hk, <- Hv.
    apply in_map. exact Hin.
  - apply IH. exact Hnd'.
Qed.

Lemma leftJoin_owner (d : Db) :
  NoDup (map User.id (users d)) ->
  DatabaseStorage.leftJoin d = map (fun c => (c, ownerOf d c)) (complaints d).
Proof.
  intros Hnd. unfold DatabaseStorage.leftJoin, ownerOf, DatabaseStorage.getUser.
  induction (complaints d) as [| c l IH]; cbn [flat_map]; [reflexivity |].
  rewrite IH, (join_one _ _ Hnd), map_cons.
  destruct (find _ (users d)); reflexivity.
Qed.

Lemma filter_map_comm {A B} (f : A -> B) (p : B -> bool) (l : list A) :
  filter p (map f l) = map f (filter (fun x => p (f x)) l).
Proof.
  induction l as [| x l IH]; cbn; [reflexivity |].
  rewrite IH. destruct (p (f x)); reflexivity.
Qed.

Lemma given_status (st : Status) :
  DatabaseStorage.given (Some (statusToken st)) = Some (statusToken st)
  /\ DatabaseStorage.enumLiteral parseStatus (statusToken st) = inr st.
Proof. destruct st; split; reflexivity. Qed.

Lemma given_category (k : Category) :
  DatabaseStorage.given (Some (categoryToken k)) = Some (categoryToken k)
  /\ DatabaseStorage.enumLiteral parseCategory (categoryToken k) = inr k.
Proof. destruct k; split; reflexivity. Qed.

Lemma Category_eqb_eq (a b : Category) : Category_eqb a b = true <-> a = b.
Proof. destruct a, b; cbn; split; congruence. Qed.

Lemma containsCI_empty (hay : string) : containsCI EmptyString hay = true.
Proof. unfold containsCI. cbn. destruct (Str.lower (Str.chars hay)); reflexivity. Qed.

Lemma search_agrees (q : option string) (c : Complaint.t) (owner : option User.t) :
  (forall text, q = Some text -> plainText text) ->
  match DatabaseStorage.given q with
  | Some s =>
      ilike (Complaint.subject c) (wrapPattern s)
      || ilike (Complaint.description c) (wrapPattern s)
      || DatabaseStorage.ilikeNullable (option_map User.name owner) (wrapPattern s)
  | None => true
  end
  = match q with
    | Some text =>
        containsCI text (Complaint.subject c)
        || containsCI text (Complaint.description c)
        || match owner with
           | Some u => containsCI text (User.name u)
           | None => false
           end
    | None => true
    end.
Proof.
  intros Hplain. destruct q as [text |]; [| reflexivity].
  specialize (Hplain text eq_refl). unfold DatabaseStorage.given, Str.truthy.
  destruct (String.eqb text EmptyString) eqn:He; cbn [negb].
  - apply String.eqb_eq in He. subst. rewrite containsCI_empty. reflexivity.
  - rewrite !ilike_wrap by exact Hplain.
    destruct owner as [u |]; cbn [DatabaseStorage.ilikeNullable option_map];
      [rewrite ilike_wrap by exact Hplain |]; reflexivity.
Qed.

Lemma getUser_found (k : string) (d : Db) :
  (exists u, In u (users d) /\ User.id u = k) ->
  exists u, DatabaseStorage.getUser k d = Some u /\ In u (users d) /\ User.id u = k.
Proof.
  intros (u & Hin & Hid). unfold DatabaseStorage.getUser.
  destruct (find (fun u => String.eqb (User.id u) k) (users d)) as [v |] eqn:Hf.
  - apply find_some in Hf. destruct Hf as [Hv Hk]. apply String.eqb_eq in Hk. eauto.
  - exfalso. apply (find_none _ _ Hf) in Hin. cbn in Hin.
    apply String.eqb_neq in Hin. contradiction.
Qed.

(** The listing under filters that are labels. *)
Lemma listAll_labels (d : Db) (st : option Status) (cat : option Category)
  (q : option string) :
  idsDistinct d ->
  ownersExist d ->
  (forall text, q = Some text -> plainText text) ->
  exists rows,
    DatabaseStorage.getAllComplaints
      (option_map statusToken st) (option_map categoryToken cat) q d
    = inr (rows, d)
    /\ Permutation rows (listAllSpec d st cat q)
    /\ newestFirst rows
    /\ forall row,
        In row rows ->
        exists u,
          In u (users d)
          /\ User.id u = Complaint.studentId (cws_complaint row)
          /\ cws_student row = Some (ownerProjection u).
Proof.
  intros Hnd Hfk Hplain.
  unfold DatabaseStorage.getAllComplaints.
  set (statusOk := fun c : Complaint.t =>
         match st with Some s => Status_eqb (Complaint.status c) s | None => true end).
  set (categoryOk := fun c : Complaint.t =>
         match cat with Some k => Category_eqb (Complaint.category c) k | None => true end).
  assert (Hst :
            match DatabaseStorage.given (option_map statusToken st) with
            | Some s =>
                match DatabaseStorage.enumLiteral parseStatus s with
                | inl e => inl e
                | inr s' => inr (fun c => Status_eqb (Complaint.status c) s')
                end
            | None => inr (fun _ => true)
            end = (inr statusOk : DbError + (Complaint.t -> bool))).
  { destruct st as [s |]; [| reflexivity]. cbn [option_map].
    destruct (given_status s) as [-> ->]. reflexivity. }
  assert (Hcat :
            match DatabaseStorage.given (option_map categoryToken cat) with
            | Some s =>
                match DatabaseStorage.enumLiteral parseCategory s with
                | inl e => inl e
                | inr k => inr (fun c => Category_eqb (Complaint.category c) k)
                end
            | None => inr (fun _ => true)
            end = (inr categoryOk : DbError + (Complaint.t -> bool))).
  { destruct cat as [k |]; [| reflexivity]. cbn [option_map].
    destruct (given_category k) as [-> ->]. reflexivity. }
  rewrite Hst, Hcat. clear Hst Hcat.
  eexists. split; [reflexivity |].
  rewrite (leftJoin_owner d Hnd), filter_map_comm. cbn [fst snd].
  set (kept := filter _ (complaints d)).
  assert (Hkept : kept = filter (fun c => matchesFilter st cat q c (ownerOf d c))
                               (complaints d)).
  { unfold kept. apply filter_ext. intros c. unfold matchesFilter.
    fold (statusOk c) (categoryOk c). f_equal.
    rewrite <- (search_agrees q c (ownerOf d c) Hplain).
    destruct (DatabaseStorage.given q); reflexivity. }
  split; [| split].
  - rewrite orderByDesc_perm, map_map. unfold listAllSpec. rewrite <- Hkept.
    apply Permutation_refl'. apply map_ext. intros c.
    unfold DatabaseStorage.project. cbn [fst snd].
    destruct (ownerOf d c); reflexivity.
  - unfold newestFirst. apply Sorted_map.
    exact (orderByDesc_sorted
             (fun row : Complaint.t * option User.t => Complaint.createdAt (fst row)) _).
  - intros row Hrow. apply in_map_iff in Hrow. destruct Hrow as (pr & <- & Hpr).
    apply orderByDesc_In in Hpr. apply in_map_iff in Hpr.
    destruct Hpr as (c & <- & Hc). rewrite Hkept in Hc.
    apply filter_In in Hc. destruct Hc as [Hc _].
    destruct (getUser_found _ d (Hfk c Hc)) as (u & Hget & Hin & Hid).
    exists u. unfold DatabaseStorage.project, ownerOf. cbn [fst snd cws_complaint cws_student].
    rewrite Hget. auto.
Qed.

(** How [given] and [enumLiteral] read a filter text. *)
Lemma filterLabel_given {A} (parse : string -> option A) (raw : option string) :
  match filterLabel parse raw with
  | Some (Some a) =>
      exists s, DatabaseStorage.given raw = Some s
                /\ DatabaseStorage.enumLiteral parse s = inr a
  | Some None => DatabaseStorage.given raw = None
  | None =>
      exists s, DatabaseStorage.given raw = Some s
                /\ DatabaseStorage.enumLiteral parse s = inl InvalidEnumLabel
  end.
Proof.
  unfold filterLabel, DatabaseStorage.given, DatabaseStorage.enumLiteral.
  destruct raw as [s |]; [| reflexivity].
  destruct (Str.truthy s); [| reflexivity].
  destruct (parse s) as [a |] eqn:Hparse; cbn; exists s; rewrite Hparse; auto.
Qed.

(** C7 (as the code has it). On a store whose account ids are distinct and
    whose complaints all have an owner, and for a search text of ASCII
    characters without [%], [_] and backslash that is compared with ASCII
    texts only, [getAllComplaints] returns the listing the specification
    describes, up to the order of rows with equal creation time: when the
    status and the category are each absent, empty or a label of the enum,
    the rows are a permutation of [listAllSpec] (an absent or empty
    dimension not constraining), they are ordered newest first, and each
    carries the projection of its owner; when one of them is another text,
    the store raises instead. *)
Theorem listAll_matches_spec (d : Db) (st cat q : option string) :
  idsDistinct d ->
  ownersExist d ->
  (forall text, q = Some text -> plainText text /\ asciiText text = true) ->
  (q <> None -> asciiTexts d = true) ->
  match filterLabel parseStatus st, filterLabel parseCategory cat with
  | Some st', Some cat' =>
      exists rows,
        DatabaseStorage.getAllComplaints st cat q d = inr (rows, d)
        /\ Permutation rows (listAllSpec d st' cat' q)
        /\ newestFirst rows
        /\ forall row,
            In row rows ->
            exists u,
              In u (users d)
              /\ User.id u = Complaint.studentId (cws_complaint row)
              /\ cws_student row = Some (ownerProjection u)
  | _, _ => DatabaseStorage.getAllComplaints st cat q d = inl InvalidEnumLabel
  end.
Proof.
  intros Hnd Hfk Hsearch _.
  pose proof (filterLabel_given parseStatus st) as Hs.
  pose proof (filterLabel_given parseCategory cat) as Hc.
  destruct (filterLabel parseStatus st) as [st' |];
    destruct (filterLabel parseCategory cat) as [cat' |].
  - assert (Hsame : DatabaseStorage.getAllComplaints st cat q d
                    = DatabaseStorage.getAllComplaints
                        (option_map statusToken st') (option_map categoryToken cat')
                        q d).
    { unfold DatabaseStorage.getAllComplaints.
      destruct st' as [a |]; [destruct Hs as (s & -> & ->) | rewrite Hs];
        (destruct cat' as [k |]; [destruct Hc as (t & -> & ->) | rewrite Hc]);
        cbn [option_map];
        try (destruct (given_status a) as [-> ->]);
        try (destruct (given_category k) as [-> ->]);
        reflexivity. }
    rewrite Hsame.
    exact (listAll_labels d st' cat' q Hnd Hfk
             (fun text Hq => proj1 (Hsearch text Hq))).
  - destruct Hc as (t & Hg & He). unfold DatabaseStorage.getAllComplaints.
    rewrite Hg, He.
    destruct st' as [a |]; [destruct Hs as (s & -> & ->) | rewrite Hs]; reflexivity.
  - destruct Hs as (s & Hg & He). unfold DatabaseStorage.getAllComplaints.
    rewrite Hg, He. reflexivity.
  - destruct Hs as (s & Hg & He). unfold DatabaseStorage.getAllComplaints.
    rewrite Hg, He. reflexivity.
Qed.

End Properties.

(* ------------------------------------------------------------------ *)
(** ** The statements above on the sample population                    *)
(* ------------------------------------------------------------------ *)

Lemma busy_ids_distinct : idsDistinct Scenario.busy.
Proof.
  unfold idsDistinct. cbn. constructor.
  - intros [H | []]. discriminate.
  - constructor; [intros [] | constructor].
Defined.

Lemma busy_ownersExist : ownersExist Scenario.busy.
Proof.
  intros c [<- | []]. exists Scenario.asha. split; [left |]; reflexivity.
Defined.

(** C1, as stated, fails: the reply to a registration carries the hash that
    was just stored for the new account. *)
Lemma register_reply_exposes_hash :
  Scenario.run Scenario.env None (Register Scenario.adminBody) Scenario.empty
  = (mkResponse Created (Some (userJson Scenario.mallory)),
     mkCtx (mkDb [Scenario.mallory] []) (Some "id-0001")
           [CallGetUserByUsername "mallory"; CallCreateUser])
  /\ prop "password" (userJson Scenario.mallory)
     = Some (JStr (hashPassword Scenario.kdf Scenario.env "hunter2")).
Proof. split; reflexivity. Qed.

Lemma account_reply_is_stored_row_witness :
  succeeded (fst (Scenario.run Scenario.env None (Register Scenario.adminBody)
                    Scenario.empty)) = true
  /\ exists u,
      In u (users (db (snd (Scenario.run Scenario.env None
                              (Register Scenario.adminBody) Scenario.empty))))
      /\ payload (fst (Scenario.run Scenario.env None
                         (Register Scenario.adminBody) Scenario.empty))
         = Some (userJson u).
Proof.
  split; [reflexivity |].
  exact (proj2 (account_reply_is_stored_row Scenario.kdf Scenario.emailLike
                  Scenario.env None (Register Scenario.adminBody) Scenario.empty
                  eq_refl)).
Defined.

(** C2, as stated, fails: an anonymous caller of an admin-only operation is
    turned away by [requireAdmin], whose reply is [Forbidden]. *)
Lemma anonymous_global_stats_forbidden :
  Scenario.run Scenario.env None GlobalStats Scenario.busy
  = (mkResponse Forbidden (Some (messageJson "Admin access required")),
     mkCtx Scenario.busy None []).
Proof. reflexivity. Qed.

Lemma register_grants_admin_witness :
  insertUserSchema Scenario.emailLike Scenario.adminBody = Some Scenario.insertMallory
  /\ exists u,
      fst (Scenario.run Scenario.env None (Register Scenario.adminBody) Scenario.staffed)
      = mkResponse Created (Some (userJson u))
      /\ session (snd (Scenario.run Scenario.env None (Register Scenario.adminBody)
                         Scenario.staffed)) = Some (User.id u)
      /\ User.role u = admin.
Proof.
  split; [reflexivity |].
  destruct (register_grants_admin Scenario.kdf Scenario.emailLike Scenario.env None
              Scenario.adminBody Scenario.insertMallory Scenario.staffed
              eq_refl eq_refl eq_refl eq_refl)
    as (u & Hreply & _ & Hsession & Hrole & _).
  exists u. auto.
Defined.

(** C4, as stated, fails: a complaint whose subject, description and room
    number are empty texts passes the schema and is stored. *)
Lemma blank_complaint_accepted :
  Scenario.run Scenario.env (Some "u-asha") (FileComplaint Scenario.blankBody)
               Scenario.staffed
  = (mkResponse Created (Some (complaintJson Scenario.blank)),
     mkCtx (mkDb [Scenario.asha; Scenario.warden] [Scenario.blank]) (Some "u-asha")
           [CallGetUser "u-asha"; CallCreateComplaint])
  /\ Complaint.subject Scenario.blank = EmptyString
  /\ Complaint.description Scenario.blank = EmptyString
  /\ Complaint.roomNumber Scenario.blank = EmptyString.
Proof. repeat split; reflexivity. Qed.

Lemma malformed_complaint_rejected_witness :
  ~ complaintFieldsPresent Scenario.noSubjectBody
  /\ Scenario.run Scenario.env (Some "u-asha") (FileComplaint Scenario.noSubjectBody)
                  Scenario.staffed
     = (mkResponse ValidationError (Some (messageJson "Invalid input data")),
        mkCtx Scenario.staffed (Some "u-asha") [CallGetUser "u-asha"]).
Proof.
  assert (Hbad : ~ complaintFieldsPresent Scenario.noSubjectBody).
  { intros [[s Hs] _]. discriminate Hs. }
  split; [exact Hbad |].
  exact (malformed_complaint_rejected Scenario.kdf Scenario.emailLike Scenario.env
           "u-asha" Scenario.asha Scenario.noSubjectBody Scenario.staffed
           eq_refl eq_refl Hbad).
Defined.

(** C5, as stated, fails: the created timestamp is read from the store's
    clock and the updated timestamp from the server's, and the two readings
    differ. *)
Lemma filed_complaint_timestamps_differ :
  Scenario.run Scenario.env (Some "u-asha") (FileComplaint Scenario.leakyBody)
               Scenario.staffed
  = (mkResponse Created (Some (complaintJson Scenario.leaky)),
     mkCtx (mkDb [Scenario.asha; Scenario.warden] [Scenario.leaky]) (Some "u-asha")
           [CallGetUser "u-asha"; CallCreateComplaint])
  /\ Complaint.createdAt Scenario.leaky = 1002
  /\ Complaint.updatedAt Scenario.leaky = 1000.
Proof. repeat split; reflexivity. Qed.

Lemma filed_complaint_record_witness :
  insertComplaintSchema Scenario.leakyBody = Some Scenario.insertLeaky
  /\ exists k,
      Scenario.run Scenario.env (Some "u-asha") (FileComplaint Scenario.leakyBody)
                   Scenario.staffed
      = (mkResponse Created (Some (complaintJson k)),
         mkCtx (mkDb (users Scenario.staffed) (complaints Scenario.staffed ++ [k]))
               (Some "u-asha") [CallGetUser "u-asha"; CallCreateComplaint])
      /\ Complaint.status k = pending
      /\ Complaint.adminResponse k = None
      /\ Complaint.studentId k = "u-asha".
Proof.
  split; [reflexivity |].
  destruct (filed_complaint_record Scenario.kdf Scenario.emailLike Scenario.env
              "u-asha" Scenario.asha Scenario.leakyBody Scenario.insertLeaky
              Scenario.staffed eq_refl eq_refl eq_refl eq_refl)
    as (k & Hrun & Hst & Hresp & Hown & _).
  exists k. auto.
Defined.

(** C6, as stated, fails: an update served in the millisecond of the last
    write stores the same updated timestamp, not a later one. *)
Lemma update_same_instant_not_later :
  DatabaseStorage.updateComplaintStatus Scenario.sameInstant "c-0000"
    (mkUpdateComplaint (Some resolved) (Some (Some "Fixed"))) Scenario.busy
  = inr (Some Scenario.fixed, mkDb [Scenario.asha; Scenario.warden] [Scenario.fixed])
  /\ Complaint.updatedAt Scenario.fixed = Complaint.updatedAt Scenario.faucet.
Proof. split; reflexivity. Qed.

Lemma updateStatus_effect_witness :
  exists k d',
    DatabaseStorage.updateComplaintStatus Scenario.env "c-0000"
      (mkUpdateComplaint (Some resolved) (Some (Some "Fixed"))) Scenario.busy
    = inr (Some k, d')
    /\ In k (complaints d')
    /\ Complaint.id k = "c-0000".
Proof.
  destruct (updateStatus_effect Scenario.kdf Scenario.emailLike Scenario.env
              "c-0000" resolved (Some "Fixed") Scenario.busy)
    as (r & d' & Hrun & _ & _ & _ & Hhit & _).
  destruct (Hhit eq_refl) as (k & -> & Hin & Hid).
  exists k, d'. auto.
Defined.

(** C7, as stated, fails: [_] in the search text is a wildcard, so a search
    for it lists a complaint in which no underscore occurs. *)
Lemma underscore_search_matches_all :
  DatabaseStorage.getAllComplaints None None (Some "_") Scenario.busy
  = inr ([Scenario.faucetRow], Scenario.busy)
  /\ listAllSpec Scenario.busy None None (Some "_") = [].
Proof. split; reflexivity. Qed.

Lemma listAll_matches_spec_witness :
  exists rows,
    DatabaseStorage.getAllComplaints (Some "pending") (Some "other") (Some "FAUCET")
                                     Scenario.busy
    = inr (rows, Scenario.busy)
    /\ Permutation rows [Scenario.faucetRow]
    /\ newestFirst rows.
Proof.
  assert (Hsearch : forall text, Some "FAUCET" = Some text ->
                                 plainText text /\ asciiText text = true).
  { intros text Heq. inversion Heq; subst. split; [| reflexivity].
    intros c Hc. cbn in Hc.
    repeat (destruct Hc as [<- | Hc]; [reflexivity |]). contradiction. }
  destruct (listAll_matches_spec Scenario.busy (Some "pending") (Some "other")
              (Some "FAUCET") busy_ids_distinct busy_ownersExist Hsearch
              (fun _ => eq_refl))
    as (rows & Hrun & Hperm & Hsorted & _).
  exists rows. auto.
Defined.

(** C8, as stated, fails: deleting an account that owns a complaint is
    refused by the store, and the caller gets a server failure. *)
Lemma delete_owner_refused :
  DatabaseStorage.deleteUser "u-asha" Scenario.busy = inl ForeignKeyViolation
  /\ Scenario.run Scenario.env (Some "u-warden") (DeleteAccount "u-asha") Scenario.busy
     = (mkResponse Internal None,
        mkCtx Scenario.busy (Some "u-warden")
              [CallGetUser "u-warden"; CallDeleteUser "u-asha"]).
Proof. split; reflexivity. Qed.

Lemma deleteAccount_twice_witness :
  DatabaseStorage.ownsComplaint "u-asha" Scenario.staffed = false
  /\ exists d',
      DatabaseStorage.deleteUser "u-asha" Scenario.staffed = inr (true, d')
      /\ DatabaseStorage.deleteUser "u-asha" d' = inr (false, d')
      /\ fst (Scenario.run Scenario.env (Some "u-warden") (DeleteAccount "u-asha")
                Scenario.staffed) = mkResponse NoContent None
      /\ fst (Scenario.run Scenario.env (Some "u-warden") (DeleteAccount "u-asha") d')
         = mkResponse NotFound (Some (messageJson "User not found")).
Proof.
  split; [reflexivity |].
  destruct (proj1 (deleteAccount_twice Scenario.kdf Scenario.emailLike Scenario.env
                     "u-asha" Scenario.staffed) eq_refl)
    as (d' & Hfirst & Hsecond & _ & _ & _ & _ & Hroute).
  assert (Hne : "u-warden" <> "u-asha") by discriminate.
  destruct (Hroute "u-warden" Scenario.warden eq_refl eq_refl Hne) as [H1 H2].
  exists d'. unfold Scenario.run. rewrite H1, H2. auto.
Defined.

Lemma owner_reference_preserved_witness :
  ownersExist Scenario.busy
  /\ ownersExist (db (snd (Scenario.run Scenario.env (Some "u-warden")
                             (DeleteAccount "u-asha") Scenario.busy)))
  /\ db (snd (Scenario.run Scenario.env (Some "u-warden")
                (DeleteAccount "u-asha") Scenario.busy)) = Scenario.busy.
Proof.
  split; [exact busy_ownersExist |].
  destruct (owner_reference_preserved Scenario.kdf Scenario.emailLike Scenario.env
              (Some "u-warden") (DeleteAccount "u-asha") Scenario.busy
              busy_ownersExist)
    as (Hinv & _ & Hdel & _).
  split; [exact Hinv | exact (Hdel "u-asha" eq_refl eq_refl)].
Defined.

(* ================================================================== *)
(** * Further properties of the storage class and the routes           *)
(* ================================================================== *)

(* ------------------------------------------------------------------ *)
(** ** How a request can move the store                                 *)
(* ------------------------------------------------------------------ *)

Section Steps.

Variable R : Db -> Db -> Prop.
Hypothesis R_refl : forall d, R d d.
Hypothesis R_trans : forall d1 d2 d3, R d1 d2 -> R d2 d3 -> R d1 d3.

Lemma moves_ret {A} (a : A) : moves R (ret a).
Proof. intros c. apply R_refl. Qed.

Lemma moves_throw {A} (e : Exn) : moves R (throw (A := A) e).
Proof. intros c. apply R_refl. Qed.

Lemma moves_setSession (s : option string) : moves R (setSession s).
Proof. intros c. apply R_refl. Qed.

Lemma moves_getSession : moves R getSession.
Proof. intros c. apply R_refl. Qed.

Lemma moves_bind {A B} (m : M A) (k : A -> M B) :
  moves R m -> (forall a, moves R (k a)) -> moves R (bind m k).
Proof.
  intros Hm Hk c. unfold bind. specialize (Hm c).
  destruct (m c) as [[e | a] c1]; cbn [snd] in *; [exact Hm |].
  exact (R_trans _ _ _ Hm (Hk a c1)).
Qed.

Lemma moves_tryCatch {A} (m : M A) (h : Exn -> M A) :
  moves R m -> (forall e, moves R (h e)) -> moves R (tryCatch m h).
Proof.
  intros Hm Hh c. unfold tryCatch. specialize (Hm c).
  destruct (m c) as [[e | a] c1]; cbn [snd] in *; [| exact Hm].
  exact (R_trans _ _ _ Hm (Hh e c1)).
Qed.

Lemma moves_storage {A} (call : StoreCall) (q : DatabaseStorage.Query A) :
  respects R q -> moves R (storage call q).
Proof.
  intros Hq c. unfold storage.
  destruct (q (db c)) as [e | [a d1]] eqn:Hrun; cbn [snd db]; [apply R_refl |].
  exact (Hq _ _ _ Hrun).
Qed.

Lemma respects_readsOnly {A} (q : DatabaseStorage.Query A) :
  readsOnly q -> respects R q.
Proof. intros Hq d a d1 Hrun. rewrite (Hq _ _ _ Hrun). apply R_refl. Qed.

End Steps.

Lemma readsOnly_reading {A} (f : Db -> A) : readsOnly (reading f).
Proof. intros d a d1 H. inversion H. reflexivity. Qed.

Lemma readsOnly_getAllUsers (role search : option string) :
  readsOnly (DatabaseStorage.getAllUsers role search).
Proof.
  intros d rows d1. unfold DatabaseStorage.getAllUsers.
  destruct (DatabaseStorage.given role) as [r |];
    [destruct (DatabaseStorage.enumLiteral parseRole r); [discriminate |] |];
    intros H; inversion H; reflexivity.
Qed.

Lemma readsOnly_getAllComplaints (st cat q : option string) :
  readsOnly (DatabaseStorage.getAllComplaints st cat q).
Proof.
  intros d rows d1. unfold DatabaseStorage.getAllComplaints.
  destruct (DatabaseStorage.given st) as [s |];
    [destruct (DatabaseStorage.enumLiteral parseStatus s); [discriminate |] |];
    (destruct (DatabaseStorage.given cat) as [k |];
     [destruct (DatabaseStorage.enumLiteral parseCategory k); [discriminate |] |]);
    intros H; inversion H; reflexivity.
Qed.

Lemma readsOnly_getComplaintsByStudent (sid : string) :
  readsOnly (DatabaseStorage.getComplaintsByStudent sid).
Proof. intros d a d1 H. inversion H. reflexivity. Qed.

Lemma readsOnly_getComplaintById (i : string) :
  readsOnly (DatabaseStorage.getComplaintById i).
Proof. intros d a d1 H. inversion H. reflexivity. Qed.

Lemma readsOnly_getComplaintStats : readsOnly DatabaseStorage.getComplaintStats.
Proof. intros d a d1 H. inversion H. reflexivity. Qed.

Lemma readsOnly_getStudentComplaintStats (sid : string) :
  readsOnly (DatabaseStorage.getStudentComplaintStats sid).
Proof. intros d a d1 H. inversion H. reflexivity. Qed.

Create HintDb readsOnly.

#[local] Hint Resolve readsOnly_reading readsOnly_getAllUsers
  readsOnly_getAllComplaints readsOnly_getComplaintsByStudent
  readsOnly_getComplaintById readsOnly_getComplaintStats
  readsOnly_getStudentComplaintStats : readsOnly.

(** Walks a route for a relation with the given proofs of reflexivity and
    transitivity; the storage methods that write must be covered by
    hypotheses of the goal. *)
Ltac moves_walk refl trans :=
  repeat first
    [ apply (moves_bind _ trans); [| intros ?]
    | apply (moves_tryCatch _ trans); [| intros ?]
    | apply (moves_ret _ refl)
    | apply (moves_throw _ refl)
    | apply (moves_setSession _ refl)
    | apply (moves_getSession _ refl)
    | apply (moves_storage _ refl);
      solve [ auto | apply (respects_readsOnly _ refl); auto with readsOnly ]
    | progress unfold studentOnly
    | match goal with
      | |- moves _ (match ?x with _ => _ end) => destruct x
      | |- moves _ (if ?x then _ else _) => destruct x
      end ].

Ltac unfold_route :=
  cbn [route];
  unfold requireAuth, requireAdmin, studentOnly, register, loginRoute,
    logoutRoute, whoami, postComplaint, getMyComplaints, getMyStats,
    getComplaints, getStats, getComplaint, patchComplaint, getUsers,
    postUser, deleteUserRoute, verify, comparePasswords, parse, login,
    logout, getUserByUsername, getUser, status, sendStatus, next, zodOrNext.

Section Frames.

Variable scryptHex : string -> string -> string.
Variable isEmail : string -> bool.

(** Every route moves the store by steps of the four storage methods that
    write. *)
Lemma route_moves (R : Db -> Db -> Prop) (env : Env) :
  (forall d, R d d) ->
  (forall d1 d2 d3, R d1 d2 -> R d2 d3 -> R d1 d3) ->
  (forall iu, respects R (DatabaseStorage.createUser env iu)) ->
  (forall i, respects R (DatabaseStorage.deleteUser i)) ->
  (forall ic sid, respects R (DatabaseStorage.createComplaint env ic sid)) ->
  (forall i up, respects R (DatabaseStorage.updateComplaintStatus env i up)) ->
  forall op user, moves R (route scryptHex isEmail env user op).
Proof.
  intros refl trans HcreateUser HdeleteUser HcreateComplaint Hupdate op user.
  destruct op; unfold_route; moves_walk refl trans.
Qed.

Lemma request_moves (R : Db -> Db -> Prop) (env : Env) (op : Op) :
  (forall d, R d d) ->
  (forall d1 d2 d3, R d1 d2 -> R d2 d3 -> R d1 d3) ->
  (forall user, moves R (route scryptHex isEmail env user op)) ->
  forall s d, R d (db (snd (request scryptHex isEmail env s op d))).
Proof.
  intros refl trans Hroute s d. rewrite request_db.
  assert (Hhandle : moves R (handle scryptHex isEmail env op)).
  { unfold handle, deserializeUser, getUser. moves_walk refl trans. apply Hroute. }
  exact (Hhandle (mkCtx d s [])).
Qed.

Lemma moves_by_storage (R : Db -> Db -> Prop) (env : Env) :
  (forall d, R d d) ->
  (forall d1 d2 d3, R d1 d2 -> R d2 d3 -> R d1 d3) ->
  (forall iu, respects R (DatabaseStorage.createUser env iu)) ->
  (forall i, respects R (DatabaseStorage.deleteUser i)) ->
  (forall ic sid, respects R (DatabaseStorage.createComplaint env ic sid)) ->
  (forall i up, respects R (DatabaseStorage.updateComplaintStatus env i up)) ->
  forall s op d, R d (db (snd (request scryptHex isEmail env s op d))).
Proof.
  intros refl trans H1 H2 H3 H4 s op d.
  apply (request_moves R env op refl trans).
  intros user. apply (route_moves R env refl trans H1 H2 H3 H4).
Qed.

(** X1. A request changes the store through [createUser], [deleteUser],
    [createComplaint] and [updateComplaintStatus] only: a reflexive and
    transitive relation that the successful runs of these four respect
    holds between the store before and the store after any request. *)
Theorem store_moves_by_storage (R : Db -> Db -> Prop) (env : Env) :
  (forall d, R d d) ->
  (forall d1 d2 d3, R d1 d2 -> R d2 d3 -> R d1 d3) ->
  (forall iu, respects R (DatabaseStorage.createUser env iu)) ->
  (forall i, respects R (DatabaseStorage.deleteUser i)) ->
  (forall ic sid, respects R (DatabaseStorage.createComplaint env ic sid)) ->
  (forall i up, respects R (DatabaseStorage.updateComplaintStatus env i up)) ->
  forall s op d, R d (db (snd (request scryptHex isEmail env s op d))).
Proof.
  intros refl trans HcreateUser HdeleteUser HcreateComplaint Hupdate s op d.
  rewrite request_db.
  pose proof (route_moves R env refl trans HcreateUser HdeleteUser
                HcreateComplaint Hupdate op) as Hroute.
  assert (Hhandle : moves R (handle scryptHex isEmail env op)).
  { unfold handle, deserializeUser, getUser. moves_walk refl trans. apply Hroute. }
  exact (Hhandle (mkCtx d s [])).
Qed.

Lemma createComplaint_stored env ic sid d k d' :
  DatabaseStorage.createComplaint env ic sid d = inr (k, d') ->
  d' = mkDb (users d) (complaints d ++ [k])
  /\ k = Complaint.mk (genId env) sid (ic_subject ic) (ic_description ic)
                      (ic_category ic) (ic_roomNumber ic) pending None
                      (dbNow env) (appNow env)
  /\ DatabaseStorage.hasComplaintId (genId env) d = false
  /\ DatabaseStorage.hasUserId sid d = true.
Proof.
  unfold DatabaseStorage.createComplaint. cbn [Complaint.id].
  destruct (DatabaseStorage.hasComplaintId (genId env) d); [discriminate |].
  destruct (DatabaseStorage.hasUserId sid d); cbn [negb]; [| discriminate].
  intros H. inversion H. auto.
Qed.

Lemma deleteUser_stored i d ok d' :
  DatabaseStorage.deleteUser i d = inr (ok, d') ->
  complaints d' = complaints d
  /\ users d' = filter (fun u => negb (String.eqb (User.id u) i)) (users d)
  /\ ok = DatabaseStorage.hasUserId i d.
Proof.
  destruct (DatabaseStorage.hasUserId i d) eqn:Hhas.
  - rewrite (deleteUser_present _ _ Hhas).
    destruct (DatabaseStorage.ownsComplaint i d); [discriminate |].
    intros H. inversion H. cbn. auto.
  - rewrite (deleteUser_absent _ _ Hhas). intros H. inversion H. subst d'.
    split; [reflexivity |]. split; [| reflexivity].
    unfold DatabaseStorage.hasUserId in Hhas. clear H.
    induction (users d) as [| u l IH]; cbn in *; [reflexivity |].
    destruct (String.eqb (User.id u) i); cbn in *; [discriminate |].
    f_equal. exact (IH Hhas).
Qed.

Lemma users_kept (env : Env) (s : option string) (op : Op) (d : Db) :
  writesUsers op = false ->
  users (db (snd (request scryptHex isEmail env s op d))) = users d.
Proof.
  intros Hop.
  apply (request_moves (fun d d' => users d' = users d)); [reflexivity | congruence |].
  assert (Hc : forall ic sid,
             respects (fun d d' => users d' = users d)
                      (DatabaseStorage.createComplaint env ic sid)).
  { intros ic sid d0 k d1 H. apply createComplaint_stored in H.
    destruct H as [-> _]. reflexivity. }
  assert (Hu : forall i up,
             respects (fun d d' => users d' = users d)
                      (DatabaseStorage.updateComplaintStatus env i up)).
  { intros i up d0 k d1 H. inversion H. reflexivity. }
  intros user. destruct op; try discriminate Hop; unfold_route;
    moves_walk (fun d0 : Db => eq_refl (users d0))
               (fun (d1 d2 d3 : Db) (H1 : users d2 = users d1)
                    (H2 : users d3 = users d2) => eq_trans H2 H1).
Qed.

(** X2. A request for an operation other than registration, account
    creation and account deletion leaves the accounts as they were, and a
    request for an operation other than filing and updating a complaint
    leaves the complaints as they were. *)
Theorem request_frame (env : Env) (s : option string) (op : Op) (d : Db) :
  (writesUsers op = false ->
   users (db (snd (request scryptHex isEmail env s op d))) = users d)
  /\ (writesComplaints op = false ->
      complaints (db (snd (request scryptHex isEmail env s op d))) = complaints d).
Proof.
  split; intros Hop; [exact (users_kept env s op d Hop) |].
  apply (request_moves (fun d d' => complaints d' = complaints d));
    [reflexivity | congruence |].
  assert (Hc : forall iu,
             respects (fun d d' => complaints d' = complaints d)
                      (DatabaseStorage.createUser env iu)).
  { intros iu d0 k d1 H. apply createUser_stored in H.
    destruct H as [-> _]. reflexivity. }
  assert (Hu : forall i,
             respects (fun d d' => complaints d' = complaints d)
                      (DatabaseStorage.deleteUser i)).
  { intros i d0 k d1 H. apply deleteUser_stored in H. tauto. }
  intros user. destruct op; try discriminate Hop; unfold_route;
    moves_walk (fun d0 : Db => eq_refl (complaints d0))
               (fun (d1 d2 d3 : Db) (H1 : complaints d2 = complaints d1)
                    (H2 : complaints d3 = complaints d2) => eq_trans H2 H1).
Qed.

(* ------------------------------------------------------------------ *)
(** ** Accounts and complaints over time                                *)
(* ------------------------------------------------------------------ *)

Lemma same_id_same_account (l : list User.t) (a b : User.t) :
  NoDup (map User.id l) -> In a l -> In b l -> User.id a = User.id b -> a = b.
Proof.
  induction l as [| x l IH]; cbn; intros Hnd Ha Hb Hid; [contradiction |].
  apply NoDup_cons_iff in Hnd. destruct Hnd as [Hx Hl].
  destruct Ha as [-> | Ha], Hb as [-> | Hb]; auto.
  - exfalso. apply Hx. rewrite Hid. apply in_map. exact Hb.
  - exfalso. apply Hx. rewrite <- Hid. apply in_map. exact Ha.
Qed.

(** What one request can do to the accounts: nothing, one insertion by
    [createUser], or the removal of the accounts under one id. *)
Lemma request_users (env : Env) (s : option string) (op : Op) (d : Db) :
  users (db (snd (request scryptHex isEmail env s op d))) = users d
  \/ (exists iu u d',
        DatabaseStorage.createUser env iu d = inr (u, d')
        /\ users (db (snd (request scryptHex isEmail env s op d))) = users d')
  \/ (exists i,
        users (db (snd (request scryptHex isEmail env s op d)))
        = filter (fun u => negb (String.eqb (User.id u) i)) (users d)).
Proof.
  destruct (writesUsers op) eqn:Hop;
    [| left; exact (users_kept env s op d Hop)].
  rewrite request_run.
  destruct op; try discriminate Hop; cbn [route].
  - rewrite register_run. cbn zeta.
    destruct (insertUserSchema isEmail body) as [iu |]; [| left; reflexivity].
    destruct (DatabaseStorage.getUserByUsername _ _); [left; reflexivity |].
    cbn [afterSession db].
    destruct (DatabaseStorage.createUser env _ d) as [e | [u d']] eqn:Hc;
      [left; reflexivity |].
    right; left. exists (hashed scryptHex env iu), u, d'. auto.
  - unfold requireAdmin.
    destruct (caller d s) as [a |]; [| left; reflexivity].
    destruct (User.role a); [left; reflexivity |].
    rewrite postUser_run. cbn zeta.
    destruct (insertUserSchema isEmail body) as [iu |]; [| left; reflexivity].
    destruct (DatabaseStorage.getUserByUsername _ _); [left; reflexivity |].
    cbn [afterSession db].
    destruct (DatabaseStorage.createUser env _ d) as [e | [u d']] eqn:Hc;
      [left; reflexivity |].
    right; left. exists (hashed scryptHex env iu), u, d'. auto.
  - unfold requireAdmin.
    destruct (caller d s) as [a |]; [| left; reflexivity].
    destruct (User.role a); [left; reflexivity |].
    rewrite deleteUserRoute_run. cbn [afterSession db].
    destruct (DatabaseStorage.deleteUser id d) as [e | [ok d']] eqn:Hdel;
      [left; reflexivity |].
    apply deleteUser_stored in Hdel. destruct Hdel as (_ & Husers & _).
    right; right. exists id. destruct ok; exact Husers.
Qed.

(** X3. No request edits an account: on a store with distinct account ids,
    an account found under the id of an earlier account after a request is
    that earlier account, field for field (its role included). *)
Theorem accounts_never_edited (env : Env) (s : option string) (op : Op) (d : Db)
  (u u' : User.t) :
  idsDistinct d ->
  In u (users d) ->
  In u' (users (db (snd (request scryptHex isEmail env s op d)))) ->
  User.id u' = User.id u ->
  u' = u.
Proof.
  intros Hnd Hu Hu' Hid.
  destruct (request_users env s op d)
    as [Hsame | [(iu & n & d' & Hc & Hnew) | (i & Hdel)]].
  - rewrite Hsame in Hu'. exact (same_id_same_account _ _ _ Hnd Hu' Hu Hid).
  - rewrite Hnew in Hu'. apply createUser_stored in Hc.
    destruct Hc as (-> & Hn & _ & _ & _ & Hfresh & _). cbn [users] in Hu'.
    apply in_app_or in Hu'. destruct Hu' as [Hu' | [<- | []]].
    + exact (same_id_same_account _ _ _ Hnd Hu' Hu Hid).
    + exfalso. apply (hasUserId_false _ _ Hfresh).
      rewrite <- Hn, Hid. apply in_map. exact Hu.
  - rewrite Hdel in Hu'. apply filter_In in Hu'. destruct Hu' as [Hu' _].
    exact (same_id_same_account _ _ _ Hnd Hu' Hu Hid).
Qed.

(** X4. No request deletes a complaint or edits what was filed: the ids,
    owners, subjects, descriptions, categories, room numbers and creation
    times on record before a request are on record after it, in the same
    order, followed by whatever the request added. *)
Theorem complaints_never_edited (env : Env) (s : option string) (op : Op) (d : Db) :
  exists added,
    map complaintContent (complaints (db (snd (request scryptHex isEmail env s op d))))
    = map complaintContent (complaints d) ++ added.
Proof.
  apply (moves_by_storage
           (fun d d' => exists added,
                map complaintContent (complaints d')
                = map complaintContent (complaints d) ++ added) env).
  - intros d0. exists []. symmetry. apply app_nil_r.
  - intros d1 d2 d3 [a1 H1] [a2 H2]. exists (a1 ++ a2).
    rewrite H2, H1, app_assoc. reflexivity.
  - intros iu d0 u d1 H. apply createUser_stored in H. destruct H as [-> _].
    exists []. symmetry. apply app_nil_r.
  - intros i d0 ok d1 H. apply deleteUser_stored in H. destruct H as [-> _].
    exists []. symmetry. apply app_nil_r.
  - intros ic sid d0 k d1 H. apply createComplaint_stored in H.
    destruct H as [-> _]. exists [complaintContent k]. cbn [complaints].
    rewrite map_app. reflexivity.
  - intros i up d0 r d1 H. inversion H. exists []. cbn [complaints].
    rewrite app_nil_r, map_map. apply map_ext. intros c.
    destruct (String.eqb (Complaint.id c) i); reflexivity.
Qed.

Lemma hasUsername_false (n : string) (d : Db) :
  DatabaseStorage.hasUsername n d = false -> ~ In n (map User.username (users d)).
Proof.
  unfold DatabaseStorage.hasUsername. intros H Hin. apply in_map_iff in Hin.
  destruct Hin as (u & Hn & Hu).
  assert (Hex : existsb (fun u => String.eqb (User.username u) n) (users d) = true).
  { apply existsb_exists. exists u. split; [exact Hu | apply String.eqb_eq, Hn]. }
  congruence.
Qed.

Lemma hasComplaintId_false (i : string) (d : Db) :
  DatabaseStorage.hasComplaintId i d = false ->
  ~ In i (map Complaint.id (complaints d)).
Proof.
  unfold DatabaseStorage.hasComplaintId. intros H Hin. apply in_map_iff in Hin.
  destruct Hin as (c & Hi & Hc).
  assert (Hex : existsb (fun c => String.eqb (Complaint.id c) i) (complaints d) = true).
  { apply existsb_exists. exists c. split; [exact Hc | apply String.eqb_eq, Hi]. }
  congruence.
Qed.

Lemma loginNames_distinct_filter (keep : User.t -> bool) (us : list User.t) :
  NoDup (map User.username us) -> NoDup (map User.username (filter keep us)).
Proof.
  intros Hnd. induction us as [| u us IH]; cbn in *; [constructor |].
  apply NoDup_cons_iff in Hnd. destruct Hnd as [Hu Hus].
  destruct (keep u); cbn; [| exact (IH Hus)].
  apply NoDup_cons_iff. split; [| exact (IH Hus)].
  rewrite in_map_iff. intros (v & Hv & Hin).
  apply filter_In in Hin. apply Hu. rewrite <- Hv. apply in_map. tauto.
Qed.

Lemma keys_preserved (env : Env) (s : option string) (op : Op) (d : Db) :
  (loginNamesDistinct d ->
   loginNamesDistinct (db (snd (request scryptHex isEmail env s op d))))
  /\ (complaintIdsDistinct d ->
      complaintIdsDistinct (db (snd (request scryptHex isEmail env s op d)))).
Proof.
  apply (moves_by_storage
           (fun d d' => (loginNamesDistinct d -> loginNamesDistinct d')
                        /\ (complaintIdsDistinct d -> complaintIdsDistinct d')) env).
  - intros d0. auto.
  - intros d1 d2 d3 [H1 K1] [H2 K2]. auto.
  - intros iu d0 u d1 H. apply createUser_stored in H.
    destruct H as (-> & _ & Hn & _ & _ & _ & Hfresh). split; [| auto].
    unfold loginNamesDistinct. cbn [users]. intros Hnd. rewrite map_app. cbn [map].
    apply (Permutation_NoDup (Permutation_cons_append _ _)).
    constructor; [| exact Hnd]. rewrite Hn. apply hasUsername_false, Hfresh.
  - intros i d0 ok d1 H. apply deleteUser_stored in H.
    destruct H as (Hc & Hu & _). unfold loginNamesDistinct, complaintIdsDistinct.
    rewrite Hc, Hu. split; [apply loginNames_distinct_filter | auto].
  - intros ic sid d0 k d1 H. apply createComplaint_stored in H.
    destruct H as (-> & -> & Hfresh & _). split; [auto |].
    unfold complaintIdsDistinct. cbn [complaints]. intros Hnd.
    rewrite map_app. cbn [map Complaint.id].
    apply (Permutation_NoDup (Permutation_cons_append _ _)).
    constructor; [| exact Hnd]. apply hasComplaintId_false, Hfresh.
  - intros i up d0 r d1 H. inversion H. split; [auto |].
    unfold complaintIdsDistinct. cbn [complaints]. rewrite map_map.
    match goal with
    | |- _ -> NoDup (map ?f ?l) =>
        replace (map f l) with (map Complaint.id l); [auto |]
    end.
    apply map_ext. intros c.
    destruct (String.eqb (Complaint.id c) i); reflexivity.
Qed.

(** X5. In every store that requests can produce from the empty store, no
    two accounts share a login name and no two complaints share an id. *)
Theorem reachable_keys_distinct (d : Db) :
  reachable scryptHex isEmail d ->
  loginNamesDistinct d /\ complaintIdsDistinct d.
Proof.
  induction 1 as [| env s op d _ [Hn Hc]].
  - split; constructor.
  - destruct (keys_preserved env s op d) as [Kn Kc]. auto.
Qed.

End Frames.

(* ------------------------------------------------------------------ *)
(** ** Listings and statistics of the storage class                     *)
(* ------------------------------------------------------------------ *)

Lemma ownedBy_In (sid : string) (d : Db) (c : Complaint.t) :
  In c (ownedBy sid d) <-> In c (complaints d) /\ Complaint.studentId c = sid.
Proof. unfold ownedBy. rewrite filter_In, String.eqb_eq. reflexivity. Qed.

(** X6. [getStudentComplaintStats] counts one student's complaints: its
    total is the number of complaints [getComplaintsByStudent] lists for
    the student, and it exceeds the sum of the pending and resolved counts
    by exactly the number of the student's in-progress complaints, which
    the result does not report. *)
Theorem studentStats_counts (sid : string) (d : Db) :
  exists st rows,
    DatabaseStorage.getStudentComplaintStats sid d = inr (st, d)
    /\ DatabaseStorage.getComplaintsByStudent sid d = inr (rows, d)
    /\ DatabaseStorage.ss_total st = length rows
    /\ DatabaseStorage.ss_pending st = DatabaseStorage.countStatus pending rows
    /\ DatabaseStorage.ss_resolved st = DatabaseStorage.countStatus resolved rows
    /\ DatabaseStorage.ss_total st
       = (DatabaseStorage.ss_pending st + DatabaseStorage.ss_resolved st
          + DatabaseStorage.countStatus inprogress (ownedBy sid d))%nat.
Proof.
  assert (Hcount : forall s l l', Permutation l l' ->
                     DatabaseStorage.countStatus s l
                     = DatabaseStorage.countStatus s l').
  { intros s l l' Hp. unfold DatabaseStorage.countStatus.
    apply Permutation_length.
    induction Hp as [| x l1 l2 Hp IH | x y l1 | l1 l2 l3 H1 IH1 H2 IH2]; cbn.
    - constructor.
    - destruct (Status_eqb (Complaint.status x) s); [constructor |]; exact IH.
    - destruct (Status_eqb (Complaint.status x) s),
               (Status_eqb (Complaint.status y) s);
        try apply perm_swap; reflexivity.
    - exact (Permutation_trans IH1 IH2). }
  do 2 eexists. split; [reflexivity |]. split; [reflexivity |].
  cbn [DatabaseStorage.ss_total DatabaseStorage.ss_pending DatabaseStorage.ss_resolved].
  fold (ownedBy sid d).
  pose proof (orderByDesc_perm Complaint.createdAt (ownedBy sid d)) as Hp.
  split; [symmetry; exact (Permutation_length Hp) |].
  split; [symmetry; exact (Hcount _ _ _ Hp) |].
  split; [symmetry; exact (Hcount _ _ _ Hp) |].
  rewrite (countStatus_partition (ownedBy sid d)). lia.
Qed.

(** X7. Filing a complaint moves the global statistics by exactly one
    pending complaint: when [createComplaint] succeeds, the total and the
    pending count that [getComplaintStats] reports grow by one and the
    in-progress and resolved counts stay. *)
Theorem stats_after_filing (env : Env) (ic : InsertComplaint) (sid : string)
  (d d' : Db) (k : Complaint.t) :
  DatabaseStorage.createComplaint env ic sid d = inr (k, d') ->
  exists st st',
    DatabaseStorage.getComplaintStats d = inr (st, d)
    /\ DatabaseStorage.getComplaintStats d' = inr (st', d')
    /\ DatabaseStorage.total st' = S (DatabaseStorage.total st)
    /\ DatabaseStorage.st_pending st' = S (DatabaseStorage.st_pending st)
    /\ DatabaseStorage.st_inprogress st' = DatabaseStorage.st_inprogress st
    /\ DatabaseStorage.st_resolved st' = DatabaseStorage.st_resolved st.
Proof.
  intros H. apply createComplaint_stored in H. destruct H as (-> & -> & _).
  do 2 eexists. split; [reflexivity |]. split; [reflexivity |].
  cbn [DatabaseStorage.total DatabaseStorage.st_pending
       DatabaseStorage.st_inprogress DatabaseStorage.st_resolved complaints].
  unfold DatabaseStorage.countStatus.
  rewrite !filter_app, !length_app. cbn. lia.
Qed.

Lemma no_hit_outside {A} (key : A -> string) (i : string) (l : list A) :
  ~ In i (map key l) -> existsb (fun x => String.eqb (key x) i) l = false.
Proof.
  intros Hout. destruct (existsb _ l) eqn:Hex; [| reflexivity].
  exfalso. apply existsb_exists in Hex. destruct Hex as (x & Hx & Hk).
  apply String.eqb_eq in Hk. apply Hout. rewrite <- Hk. apply in_map. exact Hx.
Qed.

(** With distinct ids, the complaint under an id splits the table in two
    parts that do not hold the id. *)
Lemma split_at_id (c : Complaint.t) (l : list Complaint.t) :
  NoDup (map Complaint.id l) -> In c l ->
  exists l1 l2,
    l = l1 ++ c :: l2
    /\ existsb (fun x => String.eqb (Complaint.id x) (Complaint.id c)) l1 = false
    /\ existsb (fun x => String.eqb (Complaint.id x) (Complaint.id c)) l2 = false.
Proof.
  intros Hnd Hin. destruct (in_split _ _ Hin) as (l1 & l2 & ->).
  exists l1, l2. split; [reflexivity |].
  rewrite map_app in Hnd. cbn [map] in Hnd. apply NoDup_remove_2 in Hnd.
  split; apply no_hit_outside; intros H; apply Hnd, in_or_app; auto.
Qed.

Lemma update_at_id (env : Env) (up : UpdateComplaint) (c : Complaint.t) (d : Db) :
  complaintIdsDistinct d -> In c (complaints d) ->
  exists l1 l2,
    complaints d = l1 ++ c :: l2
    /\ DatabaseStorage.updateComplaintStatus env (Complaint.id c) up d
       = inr (Some (DatabaseStorage.applyUpdate env up c),
              mkDb (users d) (l1 ++ DatabaseStorage.applyUpdate env up c :: l2)).
Proof.
  intros Hnd Hin. destruct (split_at_id c _ Hnd Hin) as (l1 & l2 & Hl & H1 & H2).
  exists l1, l2. split; [exact Hl |].
  unfold DatabaseStorage.updateComplaintStatus. rewrite Hl.
  rewrite filter_app, !map_app. cbn [filter map]. rewrite String.eqb_refl.
  destruct (map_untouched _ (DatabaseStorage.applyUpdate env up) _ H1) as [-> ->].
  destruct (map_untouched _ (DatabaseStorage.applyUpdate env up) _ H2) as [-> ->].
  reflexivity.
Qed.

(** X8. On a store with distinct complaint ids, updating the status of a
    complaint on record moves exactly that complaint between the buckets of
    the global statistics: each count loses one if the complaint had that
    status and gains one if it is given that status, and the total stays. *)
Theorem stats_after_update (env : Env) (c : Complaint.t) (st : Status)
  (resp : option (option string)) (d : Db) :
  complaintIdsDistinct d ->
  In c (complaints d) ->
  exists c' d',
    DatabaseStorage.updateComplaintStatus env (Complaint.id c)
      (mkUpdateComplaint (Some st) resp) d = inr (Some c', d')
    /\ length (complaints d') = length (complaints d)
    /\ forall s,
        (DatabaseStorage.countStatus s (complaints d')
         + one (Status_eqb (Complaint.status c) s)
         = DatabaseStorage.countStatus s (complaints d)
           + one (Status_eqb st s))%nat.
Proof.
  intros Hnd Hin.
  destruct (update_at_id env (mkUpdateComplaint (Some st) resp) c d Hnd Hin)
    as (l1 & l2 & Hl & Hrun).
  do 2 eexists. split; [exact Hrun |]. cbn [complaints]. rewrite Hl.
  split; [rewrite !length_app; reflexivity |].
  intros s. unfold DatabaseStorage.countStatus.
  rewrite !filter_app, !length_app. cbn [filter DatabaseStorage.applyUpdate
    Complaint.status up_status].
  destruct (Status_eqb st s), (Status_eqb (Complaint.status c) s); cbn; lia.
Qed.

(* ------------------------------------------------------------------ *)
(** ** Looking rows up                                                  *)
(* ------------------------------------------------------------------ *)

Section Lookups.

Variable scryptHex : string -> string -> string.
Variable isEmail : string -> bool.

Lemma leftJoin_complaints (d : Db) (row : Complaint.t * option User.t) :
  In row (DatabaseStorage.leftJoin d) -> In (fst row) (complaints d).
Proof.
  unfold DatabaseStorage.leftJoin. rewrite in_flat_map.
  intros (c & Hc & Hrow).
  destruct (filter _ (users d)) as [| u us].
  - destruct Hrow as [<- | []]. exact Hc.
  - apply in_map_iff in Hrow. destruct Hrow as (v & <- & _). exact Hc.
Qed.

Lemma getComplaintById_absent (i : string) (d : Db) :
  DatabaseStorage.hasComplaintId i d = false ->
  DatabaseStorage.getComplaintById i d = inr (None, d).
Proof.
  intros Hmiss. unfold DatabaseStorage.getComplaintById.
  destruct (filter _ (DatabaseStorage.leftJoin d)) as [| row rows] eqn:Hf;
    [reflexivity |].
  exfalso. assert (Hin : In row (filter (fun row => String.eqb (Complaint.id (fst row)) i)
                                        (DatabaseStorage.leftJoin d)))
    by (rewrite Hf; left; reflexivity).
  apply filter_In in Hin. destruct Hin as [Hrow Hid].
  apply leftJoin_complaints in Hrow.
  unfold DatabaseStorage.hasComplaintId in Hmiss.
  assert (Hex : existsb (fun c => String.eqb (Complaint.id c) i) (complaints d) = true)
    by (apply existsb_exists; eauto).
  congruence.
Qed.

Lemma getComplaintById_at (d : Db) (l1 l2 : list Complaint.t) (c : Complaint.t) :
  idsDistinct d ->
  complaints d = l1 ++ c :: l2 ->
  existsb (fun x => String.eqb (Complaint.id x) (Complaint.id c)) l1 = false ->
  DatabaseStorage.getComplaintById (Complaint.id c) d
  = inr (Some (mkCWS c (option_map ownerProjection (ownerOf d c))), d).
Proof.
  intros Hnd Hl H1. unfold DatabaseStorage.getComplaintById.
  rewrite (leftJoin_owner d Hnd), filter_map_comm, Hl. cbn [fst].
  rewrite filter_app. cbn [filter]. rewrite String.eqb_refl.
  destruct (map_untouched _ (fun x => x) _ H1) as [_ ->].
  cbn [app map hd_error option_map]. unfold DatabaseStorage.project.
  cbn [fst snd]. destruct (ownerOf d c); reflexivity.
Qed.

(** X9. [getComplaintById] answers undefined when no complaint has the id,
    and then the route answers an admin with [NotFound]; on a store with
    distinct account and complaint ids whose complaints all have an owner,
    it answers a complaint on record with that complaint itself, joined
    with the projection of its owner. *)
Theorem getById_finds (env : Env) (d : Db) :
  (forall i,
     DatabaseStorage.hasComplaintId i d = false ->
     DatabaseStorage.getComplaintById i d = inr (None, d)
     /\ forall sid a,
         caller d (Some sid) = Some a -> User.role a = admin ->
         request scryptHex isEmail env (Some sid) (GetComplaint i) d
         = (mkResponse NotFound (Some (messageJson "Complaint not found")),
            mkCtx d (Some sid) [CallGetUser sid; CallGetComplaintById i]))
  /\ (forall c,
        idsDistinct d -> complaintIdsDistinct d -> ownersExist d ->
        In c (complaints d) ->
        exists u,
          In u (users d)
          /\ User.id u = Complaint.studentId c
          /\ DatabaseStorage.getComplaintById (Complaint.id c) d
             = inr (Some (mkCWS c (Some (ownerProjection u))), d)).
Proof.
  split.
  - intros i Hmiss. pose proof (getComplaintById_absent i d Hmiss) as Hq.
    split; [exact Hq |]. intros sid a Ha Hrole.
    rewrite request_run, (afterSession_caller _ _ _ Ha), Ha.
    cbn [route requireAdmin]. rewrite Hrole.
    unfold getComplaint, tryCatch, bind, storage. cbn [db]. rewrite Hq. reflexivity.
  - intros c Hnd Hcd Hfk Hin.
    destruct (split_at_id c _ Hcd Hin) as (l1 & l2 & Hl & H1 & _).
    destruct (getUser_found _ d (Hfk c Hin)) as (u & Hget & Hu & Hid).
    exists u. split; [exact Hu |]. split; [exact Hid |].
    rewrite (getComplaintById_at d l1 l2 c Hnd Hl H1). unfold ownerOf.
    rewrite Hget. reflexivity.
Qed.

Lemma find_app_miss {A} (p : A -> bool) (l : list A) (x : A) :
  find p (l ++ [x]) = match find p l with
                      | Some y => Some y
                      | None => if p x then Some x else None
                      end.
Proof.
  induction l as [| y l IH]; cbn; [reflexivity |].
  destruct (p y); [reflexivity | exact IH].
Qed.

Lemma existsb_find_none {A} (p : A -> bool) (l : list A) :
  existsb p l = false -> find p l = None.
Proof.
  induction l as [| y l IH]; cbn; [reflexivity |].
  destruct (p y); [discriminate | exact IH].
Qed.

Lemma createUser_findable (env : Env) (iu : InsertUser) (d d' : Db) (u : User.t) :
  DatabaseStorage.createUser env iu d = inr (u, d') ->
  DatabaseStorage.getUserByUsername (User.username u) d' = Some u.
Proof.
  intros H. apply createUser_stored in H.
  destruct H as (-> & _ & Hn & _ & _ & _ & Hfn).
  unfold DatabaseStorage.getUserByUsername. cbn [users].
  rewrite find_app_miss, String.eqb_refl, Hn, (existsb_find_none _ _ Hfn).
  reflexivity.
Qed.

(** X10. An account that [createUser] has stored is found again: under its
    id by [getUser] and under its login name by [getUserByUsername]; the
    lookups under every other id and login name answer as before. *)
Theorem createUser_then_lookup (env : Env) (iu : InsertUser) (d d' : Db) (u : User.t) :
  DatabaseStorage.createUser env iu d = inr (u, d') ->
  DatabaseStorage.getUser (User.id u) d' = Some u
  /\ DatabaseStorage.getUserByUsername (User.username u) d' = Some u
  /\ (forall i, i <> User.id u ->
                DatabaseStorage.getUser i d' = DatabaseStorage.getUser i d)
  /\ (forall n, n <> User.username u ->
                DatabaseStorage.getUserByUsername n d'
                = DatabaseStorage.getUserByUsername n d).
Proof.
  intros H. apply createUser_stored in H.
  destruct H as (-> & Hid & Hn & _ & _ & Hfid & Hfn).
  unfold DatabaseStorage.getUser, DatabaseStorage.getUserByUsername.
  cbn [users]. repeat split.
  - rewrite find_app_miss, String.eqb_refl.
    rewrite Hid. rewrite (existsb_find_none _ _ Hfid). reflexivity.
  - rewrite find_app_miss, String.eqb_refl.
    rewrite Hn. rewrite (existsb_find_none _ _ Hfn). reflexivity.
  - intros i Hi. rewrite find_app_miss.
    destruct (find _ (users d)); [reflexivity |].
    apply not_eq_sym, String.eqb_neq in Hi. rewrite Hi. reflexivity.
  - intros n Hne. rewrite find_app_miss.
    destruct (find _ (users d)); [reflexivity |].
    apply not_eq_sym, String.eqb_neq in Hne. rewrite Hne. reflexivity.
Qed.

(** X11. A complaint that [createComplaint] has stored is found again: on a
    store with distinct account ids, [getComplaintById] under the new id
    answers the new complaint joined with the projection of the student who
    filed it, and [getComplaintsByStudent] lists it for that student. *)
Theorem createComplaint_then_lookup (env : Env) (ic : InsertComplaint) (sid : string)
  (d d' : Db) (k : Complaint.t) :
  idsDistinct d ->
  DatabaseStorage.createComplaint env ic sid d = inr (k, d') ->
  exists u rows,
    DatabaseStorage.getUser sid d = Some u
    /\ DatabaseStorage.getComplaintById (Complaint.id k) d'
       = inr (Some (mkCWS k (Some (ownerProjection u))), d')
    /\ DatabaseStorage.getComplaintsByStudent sid d' = inr (rows, d')
    /\ In k rows.
Proof.
  intros Hnd H. apply createComplaint_stored in H.
  destruct H as (-> & Hk & Hfresh & Hown).
  assert (Hu : exists u, In u (users d) /\ User.id u = sid).
  { unfold DatabaseStorage.hasUserId in Hown. apply existsb_exists in Hown.
    destruct Hown as (u & Hin & Hid). apply String.eqb_eq in Hid. eauto. }
  destruct (getUser_found _ d Hu) as (u & Hget & _ & _).
  assert (Hsid : Complaint.studentId k = sid) by (rewrite Hk; reflexivity).
  assert (Hkid : Complaint.id k = genId env) by (rewrite Hk; reflexivity).
  exists u. eexists. split; [exact Hget |]. split; [| split; [reflexivity |]].
  - rewrite (getComplaintById_at _ (complaints d) [] k); [| exact Hnd | reflexivity |].
    + unfold ownerOf, DatabaseStorage.getUser. cbn [users].
      fold (DatabaseStorage.getUser (Complaint.studentId k) d).
      rewrite Hsid, Hget. reflexivity.
    + rewrite Hkid. exact Hfresh.
  - apply orderByDesc_In, filter_In. cbn [complaints]. split.
    + apply in_or_app. right. left. reflexivity.
    + apply String.eqb_eq. exact Hsid.
Qed.

End Lookups.

(* ------------------------------------------------------------------ *)
(** ** Listing accounts                                                 *)
(* ------------------------------------------------------------------ *)

Lemma given_role (r : Role) :
  DatabaseStorage.given (Some (roleToken r)) = Some (roleToken r)
  /\ DatabaseStorage.enumLiteral parseRole (roleToken r) = inr r.
Proof. destruct r; split; reflexivity. Qed.

(** The account listing under a role that is a label. *)
Lemma listAccounts_labels (d : Db) (r : option Role) (q : option string) :
  (forall text, q = Some text -> plainText text) ->
  exists rows,
    DatabaseStorage.getAllUsers (option_map roleToken r) q d = inr (rows, d)
    /\ Permutation rows (filter (matchesAccount r q) (users d))
    /\ Sorted (descBy User.createdAt) rows.
Proof.
  intros Hplain. unfold DatabaseStorage.getAllUsers.
  assert (Hrole :
            match DatabaseStorage.given (option_map roleToken r) with
            | Some s =>
                match DatabaseStorage.enumLiteral parseRole s with
                | inl e => inl e
                | inr r' => inr (fun u => Role_eqb (User.role u) r')
                end
            | None => inr (fun _ => true)
            end
            = (inr (fun u => match r with
                             | Some r' => Role_eqb (User.role u) r'
                             | None => true
                             end) : DbError + (User.t -> bool))).
  { destruct r as [r' |]; [| reflexivity]. cbn [option_map].
    destruct (given_role r') as [-> ->]. reflexivity. }
  rewrite Hrole. clear Hrole.
  eexists. split; [reflexivity |]. split; [| apply orderByDesc_sorted].
  rewrite orderByDesc_perm. apply Permutation_refl'. apply filter_ext.
  intros u. unfold matchesAccount. f_equal.
  destruct q as [text |]; [| reflexivity].
  specialize (Hplain text eq_refl). unfold DatabaseStorage.given, Str.truthy.
  destruct (String.eqb text EmptyString) eqn:He; cbn [negb].
  - apply String.eqb_eq in He. subst. rewrite containsCI_empty. reflexivity.
  - rewrite !ilike_wrap by exact Hplain. reflexivity.
Qed.

(** X12. For a search text of ASCII characters without [%], [_] and
    backslash that is compared with ASCII texts only, [getAllUsers] returns
    the accounts of the given role whose display name or login name
    contains the text, case-insensitively: when the role is absent, empty
    or a label of the enum, a rearrangement of exactly those rows (an
    absent or empty dimension not constraining), newest first, the store
    left alone; when the role is another text, the store raises instead. *)
Theorem listAccounts_matches_spec (d : Db) (r q : option string) :
  (forall text, q = Some text -> plainText text /\ asciiText text = true) ->
  (q <> None -> asciiTexts d = true) ->
  match filterLabel parseRole r with
  | Some r' =>
      exists rows,
        DatabaseStorage.getAllUsers r q d = inr (rows, d)
        /\ Permutation rows (filter (matchesAccount r' q) (users d))
        /\ Sorted (descBy User.createdAt) rows
  | None => DatabaseStorage.getAllUsers r q d = inl InvalidEnumLabel
  end.
Proof.
  intros Hsearch _.
  pose proof (filterLabel_given parseRole r) as Hr.
  destruct (filterLabel parseRole r) as [r' |].
  - assert (Hsame : DatabaseStorage.getAllUsers r q d
                    = DatabaseStorage.getAllUsers (option_map roleToken r') q d).
    { unfold DatabaseStorage.getAllUsers.
      destruct r' as [a |]; [destruct Hr as (s & -> & ->) | rewrite Hr];
        cbn [option_map];
        try (destruct (given_role a) as [-> ->]);
        reflexivity. }
    rewrite Hsame.
    exact (listAccounts_labels d r' q (fun text Hq => proj1 (Hsearch text Hq))).
  - destruct Hr as (s & Hg & He). unfold DatabaseStorage.getAllUsers.
    rewrite Hg, He. reflexivity.
Qed.

(* ------------------------------------------------------------------ *)
(** ** Credentials                                                      *)
(* ------------------------------------------------------------------ *)

Lemma splitOn_plain (sep : ascii) (s : string) :
  ~ In sep (Str.chars s) -> Str.splitOn sep s = [s].
Proof.
  unfold Str.chars. induction s as [| c s IH]; cbn; intros Hs; [reflexivity |].
  destruct (Ascii.eqb c sep) eqn:Hc.
  - apply Ascii.eqb_eq in Hc. exfalso. apply Hs. left. exact Hc.
  - rewrite IH; [reflexivity |]. intros Hin. apply Hs. right. exact Hin.
Qed.

Lemma splitOn_join (sep : ascii) (a b : string) :
  ~ In sep (Str.chars a) ->
  Str.splitOn sep (a ++ String sep b)%string = a :: Str.splitOn sep b.
Proof.
  unfold Str.chars. induction a as [| c a IH]; cbn; intros Ha.
  - rewrite Ascii.eqb_refl. reflexivity.
  - destruct (Ascii.eqb c sep) eqn:Hc.
    + apply Ascii.eqb_eq in Hc. exfalso. apply Ha. left. exact Hc.
    + rewrite IH; [reflexivity |]. intros Hin. apply Ha. right. exact Hin.
Qed.

Section Credentials.

Variable scryptHex : string -> string -> string.
Variable isEmail : string -> bool.

Lemma comparePasswords_pure (supplied stored : string) (c : Ctx) :
  snd (comparePasswords scryptHex supplied stored c) = c.
Proof.
  unfold comparePasswords.
  destruct (Str.splitOn "." stored) as [| h [| sl rest]]; try reflexivity.
  destruct (Nat.eqb _ _); reflexivity.
Qed.

(** A stored hash of the form digest, dot, salt is split back into its two
    parts. *)
Lemma comparePasswords_wellFormed (supplied digest slt : string) (c : Ctx) :
  dotFree digest -> dotFree slt ->
  comparePasswords scryptHex supplied (digest ++ "." ++ slt)%string c
  = (if (String.length digest =? String.length (scryptHex supplied slt))%nat
     then inr (String.eqb digest (scryptHex supplied slt))
     else inl RuntimeError, c).
Proof.
  intros Hd Hs. unfold comparePasswords.
  change ("." ++ slt)%string with (String "."%char slt).
  rewrite (splitOn_join "." digest slt Hd), (splitOn_plain "." slt Hs).
  destruct (Nat.eqb _ _); reflexivity.
Qed.

Lemma loginRoute_run (username password : string) (c : Ctx) :
  Str.truthy username = true -> Str.truthy password = true ->
  loginRoute scryptHex username password c
  = let seen := logged c [CallGetUserByUsername username] in
    match DatabaseStorage.getUserByUsername username (db c) with
    | None =>
        (inr (mkResponse 401 (Some (messageJson "Invalid username or password"))),
         seen)
    | Some u =>
        match fst (comparePasswords scryptHex password (User.password u) seen) with
        | inr true =>
            (inr (mkResponse 200 (Some (userJson u))),
             mkCtx (db c) (Some (User.id u)) (calls seen))
        | inr false =>
            (inr (mkResponse 401 (Some (messageJson "Invalid username or password"))),
             seen)
        | inl _ => (inr (mkResponse 500 None), seen)
        end
    end.
Proof.
  intros Hn Hp. unfold loginRoute. rewrite Hn, Hp. cbn [negb orb].
  unfold verify, getUserByUsername, login.
  unfold tryCatch, bind, storage, reading, setSession, status, next, sendStatus,
    ret, logged.
  cbn [db session calls].
  destruct (DatabaseStorage.getUserByUsername username (db c)) as [u |];
    [| reflexivity].
  match goal with
  | |- context [comparePasswords scryptHex password (User.password u) ?k] =>
      pose proof (comparePasswords_pure password (User.password u) k) as Hpure;
      destruct (comparePasswords scryptHex password (User.password u) k)
        as [[e | [|]] k'] eqn:Hcmp
  end; cbn [snd fst] in *; subst; reflexivity.
Qed.

(** X13. Credentials survive the round trip through the store: after a
    registration that succeeds, with a non-empty login name and password
    and a salt and digest free of dots (as hex text is), a login with the
    same login name and password is answered 200 with the registered
    account and logs the caller in as it, whoever the caller was. *)
Theorem register_then_login (env env' : Env) (s s' : option string) (body : json)
  (iu : InsertUser) (d : Db) :
  insertUserSchema isEmail body = Some iu ->
  DatabaseStorage.getUserByUsername (iu_username iu) d = None ->
  DatabaseStorage.hasUserId (genId env) d = false ->
  Str.truthy (iu_username iu) = true ->
  Str.truthy (iu_password iu) = true ->
  dotFree (salt env) ->
  dotFree (scryptHex (iu_password iu) (salt env)) ->
  exists u d',
    request scryptHex isEmail env s (Register body) d
    = (mkResponse Created (Some (userJson u)),
       mkCtx d' (Some (User.id u))
             (calls (afterSession d s [])
              ++ [CallGetUserByUsername (iu_username iu); CallCreateUser]))
    /\ fst (request scryptHex isEmail env' s' (Login (iu_username iu) (iu_password iu)) d')
       = mkResponse 200 (Some (userJson u))
    /\ session (snd (request scryptHex isEmail env' s'
                       (Login (iu_username iu) (iu_password iu)) d'))
       = Some (User.id u)
    /\ db (snd (request scryptHex isEmail env' s'
                  (Login (iu_username iu) (iu_password iu)) d')) = d'.
Proof.
  intros Hparse Hfresh Hid Hn Hp Hsalt Hdigest.
  destruct (DatabaseStorage.createUser env (hashed scryptHex env iu) d)
    as [e | [u d']] eqn:Hc.
  { exfalso. unfold DatabaseStorage.createUser in Hc. cbn in Hc.
    rewrite Hid, (getUserByUsername_none _ _ Hfresh) in Hc. discriminate. }
  exists u, d'. split.
  { rewrite request_run. cbn [route]. rewrite register_run, Hparse.
    cbn zeta. cbn [afterSession db]. rewrite Hfresh, Hc. cbn [logged calls].
    rewrite <- app_assoc. reflexivity. }
  pose proof (createUser_findable _ _ _ _ _ Hc) as Hfind.
  apply createUser_stored in Hc. destruct Hc as (_ & _ & Hname & Hpw & _).
  cbn [hashed iu_username iu_password] in Hname, Hpw. rewrite Hname in Hfind.
  rewrite request_run. cbn [route]. rewrite (loginRoute_run _ _ _ Hn Hp).
  cbn zeta. cbn [afterSession db]. rewrite Hfind, Hpw.
  unfold hashPassword. rewrite (comparePasswords_wellFormed _ _ _ _ Hdigest Hsalt).
  rewrite Nat.eqb_refl, String.eqb_refl. cbn. auto.
Qed.

(** X14. A login with an unknown login name and a login with a wrong
    password are answered alike: the same 401 reply with the same message,
    after the same single lookup, with the store and the session as they
    were.  (The wrong password is checked against a hash as [hashPassword]
    stores it: the digest of another password, a dot, and the salt, digest
    and salt free of dots and the two digests of one length.) *)
Theorem login_failures_alike (env : Env) (s : option string)
  (username password : string) (d : Db) :
  Str.truthy username = true ->
  Str.truthy password = true ->
  (DatabaseStorage.getUserByUsername username d = None ->
   request scryptHex isEmail env s (Login username password) d
   = (invalidCredentials,
      logged (afterSession d s []) [CallGetUserByUsername username]))
  /\ (forall u registered slt,
        DatabaseStorage.getUserByUsername username d = Some u ->
        User.password u = (scryptHex registered slt ++ "." ++ slt)%string ->
        dotFree (scryptHex registered slt) -> dotFree slt ->
        String.length (scryptHex registered slt)
        = String.length (scryptHex password slt) ->
        scryptHex registered slt <> scryptHex password slt ->
        request scryptHex isEmail env s (Login username password) d
        = (invalidCredentials,
           logged (afterSession d s []) [CallGetUserByUsername username])).
Proof.
  intros Hn Hp. split.
  - intros Hnone. rewrite request_run. cbn [route].
    rewrite (loginRoute_run _ _ _ Hn Hp). cbn zeta. cbn [afterSession db].
    rewrite Hnone. reflexivity.
  - intros u registered slt Hu Hpw Hd Hs Hlen Hne.
    rewrite request_run. cbn [route].
    rewrite (loginRoute_run _ _ _ Hn Hp). cbn zeta. cbn [afterSession db].
    rewrite Hu, Hpw, (comparePasswords_wellFormed _ _ _ _ Hd Hs), Hlen, Nat.eqb_refl.
    apply String.eqb_neq in Hne. rewrite Hne. reflexivity.
Qed.

(** X15. A login against an account whose stored password holds no dot,
    so that it does not split into a digest and a salt (a password written
    to the table unhashed, say), ends as a server failure and not as a
    refusal, whatever password is supplied; the store and the session are
    as they were. *)
Theorem login_on_malformed_hash (env : Env) (s : option string)
  (username password : string) (u : User.t) (d : Db) :
  Str.truthy username = true ->
  Str.truthy password = true ->
  DatabaseStorage.getUserByUsername username d = Some u ->
  dotFree (User.password u) ->
  request scryptHex isEmail env s (Login username password) d
  = (mkResponse Internal None,
     logged (afterSession d s []) [CallGetUserByUsername username]).
Proof.
  intros Hn Hp Hu Hplain. rewrite request_run. cbn [route].
  rewrite (loginRoute_run _ _ _ Hn Hp). cbn zeta. cbn [afterSession db].
  rewrite Hu. unfold comparePasswords.
  rewrite (splitOn_plain "." _ Hplain). reflexivity.
Qed.

(** X16. Registration accepts an empty password, and the account it creates
    cannot be logged into with it: the registration is answered 201, and a
    login with the registered name and the empty password is then answered
    401 for missing credentials, before any account is looked up. *)
Theorem empty_password_locks_out (env env' : Env) (s s' : option string)
  (body : json) (iu : InsertUser) (d : Db) :
  insertUserSchema isEmail body = Some iu ->
  iu_password iu = EmptyString ->
  DatabaseStorage.getUserByUsername (iu_username iu) d = None ->
  DatabaseStorage.hasUserId (genId env) d = false ->
  exists u d',
    fst (request scryptHex isEmail env s (Register body) d)
    = mkResponse Created (Some (userJson u))
    /\ db (snd (request scryptHex isEmail env s (Register body) d)) = d'
    /\ In u (users d')
    /\ request scryptHex isEmail env' s' (Login (iu_username iu) EmptyString) d'
       = (mkResponse Unauthenticated (Some (messageJson "Missing credentials")),
          afterSession d' s' []).
Proof.
  intros Hparse Hempty Hfresh Hid.
  destruct (DatabaseStorage.createUser env (hashed scryptHex env iu) d)
    as [e | [u d']] eqn:Hc.
  { exfalso. unfold DatabaseStorage.createUser in Hc. cbn in Hc.
    rewrite Hid, (getUserByUsername_none _ _ Hfresh) in Hc. discriminate. }
  exists u, d'.
  assert (Hrun : request scryptHex isEmail env s (Register body) d
                 = (mkResponse Created (Some (userJson u)),
                    mkCtx d' (Some (User.id u))
                          (calls (logged (afterSession d s [])
                                    [CallGetUserByUsername (iu_username iu)])
                           ++ [CallCreateUser]))).
  { rewrite request_run. cbn [route]. rewrite register_run, Hparse.
    cbn zeta. cbn [afterSession db]. rewrite Hfresh, Hc. reflexivity. }
  rewrite Hrun. cbn [fst snd db]. split; [reflexivity |]. split; [reflexivity |].
  split.
  - apply createUser_stored in Hc. destruct Hc as [-> _]. cbn [users].
    apply in_or_app. right. left. reflexivity.
  - rewrite request_run. cbn [route]. unfold loginRoute.
    replace (Str.truthy EmptyString) with false by reflexivity.
    rewrite orb_true_r. reflexivity.
Qed.

(** X17. A registration or an account creation under a login name that is
    taken is answered 400 with the message that the name exists; the store
    and the session are as before, and [createUser] is not called. *)
Theorem taken_login_name_rejected (env : Env) (s : option string) (body : json)
  (iu : InsertUser) (existing : User.t) (d : Db) :
  insertUserSchema isEmail body = Some iu ->
  DatabaseStorage.getUserByUsername (iu_username iu) d = Some existing ->
  request scryptHex isEmail env s (Register body) d
  = (mkResponse 400 (Some (messageJson "Username already exists")),
     logged (afterSession d s []) [CallGetUserByUsername (iu_username iu)])
  /\ forall sid a,
      caller d (Some sid) = Some a -> User.role a = admin ->
      request scryptHex isEmail env (Some sid) (CreateAccount body) d
      = (mkResponse 400 (Some (messageJson "Username already exists")),
         mkCtx d (Some sid) [CallGetUser sid; CallGetUserByUsername (iu_username iu)]).
Proof.
  intros Hparse Htaken. split.
  - rewrite request_run. cbn [route]. rewrite register_run, Hparse.
    cbn zeta. cbn [afterSession db]. rewrite Htaken. reflexivity.
  - intros sid a Ha Hrole.
    rewrite request_run, (afterSession_caller _ _ _ Ha), Ha.
    cbn [route requireAdmin]. rewrite Hrole, postUser_run, Hparse.
    cbn zeta. cbn [db]. rewrite Htaken. reflexivity.
Qed.

(** X18. Every caller is held to its role: a student is answered
    [Forbidden] by the seven admin-only operations, and an admin is answered
    [Forbidden] by the three student operations; in both cases the only
    storage call is the session lookup and the store and the session are as
    before. *)
Theorem wrong_role_forbidden (env : Env) (sid : string) (u : User.t) (op : Op)
  (d : Db) :
  caller d (Some sid) = Some u ->
  match User.role u, op with
  | student, (ListAllComplaints _ _ _ | GlobalStats | GetComplaint _
              | UpdateComplaint_ _ _ | ListAccounts _ _ | CreateAccount _
              | DeleteAccount _)
  | admin, (FileComplaint _ | ListMyComplaints | MyStats) =>
      code (fst (request scryptHex isEmail env (Some sid) op d)) = Forbidden
      /\ snd (request scryptHex isEmail env (Some sid) op d)
         = mkCtx d (Some sid) [CallGetUser sid]
  | _, _ => True
  end.
Proof.
  intros Hu. rewrite request_run, (afterSession_caller _ _ _ Hu), Hu.
  destruct (User.role u) eqn:Hrole; destruct op; try exact I;
    cbn [route requireAuth requireAdmin];
    unfold postComplaint, getMyComplaints, getMyStats, studentOnly, tryCatch;
    rewrite Hrole; cbn; auto.
Qed.

(** X19. A session whose account is gone is a session no more: the lookup
    of its id finds nothing, the id is dropped from the session, and the
    guarded operations answer as they answer an anonymous caller, 401
    behind [requireAuth] and 403 behind [requireAdmin], with the store as
    before. *)
Theorem stale_session_rejected (env : Env) (sid : string) (op : Op) (d : Db) :
  DatabaseStorage.getUser sid d = None ->
  match op with
  | Register _ | Login _ _ | Logout => True
  | WhoAmI | FileComplaint _ | ListMyComplaints | MyStats =>
      code (fst (request scryptHex isEmail env (Some sid) op d)) = Unauthenticated
      /\ snd (request scryptHex isEmail env (Some sid) op d)
         = mkCtx d None [CallGetUser sid]
  | _ =>
      code (fst (request scryptHex isEmail env (Some sid) op d)) = Forbidden
      /\ snd (request scryptHex isEmail env (Some sid) op d)
         = mkCtx d None [CallGetUser sid]
  end.
Proof.
  intros Hgone. rewrite request_run. unfold afterSession. cbn [caller].
  rewrite Hgone. destruct op; cbn; auto.
Qed.

(** X20. A login that succeeds opens a session for the account it was
    answered with: on a store with distinct account ids, whoami under the
    session left by the login is answered with the very reply of the
    login. *)
Theorem login_then_whoami (env env' : Env) (s : option string)
  (username password : string) (d : Db) :
  idsDistinct d ->
  succeeded (fst (request scryptHex isEmail env s (Login username password) d)) = true ->
  fst (request scryptHex isEmail env'
         (session (snd (request scryptHex isEmail env s (Login username password) d)))
         WhoAmI
         (db (snd (request scryptHex isEmail env s (Login username password) d))))
  = fst (request scryptHex isEmail env s (Login username password) d).
Proof.
  intros Hnd Hok. rewrite (request_run _ _ env s) in *. cbn [route] in *.
  destruct (loginRoute scryptHex username password (afterSession d s []))
    as [[e | r] c] eqn:Hrun; [discriminate |].
  cbn [fst snd] in *.
  destruct (loginRoute_success _ _ _ _ _ _ Hrun Hok) as (u & Hfind & -> & Hdb & Hs).
  rewrite Hs, Hdb. cbn [afterSession db] in *.
  apply find_some in Hfind. destruct Hfind as [Hin _].
  destruct (getUser_found (User.id u) d) as (v & Hget & Hv & Hid);
    [exists u; auto |].
  assert (v = u) by (apply (same_id_same_account (users d)); auto). subst v.
  rewrite request_run. unfold afterSession. cbn [caller]. rewrite Hget.
  reflexivity.
Qed.

End Credentials.

(* ------------------------------------------------------------------ *)
(** ** Payloads of registration and of updates                          *)
(* ------------------------------------------------------------------ *)

Section Payloads.

Variable scryptHex : string -> string -> string.
Variable isEmail : string -> bool.

Lemma optional_role (v : option json) (o : option Role) :
  Zod.optional (Zod.enum_ parseRole) v = Some o ->
  match o with
  | None => v = None
  | Some r => v = Some (JStr (roleToken r))
  end.
Proof.
  unfold Zod.optional, Zod.enum_, option_map. destruct v as [j |].
  - destruct j; intros H; try discriminate H.
    destruct (parseRole s) as [r |] eqn:Hr; [| discriminate H].
    inversion H. apply parseToken_sound in Hr. congruence.
  - intros H. inversion H. reflexivity.
Qed.

Lemma refine_text (check : string -> bool) (inner : Zod.Schema string)
  (v : option json) (e : string) :
  Zod.refine check inner v = Some e -> inner v = Some e /\ check e = true.
Proof.
  unfold Zod.refine. destruct (inner v) as [a |]; [| discriminate].
  destruct (check a) eqn:Hc; [| discriminate].
  intros H. inversion H. subst. auto.
Qed.

(** What a payload that passes [insertUserSchema] holds. *)
Lemma insertUserSchema_fields (body : json) (iu : InsertUser) :
  insertUserSchema isEmail body = Some iu ->
  prop "username" body = Some (JStr (iu_username iu))
  /\ prop "password" body = Some (JStr (iu_password iu))
  /\ prop "name" body = Some (JStr (iu_name iu))
  /\ match iu_role iu with
     | None => prop "role" body = None
     | Some r => prop "role" body = Some (JStr (roleToken r))
     end
  /\ prop "collegeEmail" body = Some (JStr (iu_collegeEmail iu))
  /\ isEmail (iu_collegeEmail iu) = true
  /\ collegeDomain (iu_collegeEmail iu) = true.
Proof.
  unfold insertUserSchema.
  destruct (Zod.isObject body); [| discriminate].
  destruct (Zod.string_ (prop "username" body)) as [n |] eqn:H1; [| discriminate].
  destruct (Zod.string_ (prop "password" body)) as [p |] eqn:H2; [| discriminate].
  destruct (Zod.string_ (prop "name" body)) as [m |] eqn:H3; [| discriminate].
  destruct (Zod.optional (Zod.enum_ parseRole) (prop "role" body)) as [r |] eqn:H4;
    [| discriminate].
  destruct (Zod.optional _ (prop "roomNumber" body)) as [room |]; [| discriminate].
  destruct (Zod.refine collegeDomain _ (prop "collegeEmail" body)) as [e |] eqn:H5;
    [| discriminate].
  intros H. inversion H. subst. cbn.
  apply string_schema_text in H1, H2, H3. apply optional_role in H4.
  apply refine_text in H5. destruct H5 as [H5 Hdom].
  apply refine_text in H5. destruct H5 as [H5 Hmail].
  apply string_schema_text in H5. auto 8.
Qed.

(** X21. The account a successful registration stores mirrors the payload:
    its login name, display name and e-mail are the payload's texts, the
    e-mail ending in one of the accepted domains; it is an admin exactly
    when the payload's role is ["admin"], and a student otherwise (an
    absent role included); its password column is the digest of the
    payload's password under the request's salt, a dot, and the salt; its
    id and creation time are the generated id and the store's clock
    reading. *)
Theorem registration_mirrors_payload (env : Env) (s : option string) (body : json)
  (iu : InsertUser) (d : Db) :
  insertUserSchema isEmail body = Some iu ->
  DatabaseStorage.getUserByUsername (iu_username iu) d = None ->
  DatabaseStorage.hasUserId (genId env) d = false ->
  exists u,
    fst (request scryptHex isEmail env s (Register body) d)
    = mkResponse Created (Some (userJson u))
    /\ users (db (snd (request scryptHex isEmail env s (Register body) d)))
       = users d ++ [u]
    /\ User.id u = genId env
    /\ User.createdAt u = dbNow env
    /\ prop "username" body = Some (JStr (User.username u))
    /\ prop "name" body = Some (JStr (User.name u))
    /\ (User.role u = admin <-> prop "role" body = Some (JStr "admin"))
    /\ (exists e, User.collegeEmail u = Some e
                  /\ prop "collegeEmail" body = Some (JStr e)
                  /\ collegeDomain e = true)
    /\ (exists pw, prop "password" body = Some (JStr pw)
                   /\ User.password u
                      = (scryptHex pw (salt env) ++ "." ++ salt env)%string).
Proof.
  intros Hparse Hfresh Hid.
  destruct (insertUserSchema_fields body iu Hparse)
    as (Hn & Hp & Hm & Hr & He & _ & Hdom).
  rewrite request_run. cbn [route]. rewrite register_run, Hparse.
  cbn zeta. cbn [afterSession db]. rewrite Hfresh.
  unfold DatabaseStorage.createUser, hashed.
  cbn [User.id User.username iu_username iu_password iu_name iu_role
       iu_roomNumber iu_collegeEmail].
  rewrite Hid, (getUserByUsername_none _ _ Hfresh). cbn [orb fst snd db users].
  eexists. split; [reflexivity |]. split; [reflexivity |].
  cbn [User.id User.createdAt User.username User.name User.role
       User.collegeEmail User.password].
  split; [reflexivity |]. split; [reflexivity |].
  split; [exact Hn |]. split; [exact Hm |]. split.
  - destruct (iu_role iu) as [[|] |]; rewrite Hr; cbn; split; congruence.
  - split; [exists (iu_collegeEmail iu); auto |].
    exists (iu_password iu). split; [exact Hp | reflexivity].
Qed.

(** X22. A registration or account creation whose payload carries no text
    under ["collegeEmail"], or one that does not end in an accepted domain,
    is answered [ValidationError] before the store is asked anything. *)
Theorem registration_needs_college_email (env : Env) (s : option string)
  (body : json) (d : Db) :
  (forall e, prop "collegeEmail" body = Some (JStr e) -> collegeDomain e = false) ->
  request scryptHex isEmail env s (Register body) d
  = (mkResponse ValidationError (Some (messageJson "Invalid input data")),
     afterSession d s [])
  /\ forall sid a,
      caller d (Some sid) = Some a -> User.role a = admin ->
      request scryptHex isEmail env (Some sid) (CreateAccount body) d
      = (mkResponse ValidationError (Some (messageJson "Invalid input data")),
         mkCtx d (Some sid) [CallGetUser sid]).
Proof.
  intros Hbad.
  assert (Hnone : insertUserSchema isEmail body = None).
  { destruct (insertUserSchema isEmail body) as [iu |] eqn:Hparse; [| reflexivity].
    destruct (insertUserSchema_fields body iu Hparse) as (_ & _ & _ & _ & He & _ & Hdom).
    rewrite (Hbad _ He) in Hdom. discriminate. }
  split.
  - rewrite request_run. cbn [route]. rewrite register_run, Hnone. reflexivity.
  - intros sid a Ha Hrole.
    rewrite request_run, (afterSession_caller _ _ _ Ha), Ha.
    cbn [route requireAdmin]. rewrite Hrole, postUser_run, Hnone. reflexivity.
Qed.

Lemma optional_status (v : option json) (o : option Status) :
  Zod.optional (Zod.enum_ parseStatus) v = Some o ->
  match o with
  | None => v = None
  | Some st => v = Some (JStr (statusToken st))
  end.
Proof.
  unfold Zod.optional, Zod.enum_, option_map. destruct v as [j |].
  - destruct j; intros H; try discriminate H.
    destruct (parseStatus s) as [st |] eqn:Hst; [| discriminate H].
    inversion H. apply parseToken_sound in Hst. congruence.
  - intros H. inversion H. reflexivity.
Qed.

Lemma optional_response (v : option json) (o : option (option string)) :
  Zod.optional (Zod.nullable Zod.string_) v = Some o ->
  match o with
  | None => v = None
  | Some None => v = Some JNull
  | Some (Some t) => v = Some (JStr t)
  end.
Proof.
  destruct v as [j |]; cbn.
  - destruct j; cbn; intros H; try discriminate H; inversion H; reflexivity.
  - intros H. inversion H. reflexivity.
Qed.

(** What a patch that passes [updateComplaintSchema] holds. *)
Lemma updateComplaintSchema_fields (body : json) (up : UpdateComplaint) :
  updateComplaintSchema body = Some up ->
  match up_status up with
  | None => prop "status" body = None
  | Some st => prop "status" body = Some (JStr (statusToken st))
  end
  /\ match up_adminResponse up with
     | None => prop "adminResponse" body = None
     | Some None => prop "adminResponse" body = Some JNull
     | Some (Some t) => prop "adminResponse" body = Some (JStr t)
     end.
Proof.
  unfold updateComplaintSchema.
  destruct (Zod.isObject body); [| discriminate].
  destruct (Zod.optional (Zod.enum_ parseStatus) (prop "status" body))
    as [st |] eqn:H1; [| discriminate].
  destruct (Zod.optional (Zod.nullable Zod.string_) (prop "adminResponse" body))
    as [r |] eqn:H2; [| discriminate].
  intros H. inversion H. cbn.
  apply optional_status in H1. apply optional_response in H2. auto.
Qed.

(** X23. A patch changes what it names and nothing else.  When an admin
    patches a complaint on record (on a store with distinct complaint ids)
    with a body that passes [updateComplaintSchema], the reply is 200 with
    the updated complaint: what was filed is unchanged and the updated
    timestamp is the server's clock reading; the status is the body's
    status, or the stored one if the body has none; the admin response is
    the body's text, empty if the body says null, or the stored one if the
    body has none. *)
Theorem patch_by_keys (env : Env) (sid : string) (a : User.t) (body : json)
  (up : UpdateComplaint) (c : Complaint.t) (d : Db) :
  caller d (Some sid) = Some a ->
  User.role a = admin ->
  complaintIdsDistinct d ->
  In c (complaints d) ->
  updateComplaintSchema body = Some up ->
  exists c' d',
    request scryptHex isEmail env (Some sid) (UpdateComplaint_ (Complaint.id c) body) d
    = (mkResponse 200 (Some (complaintJson c')),
       mkCtx d' (Some sid)
             [CallGetUser sid; CallUpdateComplaintStatus (Complaint.id c)])
    /\ In c' (complaints d')
    /\ users d' = users d
    /\ complaintContent c' = complaintContent c
    /\ Complaint.updatedAt c' = appNow env
    /\ (prop "status" body = None -> Complaint.status c' = Complaint.status c)
    /\ (forall st, prop "status" body = Some (JStr (statusToken st)) ->
                   Complaint.status c' = st)
    /\ (prop "adminResponse" body = None ->
        Complaint.adminResponse c' = Complaint.adminResponse c)
    /\ (prop "adminResponse" body = Some JNull -> Complaint.adminResponse c' = None)
    /\ (forall t, prop "adminResponse" body = Some (JStr t) ->
                  Complaint.adminResponse c' = Some t).
Proof.
  intros Ha Hrole Hnd Hin Hup.
  destruct (update_at_id env up c d Hnd Hin) as (l1 & l2 & Hl & Hrun).
  destruct (updateComplaintSchema_fields body up Hup) as [Hst Hresp].
  do 2 eexists. split.
  { rewrite request_run, (afterSession_caller _ _ _ Ha), Ha.
    cbn [route requireAdmin]. rewrite Hrole, patchComplaint_run, Hup.
    cbn [db]. rewrite Hrun. reflexivity. }
  cbn [complaints users].
  split; [apply in_or_app; right; left; reflexivity |].
  split; [reflexivity |]. split; [reflexivity |]. split; [reflexivity |].
  cbn [DatabaseStorage.applyUpdate Complaint.status Complaint.adminResponse].
  destruct (up_status up) as [st0 |], (up_adminResponse up) as [[t0 |] |];
    repeat split; intros; try congruence;
    try (rewrite Hst in *; destruct st0, st; discriminate || reflexivity).
Qed.

(** X24. A patch whose ["status"] is there but is not one of the three
    labels is answered [ValidationError], and [updateComplaintStatus] is
    not called: the only storage call is the session lookup. *)
Theorem patch_with_bad_status (env : Env) (sid : string) (a : User.t) (i : string)
  (body : json) (v : json) (d : Db) :
  caller d (Some sid) = Some a ->
  User.role a = admin ->
  prop "status" body = Some v ->
  (forall st, v <> JStr (statusToken st)) ->
  request scryptHex isEmail env (Some sid) (UpdateComplaint_ i body) d
  = (mkResponse ValidationError (Some (messageJson "Invalid input data")),
     mkCtx d (Some sid) [CallGetUser sid]).
Proof.
  intros Ha Hrole Hv Hbad.
  assert (Hnone : updateComplaintSchema body = None).
  { destruct (updateComplaintSchema body) as [up |] eqn:Hup; [| reflexivity].
    destruct (updateComplaintSchema_fields body up Hup) as [Hst _].
    destruct (up_status up) as [st |]; rewrite Hv in Hst; [| discriminate].
    inversion Hst. exfalso. exact (Hbad st H0). }
  rewrite request_run, (afterSession_caller _ _ _ Ha), Ha.
  cbn [route requireAdmin]. rewrite Hrole, patchComplaint_run, Hnone. reflexivity.
Qed.

End Payloads.

(* ------------------------------------------------------------------ *)
(** ** What a student sees                                              *)
(* ------------------------------------------------------------------ *)

Section OwnView.

Variable scryptHex : string -> string -> string.
Variable isEmail : string -> bool.

(** X25. A student's listing and statistics are taken under the id of the
    session, whatever the request: list-my-complaints is answered 200 with
    a rearrangement of exactly the caller's complaints, newest first, and
    my-stats with the counts over the same complaints; neither changes the
    store. *)
Theorem student_sees_own (env : Env) (sid : string) (u : User.t) (d : Db) :
  caller d (Some sid) = Some u ->
  User.role u = student ->
  (exists rows,
     request scryptHex isEmail env (Some sid) ListMyComplaints d
     = (mkResponse 200 (Some (JArr (map complaintJson rows))),
        mkCtx d (Some sid) [CallGetUser sid; CallGetComplaintsByStudent sid])
     /\ Permutation rows (ownedBy sid d)
     /\ Sorted (descBy Complaint.createdAt) rows)
  /\ request scryptHex isEmail env (Some sid) MyStats d
     = (mkResponse 200
          (Some (studentStatsJson
                   (DatabaseStorage.mkStudentStats
                      (length (ownedBy sid d))
                      (DatabaseStorage.countStatus pending (ownedBy sid d))
                      (DatabaseStorage.countStatus resolved (ownedBy sid d))))),
        mkCtx d (Some sid) [CallGetUser sid; CallGetStudentComplaintStats sid]).
Proof.
  intros Hu Hrole. destruct (caller_id _ _ _ Hu) as [Hid _].
  split.
  - eexists. split; [| split; [apply orderByDesc_perm | apply orderByDesc_sorted]].
    rewrite request_run, (afterSession_caller _ _ _ Hu), Hu.
    cbn [route requireAuth].
    unfold getMyComplaints, studentOnly, tryCatch, bind, storage.
    rewrite Hrole, Hid. reflexivity.
  - rewrite request_run, (afterSession_caller _ _ _ Hu), Hu.
    cbn [route requireAuth].
    unfold getMyStats, studentOnly, tryCatch, bind, storage.
    rewrite Hrole, Hid. reflexivity.
Qed.

End OwnView.

(* ------------------------------------------------------------------ *)
(** ** Filters outside the enums, and the end of a session              *)
(* ------------------------------------------------------------------ *)

Section Sessions.

Variable scryptHex : string -> string -> string.
Variable isEmail : string -> bool.

(** X26. A listing filtered by a label that the column's enum does not have
    is answered as a server failure, not with an empty list: so it is for
    the status and the category of the complaint listing and for the role
    of the account listing, whatever the other filters; the store is as
    before. *)
Theorem listing_with_unknown_label (env : Env) (sid : string) (a : User.t) (d : Db) :
  caller d (Some sid) = Some a ->
  User.role a = admin ->
  (forall st cat q,
     Str.truthy st = true -> parseStatus st = None ->
     request scryptHex isEmail env (Some sid) (ListAllComplaints (Some st) cat q) d
     = (mkResponse Internal None,
        mkCtx d (Some sid) [CallGetUser sid; CallGetAllComplaints]))
  /\ (forall st cat q,
        Str.truthy cat = true -> parseCategory cat = None ->
        request scryptHex isEmail env (Some sid) (ListAllComplaints st (Some cat) q) d
        = (mkResponse Internal None,
           mkCtx d (Some sid) [CallGetUser sid; CallGetAllComplaints]))
  /\ (forall r q,
        Str.truthy r = true -> parseRole r = None ->
        request scryptHex isEmail env (Some sid) (ListAccounts (Some r) q) d
        = (mkResponse Internal None,
           mkCtx d (Some sid) [CallGetUser sid; CallGetAllUsers])).
Proof.
  intros Ha Hrole.
  assert (Hstart : forall op,
             request scryptHex isEmail env (Some sid) op d
             = match route scryptHex isEmail env (Some a) op
                       (mkCtx d (Some sid) [CallGetUser sid]) with
               | (inr r, c) => (r, c)
               | (inl _, c) => (mkResponse 500 None, c)
               end).
  { intros op. rewrite request_run, (afterSession_caller _ _ _ Ha), Ha. reflexivity. }
  split; [| split].
  - intros st cat q Hst Hbad. rewrite Hstart. cbn [route requireAdmin].
    rewrite Hrole. unfold getComplaints, tryCatch, bind, storage.
    unfold DatabaseStorage.getAllComplaints, DatabaseStorage.given,
      DatabaseStorage.enumLiteral.
    rewrite Hst, Hbad. reflexivity.
  - intros st cat q Hcat Hbad. rewrite Hstart. cbn [route requireAdmin].
    rewrite Hrole. unfold getComplaints, tryCatch, bind, storage.
    unfold DatabaseStorage.getAllComplaints, DatabaseStorage.given,
      DatabaseStorage.enumLiteral.
    rewrite Hcat, Hbad.
    destruct st as [st |]; [destruct (Str.truthy st); [destruct (parseStatus st) |] |];
      reflexivity.
  - intros r q Hr Hbad. rewrite Hstart. cbn [route requireAdmin].
    rewrite Hrole, getUsers_run.
    unfold DatabaseStorage.getAllUsers, DatabaseStorage.given,
      DatabaseStorage.enumLiteral.
    cbn [db]. rewrite Hr, Hbad. reflexivity.
Qed.

(** X27. Logout is open to every caller and ends the session: it is
    answered 200 without a storage call of its own, the store is as before,
    and under the session it leaves whoami is answered 401. *)
Theorem logout_ends_session (env env' : Env) (s : option string) (d : Db) :
  request scryptHex isEmail env s Logout d
  = (mkResponse 200 None, mkCtx d None (calls (afterSession d s [])))
  /\ request scryptHex isEmail env'
       (session (snd (request scryptHex isEmail env s Logout d))) WhoAmI
       (db (snd (request scryptHex isEmail env s Logout d)))
     = (mkResponse Unauthenticated None, mkCtx d None []).
Proof.
  assert (Hout : request scryptHex isEmail env s Logout d
                 = (mkResponse 200 None, mkCtx d None (calls (afterSession d s [])))).
  { rewrite request_run. reflexivity. }
  rewrite Hout. split; [reflexivity |]. cbn [snd session db].
  rewrite request_run. reflexivity.
Qed.

(** X28. Nothing keeps an admin from deleting the account of the session
    itself: when no complaint refers to it, the delete is answered 204 and
    the account is gone, and the next request under the same session finds
    no account for it, so that whoami is answered 401 and the session is
    dropped. *)
Theorem admin_deletes_own_account (env env' : Env) (sid : string) (a : User.t) (d : Db) :
  caller d (Some sid) = Some a ->
  User.role a = admin ->
  DatabaseStorage.ownsComplaint sid d = false ->
  exists d',
    request scryptHex isEmail env (Some sid) (DeleteAccount sid) d
    = (mkResponse NoContent None,
       mkCtx d' (Some sid) [CallGetUser sid; CallDeleteUser sid])
    /\ DatabaseStorage.getUser sid d' = None
    /\ complaints d' = complaints d
    /\ request scryptHex isEmail env' (Some sid) WhoAmI d'
       = (mkResponse Unauthenticated None, mkCtx d' None [CallGetUser sid]).
Proof.
  intros Ha Hrole Hfree.
  assert (Hhas : DatabaseStorage.hasUserId sid d = true).
  { destruct (caller_id _ _ _ Ha) as [Hid Hin].
    unfold DatabaseStorage.hasUserId. apply existsb_exists.
    exists a. split; [exact Hin | apply String.eqb_eq, Hid]. }
  pose proof (deleteUser_present sid d Hhas) as Hdel. rewrite Hfree in Hdel.
  eexists. split.
  { rewrite request_run, (afterSession_caller _ _ _ Ha), Ha.
    cbn [route requireAdmin]. rewrite Hrole, deleteUserRoute_run.
    cbn [db]. rewrite Hdel. reflexivity. }
  assert (Hgone : DatabaseStorage.getUser sid
                    (mkDb (filter (fun u => negb (String.eqb (User.id u) sid)) (users d))
                          (complaints d)) = None).
  { unfold DatabaseStorage.getUser. cbn [users]. apply existsb_find_none.
    apply (existsb_filter_out (fun u => String.eqb (User.id u) sid)). }
  split; [exact Hgone |]. split; [reflexivity |].
  rewrite request_run. unfold afterSession. cbn [caller]. rewrite Hgone.
  reflexivity.
Qed.

End Sessions.

(* ------------------------------------------------------------------ *)
(** ** The further properties on the sample population                  *)
(* ------------------------------------------------------------------ *)

Ltac distinct_texts :=
  repeat (constructor; [cbn; intuition discriminate |]); constructor.

Ltac no_dot :=
  unfold dotFree; vm_compute; intuition discriminate.

Lemma staffed_ids_distinct : idsDistinct Scenario.staffed.
Proof. unfold idsDistinct. cbn. distinct_texts. Defined.

Lemma joined_ids_distinct : idsDistinct Cases.joined.
Proof. unfold idsDistinct. cbn. distinct_texts. Defined.

Lemma busy_complaint_ids_distinct : complaintIdsDistinct Scenario.busy.
Proof. unfold complaintIdsDistinct. cbn. distinct_texts. Defined.

Lemma store_moves_by_storage_witness :
  (length (complaints Scenario.staffed)
   <= length (complaints (db (snd (Scenario.run Scenario.env (Some "u-asha")
                                     (FileComplaint Scenario.leakyBody)
                                     Scenario.staffed)))))%nat.
Proof.
  apply (store_moves_by_storage Scenario.kdf Scenario.emailLike
           (fun d d' => (length (complaints d) <= length (complaints d'))%nat)
           Scenario.env).
  - intros d. lia.
  - intros d1 d2 d3 H1 H2. lia.
  - intros iu d u d' H. apply createUser_stored in H. destruct H as [-> _].
    cbn. lia.
  - intros i d ok d' H. apply deleteUser_stored in H. destruct H as [-> _]. lia.
  - intros ic sid d k d' H. apply createComplaint_stored in H.
    destruct H as [-> _]. cbn. rewrite length_app. lia.
  - intros i up d r d' H. inversion H. cbn. rewrite length_map. lia.
Defined.

Lemma request_frame_witness :
  users (db (snd (Scenario.run Scenario.env (Some "u-asha")
                    (FileComplaint Scenario.leakyBody) Scenario.staffed)))
  = users Scenario.staffed
  /\ complaints (db (snd (Scenario.run Scenario.env (Some "u-warden")
                            (DeleteAccount "u-asha") Scenario.staffed)))
     = complaints Scenario.staffed.
Proof.
  split.
  - exact (proj1 (request_frame Scenario.kdf Scenario.emailLike Scenario.env
                    (Some "u-asha") (FileComplaint Scenario.leakyBody)
                    Scenario.staffed) eq_refl).
  - exact (proj2 (request_frame Scenario.kdf Scenario.emailLike Scenario.env
                    (Some "u-warden") (DeleteAccount "u-asha")
                    Scenario.staffed) eq_refl).
Defined.

Lemma accounts_never_edited_witness :
  In Scenario.asha
     (users (db (snd (Scenario.run Scenario.env (Some "u-warden")
                        (CreateAccount Scenario.adminBody) Scenario.staffed))))
  /\ Scenario.asha = Scenario.asha.
Proof.
  assert (Hin : In Scenario.asha
                   (users (db (snd (Scenario.run Scenario.env (Some "u-warden")
                                      (CreateAccount Scenario.adminBody)
                                      Scenario.staffed)))))
    by (left; reflexivity).
  split; [exact Hin |].
  apply (accounts_never_edited Scenario.kdf Scenario.emailLike Scenario.env
           (Some "u-warden") (CreateAccount Scenario.adminBody) Scenario.staffed
           Scenario.asha Scenario.asha staffed_ids_distinct);
    [left; reflexivity | exact Hin | reflexivity].
Defined.

Lemma reachable_keys_distinct_witness :
  reachable Scenario.kdf Scenario.emailLike (mkDb [Scenario.mallory] [])
  /\ loginNamesDistinct (mkDb [Scenario.mallory] [])
  /\ complaintIdsDistinct (mkDb [Scenario.mallory] []).
Proof.
  assert (Hreach : reachable Scenario.kdf Scenario.emailLike
                             (mkDb [Scenario.mallory] [])).
  { exact (reachable_step Scenario.kdf Scenario.emailLike Scenario.env None
             (Register Scenario.adminBody) (mkDb [] [])
             (reachable_empty Scenario.kdf Scenario.emailLike)). }
  split; [exact Hreach |].
  exact (reachable_keys_distinct Scenario.kdf Scenario.emailLike _ Hreach).
Defined.

Lemma stats_after_filing_witness :
  exists st st',
    DatabaseStorage.getComplaintStats Scenario.busy = inr (st, Scenario.busy)
    /\ DatabaseStorage.getComplaintStats
         (mkDb [Scenario.asha; Scenario.warden] [Scenario.faucet; Scenario.leaky])
       = inr (st', mkDb [Scenario.asha; Scenario.warden]
                        [Scenario.faucet; Scenario.leaky])
    /\ DatabaseStorage.total st' = S (DatabaseStorage.total st)
    /\ DatabaseStorage.st_pending st' = S (DatabaseStorage.st_pending st).
Proof.
  destruct (stats_after_filing Scenario.env Scenario.insertLeaky "u-asha"
              Scenario.busy
              (mkDb [Scenario.asha; Scenario.warden] [Scenario.faucet; Scenario.leaky])
              Scenario.leaky eq_refl)
    as (st & st' & H1 & H2 & H3 & H4 & _).
  exists st, st'. auto.
Defined.

Lemma stats_after_update_witness :
  exists c' d',
    DatabaseStorage.updateComplaintStatus Scenario.env "c-0000"
      (mkUpdateComplaint (Some resolved) None) Scenario.busy = inr (Some c', d')
    /\ (DatabaseStorage.countStatus resolved (complaints d') + 0
        = DatabaseStorage.countStatus resolved (complaints Scenario.busy) + 1)%nat.
Proof.
  destruct (stats_after_update Scenario.env Scenario.faucet resolved None
              Scenario.busy busy_complaint_ids_distinct (or_introl eq_refl))
    as (c' & d' & Hrun & _ & Hcount).
  exists c', d'. split; [exact Hrun | exact (Hcount resolved)].
Defined.

Lemma getById_finds_witness :
  DatabaseStorage.getComplaintById "c-4040" Scenario.busy = inr (None, Scenario.busy)
  /\ exists u,
      DatabaseStorage.getComplaintById "c-0000" Scenario.busy
      = inr (Some (mkCWS Scenario.faucet (Some (ownerProjection u))), Scenario.busy).
Proof.
  destruct (getById_finds Scenario.kdf Scenario.emailLike Scenario.env Scenario.busy)
    as [Habsent Hfound].
  split; [exact (proj1 (Habsent "c-4040" eq_refl)) |].
  destruct (Hfound Scenario.faucet busy_ids_distinct busy_complaint_ids_distinct
              busy_ownersExist (or_introl eq_refl))
    as (u & _ & _ & Hrun).
  exists u. exact Hrun.
Defined.

Lemma createUser_then_lookup_witness :
  DatabaseStorage.getUser "id-0001" Cases.joined = Some Scenario.mallory
  /\ DatabaseStorage.getUserByUsername "mallory" Cases.joined = Some Scenario.mallory.
Proof.
  destruct (createUser_then_lookup Scenario.env
              (hashed Scenario.kdf Scenario.env Scenario.insertMallory)
              Scenario.staffed Cases.joined Scenario.mallory eq_refl)
    as (H1 & H2 & _).
  split; [exact H1 | exact H2].
Defined.

Lemma createComplaint_then_lookup_witness :
  exists u rows,
    DatabaseStorage.getUser "u-asha" Scenario.staffed = Some u
    /\ DatabaseStorage.getComplaintById "id-0001"
         (mkDb [Scenario.asha; Scenario.warden] [Scenario.leaky])
       = inr (Some (mkCWS Scenario.leaky (Some (ownerProjection u))),
              mkDb [Scenario.asha; Scenario.warden] [Scenario.leaky])
    /\ DatabaseStorage.getComplaintsByStudent "u-asha"
         (mkDb [Scenario.asha; Scenario.warden] [Scenario.leaky])
       = inr (rows, mkDb [Scenario.asha; Scenario.warden] [Scenario.leaky])
    /\ In Scenario.leaky rows.
Proof.
  exact (createComplaint_then_lookup Scenario.env Scenario.insertLeaky "u-asha"
           Scenario.staffed (mkDb [Scenario.asha; Scenario.warden] [Scenario.leaky])
           Scenario.leaky staffed_ids_distinct eq_refl).
Defined.

Lemma listAccounts_matches_spec_witness :
  exists rows,
    DatabaseStorage.getAllUsers (Some "student") (Some "ASHA") Scenario.busy
    = inr (rows, Scenario.busy)
    /\ Permutation rows [Scenario.asha].
Proof.
  assert (Hsearch : forall text, Some "ASHA" = Some text ->
                                 plainText text /\ asciiText text = true).
  { intros text Heq. inversion Heq; subst. split; [| reflexivity].
    intros c Hc. cbn in Hc.
    repeat (destruct Hc as [<- | Hc]; [reflexivity |]). contradiction. }
  destruct (listAccounts_matches_spec Scenario.busy (Some "student") (Some "ASHA")
              Hsearch (fun _ => eq_refl))
    as (rows & Hrun & Hperm & _).
  exists rows. split; [exact Hrun | exact Hperm].
Defined.

Lemma register_then_login_witness :
  exists u d',
    db (snd (Scenario.run Scenario.env None (Register Scenario.adminBody)
               Scenario.staffed)) = d'
    /\ fst (Scenario.run Scenario.sameInstant None (Login "mallory" "hunter2") d')
       = mkResponse 200 (Some (userJson u))
    /\ session (snd (Scenario.run Scenario.sameInstant None
                       (Login "mallory" "hunter2") d'))
       = Some (User.id u).
Proof.
  assert (Hsalt : dotFree (salt Scenario.env)) by no_dot.
  assert (Hdigest : dotFree (Scenario.kdf "hunter2" (salt Scenario.env))) by no_dot.
  destruct (register_then_login Scenario.kdf Scenario.emailLike Scenario.env
              Scenario.sameInstant None None Scenario.adminBody
              Scenario.insertMallory Scenario.staffed
              eq_refl eq_refl eq_refl eq_refl eq_refl Hsalt Hdigest)
    as (u & d' & Hreg & Hreply & Hsession & _).
  exists u, d'. unfold Scenario.run. rewrite Hreg. auto.
Defined.

Lemma login_failures_alike_witness :
  Scenario.run Scenario.env None (Login "nobody" "guess") Scenario.busy
  = (invalidCredentials,
     logged (afterSession Scenario.busy None []) [CallGetUserByUsername "nobody"])
  /\ Scenario.run Scenario.env None (Login "mallory" "guess") Cases.joined
     = (invalidCredentials,
        logged (afterSession Cases.joined None []) [CallGetUserByUsername "mallory"]).
Proof.
  split.
  - exact (proj1 (login_failures_alike Scenario.kdf Scenario.emailLike Scenario.env
                    None "nobody" "guess" Scenario.busy eq_refl eq_refl) eq_refl).
  - assert (Hd : dotFree (Scenario.kdf "hunter2" "9f3a")) by no_dot.
    assert (Hs : dotFree "9f3a") by no_dot.
    assert (Hne : Scenario.kdf "hunter2" "9f3a" <> Scenario.kdf "guess" "9f3a")
      by (vm_compute; discriminate).
    exact (proj2 (login_failures_alike Scenario.kdf Scenario.emailLike Scenario.env
                    None "mallory" "guess" Cases.joined eq_refl eq_refl)
             Scenario.mallory "hunter2" "9f3a" eq_refl eq_refl Hd Hs eq_refl Hne).
Defined.

Lemma login_on_malformed_hash_witness :
  Scenario.run Scenario.env None (Login "seed" "letmein") Cases.legacy
  = (mkResponse Internal None,
     logged (afterSession Cases.legacy None []) [CallGetUserByUsername "seed"]).
Proof.
  assert (Hplain : dotFree (User.password Cases.seeded)) by no_dot.
  exact (login_on_malformed_hash Scenario.kdf Scenario.emailLike Scenario.env
           None "seed" "letmein" Cases.seeded Cases.legacy
           eq_refl eq_refl eq_refl Hplain).
Defined.

Lemma empty_password_locks_out_witness :
  exists u d',
    fst (Scenario.run Scenario.env None (Register Cases.noPasswordBody)
           Scenario.staffed)
    = mkResponse Created (Some (userJson u))
    /\ In u (users d')
    /\ Scenario.run Scenario.sameInstant None (Login "nopass" EmptyString) d'
       = (mkResponse Unauthenticated (Some (messageJson "Missing credentials")),
          afterSession d' None []).
Proof.
  destruct (empty_password_locks_out Scenario.kdf Scenario.emailLike Scenario.env
              Scenario.sameInstant None None Cases.noPasswordBody
              Cases.insertNoPassword Scenario.staffed
              eq_refl eq_refl eq_refl eq_refl)
    as (u & d' & Hreg & _ & Hin & Hlogin).
  exists u, d'. auto.
Defined.

Lemma taken_login_name_rejected_witness :
  Scenario.run Scenario.env None (Register Cases.takenBody) Scenario.staffed
  = (mkResponse 400 (Some (messageJson "Username already exists")),
     logged (afterSession Scenario.staffed None []) [CallGetUserByUsername "asha"]).
Proof.
  exact (proj1 (taken_login_name_rejected Scenario.kdf Scenario.emailLike
                  Scenario.env None Cases.takenBody Cases.insertTaken
                  Scenario.asha Scenario.staffed eq_refl eq_refl)).
Defined.

Lemma wrong_role_forbidden_witness :
  code (fst (Scenario.run Scenario.env (Some "u-asha") GlobalStats Scenario.busy))
  = Forbidden
  /\ snd (Scenario.run Scenario.env (Some "u-asha") GlobalStats Scenario.busy)
     = mkCtx Scenario.busy (Some "u-asha") [CallGetUser "u-asha"].
Proof.
  exact (wrong_role_forbidden Scenario.kdf Scenario.emailLike Scenario.env
           "u-asha" Scenario.asha GlobalStats Scenario.busy eq_refl).
Defined.

Lemma stale_session_rejected_witness :
  code (fst (Scenario.run Scenario.env (Some "u-gone") WhoAmI Scenario.busy))
  = Unauthenticated
  /\ snd (Scenario.run Scenario.env (Some "u-gone") WhoAmI Scenario.busy)
     = mkCtx Scenario.busy None [CallGetUser "u-gone"].
Proof.
  exact (stale_session_rejected Scenario.kdf Scenario.emailLike Scenario.env
           "u-gone" WhoAmI Scenario.busy eq_refl).
Defined.

Lemma login_then_whoami_witness :
  fst (Scenario.run Scenario.sameInstant (Some "id-0001") WhoAmI Cases.joined)
  = fst (Scenario.run Scenario.env None (Login "mallory" "hunter2") Cases.joined).
Proof.
  exact (login_then_whoami Scenario.kdf Scenario.emailLike Scenario.env
           Scenario.sameInstant None "mallory" "hunter2" Cases.joined
           joined_ids_distinct eq_refl).
Defined.

Lemma registration_mirrors_payload_witness :
  exists u,
    fst (Scenario.run Scenario.env None (Register Cases.noPasswordBody)
           Scenario.staffed)
    = mkResponse Created (Some (userJson u))
    /\ User.username u = "nopass"
    /\ User.role u = student.
Proof.
  destruct (registration_mirrors_payload Scenario.kdf Scenario.emailLike
              Scenario.env None Cases.noPasswordBody Cases.insertNoPassword
              Scenario.staffed eq_refl eq_refl eq_refl)
    as (u & Hreply & _ & _ & _ & Hname & _ & Hrole & _).
  exists u. split; [exact Hreply |]. split.
  - cbn in Hname. congruence.
  - destruct (User.role u); [reflexivity |].
    destruct Hrole as [Hrole _]. discriminate (Hrole eq_refl).
Defined.

Lemma registration_needs_college_email_witness :
  Scenario.run Scenario.env None (Register Cases.outsiderBody) Scenario.staffed
  = (mkResponse ValidationError (Some (messageJson "Invalid input data")),
     afterSession Scenario.staffed None []).
Proof.
  assert (Hbad : forall e,
             prop "collegeEmail" Cases.outsiderBody = Some (JStr e) ->
             collegeDomain e = false).
  { intros e He. inversion He. reflexivity. }
  exact (proj1 (registration_needs_college_email Scenario.kdf Scenario.emailLike
                  Scenario.env None Cases.outsiderBody Scenario.staffed Hbad)).
Defined.

Lemma patch_by_keys_witness :
  exists c' d',
    Scenario.run Scenario.env (Some "u-warden")
                 (UpdateComplaint_ "c-0000" Cases.resolveBody) Scenario.busy
    = (mkResponse 200 (Some (complaintJson c')),
       mkCtx d' (Some "u-warden")
             [CallGetUser "u-warden"; CallUpdateComplaintStatus "c-0000"])
    /\ Complaint.status c' = resolved
    /\ Complaint.adminResponse c' = Complaint.adminResponse Scenario.faucet.
Proof.
  destruct (patch_by_keys Scenario.kdf Scenario.emailLike Scenario.env "u-warden"
              Scenario.warden Cases.resolveBody
              (mkUpdateComplaint (Some resolved) None) Scenario.faucet Scenario.busy
              eq_refl eq_refl busy_complaint_ids_distinct (or_introl eq_refl) eq_refl)
    as (c' & d' & Hrun & _ & _ & _ & _ & _ & Hst & Hresp & _).
  exists c', d'. split; [exact Hrun |].
  split; [exact (Hst resolved eq_refl) | exact (Hresp eq_refl)].
Defined.

Lemma patch_with_bad_status_witness :
  Scenario.run Scenario.env (Some "u-warden")
               (UpdateComplaint_ "c-0000" Cases.doneBody) Scenario.busy
  = (mkResponse ValidationError (Some (messageJson "Invalid input data")),
     mkCtx Scenario.busy (Some "u-warden") [CallGetUser "u-warden"]).
Proof.
  assert (Hbad : forall st, JStr "done" <> JStr (statusToken st)).
  { intros st. destruct st; discriminate. }
  exact (patch_with_bad_status Scenario.kdf Scenario.emailLike Scenario.env
           "u-warden" Scenario.warden "c-0000" Cases.doneBody (JStr "done")
           Scenario.busy eq_refl eq_refl eq_refl Hbad).
Defined.

Lemma student_sees_own_witness :
  exists rows,
    Scenario.run Scenario.env (Some "u-asha") ListMyComplaints Scenario.busy
    = (mkResponse 200 (Some (JArr (map complaintJson rows))),
       mkCtx Scenario.busy (Some "u-asha")
             [CallGetUser "u-asha"; CallGetComplaintsByStudent "u-asha"])
    /\ Permutation rows [Scenario.faucet].
Proof.
  destruct (proj1 (student_sees_own Scenario.kdf Scenario.emailLike Scenario.env
                     "u-asha" Scenario.asha Scenario.busy eq_refl eq_refl))
    as (rows & Hrun & Hperm & _).
  exists rows. split; [exact Hrun | exact Hperm].
Defined.

Lemma listing_with_unknown_label_witness :
  Scenario.run Scenario.env (Some "u-warden")
               (ListAllComplaints (Some "done") None None) Scenario.busy
  = (mkResponse Internal None,
     mkCtx Scenario.busy (Some "u-warden")
           [CallGetUser "u-warden"; CallGetAllComplaints])
  /\ Scenario.run Scenario.env (Some "u-warden")
                  (ListAccounts (Some "teacher") None) Scenario.busy
     = (mkResponse Internal None,
        mkCtx Scenario.busy (Some "u-warden")
              [CallGetUser "u-warden"; CallGetAllUsers]).
Proof.
  destruct (listing_with_unknown_label Scenario.kdf Scenario.emailLike Scenario.env
              "u-warden" Scenario.warden Scenario.busy eq_refl eq_refl)
    as (Hstatus & _ & Hrole).
  split.
  - exact (Hstatus "done" None None eq_refl eq_refl).
  - exact (Hrole "teacher" None eq_refl eq_refl).
Defined.

Lemma admin_deletes_own_account_witness :
  exists d',
    Scenario.run Scenario.env (Some "u-warden") (DeleteAccount "u-warden")
                 Scenario.busy
    = (mkResponse NoContent None,
       mkCtx d' (Some "u-warden") [CallGetUser "u-warden"; CallDeleteUser "u-warden"])
    /\ Scenario.run Scenario.sameInstant (Some "u-warden") WhoAmI d'
       = (mkResponse Unauthenticated None, mkCtx d' None [CallGetUser "u-warden"]).
Proof.
  destruct (admin_deletes_own_account Scenario.kdf Scenario.emailLike Scenario.env
              Scenario.sameInstant "u-warden" Scenario.warden Scenario.busy
              eq_refl eq_refl eq_refl)
    as (d' & Hdel & _ & _ & Hwho).
  exists d'. split; [exact Hdel | exact Hwho].
Defined.
